(** * data_warehouse: path codec, metadata envelope, store and query runner

    A shallow embedding of [data_warehouse/__init__.py] (class [DataWarehouse])
    and the properties of its addressing scheme, its two-channel write
    protocol, its listing and its query pagination.

    Python strings are [string], Python [int] is [Z], a [dict] is an
    insertion-ordered association list, exceptions are values of [exn] carried
    by [result].  The collaborators the class talks to (clock, random source,
    the [easy_s3] handler, the Athena client) are a record of answers indexed
    by the history of interactions; the history itself is the state that the
    effectful methods thread. *)

From Stdlib Require Import List String Ascii ZArith Bool Arith Lia.
From Stdlib Require Import DecimalString DecimalZ.
Import ListNotations.

Open Scope list_scope.
Open Scope string_scope.

(** ** Exceptions and results *)

Inductive exn : Type :=
| ValueError (msg : string)
| AttributeError (msg : string)
| AssertionError
| IndexError (msg : string)
| KeyError (key : string)
| BackendError (msg : string).

Inductive result (A : Type) : Type :=
| Ok (a : A)
| Raise (e : exn).

Arguments Ok {A} a.
Arguments Raise {A} e.

Definition rbind {A B : Type} (m : result A) (k : A -> result B) : result B :=
  match m with
  | Ok a => k a
  | Raise e => Raise e
  end.

Declare Scope result_scope.
Delimit Scope result_scope with res.
Notation "x <- m ;; k" := (rbind m (fun x => k))
  (at level 61, m at next level, right associativity) : result_scope.
Notation "m ;; k" := (rbind m (fun _ => k))
  (at level 61, right associativity) : result_scope.

(** ** Python strings *)

Module PyStr.

Definition slash : ascii := "/"%char.
Definition dot : ascii := "."%char.

(** [s.split(sep)] for a one-character separator. *)
Fixpoint split (sep : ascii) (s : string) : list string :=
  match s with
  | EmptyString => [EmptyString]
  | String c r =>
      if Ascii.eqb c sep then EmptyString :: split sep r
      else match split sep r with
           | [] => [String c EmptyString]
           | h :: t => String c h :: t
           end
  end.

(** [sep.join(l)]. *)
Definition join (sep : string) (l : list string) : string := String.concat sep l.

(** [s.startswith(p)]. *)
Definition startswith (s p : string) : bool := String.prefix p s.

(** [s.find(sub) != -1]. *)
Definition contains (s sub : string) : bool :=
  match String.index 0 sub s with
  | Some _ => true
  | None => false
  end.

(** [s[-n:]] and [s[:-n]] for a positive literal [n]. *)
Definition last_n (n : nat) (s : string) : string :=
  String.substring (String.length s - n) n s.

Definition drop_last_n (n : nat) (s : string) : string :=
  String.substring 0 (String.length s - n) s.

(** [s.rfind(c)] for a one-character [c]; [None] stands for [-1]. *)
Fixpoint rfind_opt (c : ascii) (s : string) : option nat :=
  match s with
  | EmptyString => None
  | String a r =>
      match rfind_opt c r with
      | Some i => Some (S i)
      | None => if Ascii.eqb a c then Some 0 else None
      end
  end.

Definition rfind (c : ascii) (s : string) : Z :=
  match rfind_opt c s with
  | Some i => Z.of_nat i
  | None => (-1)%Z
  end.

(** [str(n)] for an [int]. *)
Definition of_int (n : Z) : string := NilZero.string_of_int (Z.to_int n).

(** [l[i]] on a list, for a non-negative literal index. *)
Definition item {A : Type} (l : list A) (i : nat) : result A :=
  match nth_error l i with
  | Some a => Ok a
  | None => Raise (IndexError "list index out of range")
  end.

(** [l[i] = v] on a list. *)
Fixpoint set_item {A : Type} (l : list A) (i : nat) (v : A) : result (list A) :=
  match l, i with
  | [], _ => Raise (IndexError "list assignment index out of range")
  | _ :: t, O => Ok (v :: t)
  | h :: t, S j =>
      match set_item t j v with
      | Ok t' => Ok (h :: t')
      | Raise e => Raise e
      end
  end.

End PyStr.

(** ** [os.path] (posixpath) *)

Module OsPath.

(** The loop of [genericpath._splitext] that skips the leading dots of the
    file name: [true] when a character other than the dot is met at an index
    in [[filenameIndex, filenameIndex + steps)]. *)
Fixpoint has_stem (p : string) (filenameIndex steps : nat) : bool :=
  match steps with
  | O => false
  | S k =>
      match String.get filenameIndex p with
      | Some c =>
          if Ascii.eqb c PyStr.dot then has_stem p (S filenameIndex) k else true
      | None => true
      end
  end.

Definition splitext (p : string) : string * string :=
  let sepIndex := PyStr.rfind PyStr.slash p in
  let dotIndex := PyStr.rfind PyStr.dot p in
  if ((sepIndex <? dotIndex)%Z
      && has_stem p (Z.to_nat (sepIndex + 1)) (Z.to_nat (dotIndex - (sepIndex + 1))))%bool
  then (String.substring 0 (Z.to_nat dotIndex) p,
        String.substring (Z.to_nat dotIndex) (String.length p - Z.to_nat dotIndex) p)
  else (p, EmptyString).

Definition basename (p : string) : string :=
  let i := Z.to_nat (PyStr.rfind PyStr.slash p + 1) in
  String.substring i (String.length p - i) p.

End OsPath.

(** ** The handler object *)

Record DataWarehouse : Type := {
  warehouse_name : string;
  bucket_name : string;
  table_name : string
}.

(** The namespace returned by [_parse_full_path]. *)
Record parsed_path : Type := {
  ns_full_path : string;
  ns_ext : string;
  ns_store_kind : string;
  ns_meta_or_value : string;
  ns_table_name : string;
  ns_gz : bool;
  ns_ymd : string
}.

Section PathCodec.

Variable self : DataWarehouse.

Definition _get_table_name (table_name0 : string) : string :=
  if String.eqb table_name0 "" then table_name self else table_name0.

(** Returns [None] where the Python function falls off its end. *)
Definition _get_warehouse_full_path (store_kind table_name0 user_path table_kind ymd : string)
    (is_meta : bool) : option string :=
  let table_name1 := _get_table_name table_name0 in
  let ymd_with_slash := if String.eqb ymd "" then "" else "/" ++ ymd in
  let meta_or_value := if is_meta then "meta" else "value" in
  let ext := snd (OsPath.splitext user_path) in
  let add_ext := if String.eqb ext ".parquet" then "" else ".gz" in
  let remaining_path :=
    table_kind ++ "/" ++ meta_or_value ++ "/" ++ table_name1 ++ ymd_with_slash
               ++ "/" ++ user_path ++ add_ext in
  if String.eqb store_kind "raw" then Some ("raw/" ++ remaining_path)
  else if String.eqb store_kind "discovery" then Some ("discovery/" ++ remaining_path)
  else None.

Definition _valid_full_path (full_path : string) : result unit :=
  if PyStr.startswith full_path ("default/" ++ warehouse_name self ++ "/")
  then Ok tt
  else Raise (ValueError ("invalid full_path " ++ full_path)).

Definition py_assert (b : bool) : result unit :=
  if b then Ok tt else Raise AssertionError.

Definition _parse_full_path (full_path : string) : result parsed_path :=
  (let is_gz := String.eqb (PyStr.last_n 3 full_path) ".gz" in
   let full_path := if is_gz then PyStr.drop_last_n 3 full_path else full_path in
   _valid_full_path full_path ;;
   let basename := OsPath.basename full_path in
   let ext := snd (OsPath.splitext basename) in
   let splited := PyStr.split PyStr.slash full_path in
   s0 <- PyStr.item splited 0 ;;
   py_assert (String.eqb s0 "default") ;;
   s1 <- PyStr.item splited 1 ;;
   py_assert (String.eqb s1 (warehouse_name self)) ;;
   store_kind <- PyStr.item splited 3 ;;
   meta_or_value <- PyStr.item splited 4 ;;
   table_name0 <- PyStr.item splited 5 ;;
   ymd <- PyStr.item splited 6 ;;
   Ok {| ns_full_path := full_path;
         ns_ext := ext;
         ns_store_kind := store_kind;
         ns_meta_or_value := meta_or_value;
         ns_table_name := table_name0;
         ns_gz := is_gz;
         ns_ymd := ymd |})%res.

Definition _get_meta_path_with_full_path (full_path : string) : result string :=
  (let splited := PyStr.split PyStr.slash full_path in
   splited <- PyStr.set_item splited 4 "meta" ;;
   Ok (PyStr.join "/" splited))%res.

(** The key an object is stored under: the handler's path behind the
    [default/{warehouse_name}/] prefix, as [_upgrade_meta] writes it. *)
Definition stored_key (warehouse_full_path : string) : string :=
  "default/" ++ warehouse_name self ++ "/" ++ warehouse_full_path.

End PathCodec.

(** ** Python values *)

#[warning="-register-all"]
Inductive pyval : Type :=
| PNone
| PBool (b : bool)
| PInt (n : Z)
| PStr (s : string)
| PList (l : list pyval)
| PDict (d : list (string * pyval)).

(** A [dict] with string keys: the items in insertion order. *)
Definition dict (V : Type) : Type := list (string * V).

Module Dict.

Section Ops.
Context {V : Type}.

Fixpoint get (k : string) (d : dict V) : option V :=
  match d with
  | [] => None
  | (k', v) :: r => if String.eqb k' k then Some v else get k r
  end.

(** [d[k] = v]: an existing key keeps its place, a new one goes last. *)
Fixpoint set (k : string) (v : V) (d : dict V) : dict V :=
  match d with
  | [] => [(k, v)]
  | (k', v') :: r => if String.eqb k' k then (k', v) :: r else (k', v') :: set k v r
  end.

Definition keys (d : dict V) : list string := map fst d.
Definition values (d : dict V) : list V := map snd d.

(** [dict(pairs)]: later pairs override earlier ones. *)
Definition of_pairs (l : list (string * V)) : dict V :=
  fold_left (fun d kv => set (fst kv) (snd kv) d) l [].

(** What every Python [dict] satisfies: no key occurs twice. *)
Definition wf (d : dict V) : Prop := NoDup (keys d).
End Ops.

End Dict.

Module PyVal.

Definition type_name (v : pyval) : string :=
  match v with
  | PNone => "NoneType"
  | PBool _ => "bool"
  | PInt _ => "int"
  | PStr _ => "str"
  | PList _ => "list"
  | PDict _ => "dict"
  end.

Definition is_list (v : pyval) : bool :=
  match v with PList _ => true | _ => false end.

Definition no_attribute {A : Type} (v : pyval) (attr : string) : result A :=
  Raise (AttributeError ("'" ++ type_name v ++ "' object has no attribute '" ++ attr ++ "'")).

(** [v.keys()] and [v.values()]. *)
Definition keys (v : pyval) : result (list string) :=
  match v with
  | PDict d => Ok (Dict.keys d)
  | _ => no_attribute v "keys"
  end.

Definition values (v : pyval) : result (list pyval) :=
  match v with
  | PDict d => Ok (Dict.values d)
  | _ => no_attribute v "values"
  end.

Definition dquote : ascii := ascii_of_nat 34.
Definition squote : ascii := ascii_of_nat 39.
Definition backslash : ascii := ascii_of_nat 92.

Fixpoint has_char (c : ascii) (s : string) : bool :=
  match s with
  | EmptyString => false
  | String a r => Ascii.eqb a c || has_char c r
  end.

Definition hex_digit (n : nat) : ascii :=
  match String.get n "0123456789abcdef" with
  | Some c => c
  | None => "0"%char
  end.

(** [str.isprintable] of one character.  A character of [string] stands for
    the code point of the same number, below 256; the code points that are not
    printable there are the controls (0-31 and 127-159), the no-break space
    (160) and the soft hyphen (173). *)
Definition isprintable (c : ascii) : bool :=
  let n := nat_of_ascii c in
  negb ((n <? 32)%nat || ((127 <=? n)%nat && (n <=? 160)%nat) || (n =? 173)%nat).

(** [repr] of one character of a [str] quoted with [q]. *)
Definition repr_char (q c : ascii) : string :=
  let n := nat_of_ascii c in
  if Ascii.eqb c backslash then String backslash (String backslash EmptyString)
  else if Ascii.eqb c q then String backslash (String q EmptyString)
  else if (n =? 10)%nat then String backslash "n"
  else if (n =? 13)%nat then String backslash "r"
  else if (n =? 9)%nat then String backslash "t"
  else if negb (isprintable c)
       then String backslash (String "x" (String (hex_digit (n / 16))
                                            (String (hex_digit (n mod 16)) EmptyString)))
  else String c EmptyString.

Fixpoint repr_chars (q : ascii) (s : string) : string :=
  match s with
  | EmptyString => EmptyString
  | String c r => repr_char q c ++ repr_chars q r
  end.

Definition repr_str (s : string) : string :=
  let q := if has_char squote s && negb (has_char dquote s) then dquote else squote in
  String q (repr_chars q s ++ String q EmptyString).

(** [repr(v)]. *)
Fixpoint repr (v : pyval) : string :=
  match v with
  | PNone => "None"
  | PBool true => "True"
  | PBool false => "False"
  | PInt n => PyStr.of_int n
  | PStr s => repr_str s
  | PList l => "[" ++ PyStr.join ", " (map repr l) ++ "]"
  | PDict d =>
      "{" ++ PyStr.join ", " (map (fun kv => repr_str (fst kv) ++ ": " ++ repr (snd kv)) d) ++ "}"
  end.

(** [str(v)]. *)
Definition str (v : pyval) : string :=
  match v with
  | PStr s => s
  | _ => repr v
  end.

End PyVal.

(** ** [csv.writer] with the default dialect *)

Module Csv.

Definition needs_quotes (s : string) : bool :=
  PyVal.has_char ","%char s || PyVal.has_char PyVal.dquote s
  || PyVal.has_char (ascii_of_nat 13) s || PyVal.has_char (ascii_of_nat 10) s.

Fixpoint double_quotes (s : string) : string :=
  match s with
  | EmptyString => EmptyString
  | String c r =>
      if Ascii.eqb c PyVal.dquote then String c (String c (double_quotes r))
      else String c (double_quotes r)
  end.

Definition quoted (s : string) : string :=
  String PyVal.dquote (double_quotes s ++ String PyVal.dquote EmptyString).

Definition field (v : pyval) : string :=
  let s := match v with PNone => EmptyString | _ => PyVal.str v end in
  if needs_quotes s then quoted s else s.

Definition lineterminator : string :=
  String (ascii_of_nat 13) (String (ascii_of_nat 10) EmptyString).

Definition writerow (row : list pyval) : string :=
  match map field row with
  | [EmptyString] => quoted EmptyString ++ lineterminator
  | fields => PyStr.join "," fields ++ lineterminator
  end.

Definition writerows (rows : list (list pyval)) : string :=
  String.concat EmptyString (map writerow rows).

End Csv.

(** [for x in l: ...] over a fallible body, collecting the results. *)
Fixpoint rmap {A B : Type} (f : A -> result B) (l : list A) : result (list B) :=
  match l with
  | [] => Ok []
  | a :: r =>
      match f a with
      | Ok b => match rmap f r with
                | Ok bs => Ok (b :: bs)
                | Raise e => Raise e
                end
      | Raise e => Raise e
      end
  end.

Definition _json_to_csv (json_data : pyval) : result string :=
  match json_data with
  | PList rows =>
      match rows with
      | [] => Ok EmptyString
      | first :: _ =>
          (header <- PyVal.keys first ;;
           body <- rmap PyVal.values rows ;;
           Ok (Csv.writerows (map PStr header :: body)))%res
      end
  | _ => Raise (ValueError "json data's type must be list.")
  end.

(** ** Collaborators and the history of interactions *)

(** What [datetime.datetime.now()] is used for: [str(now)] and
    [now.strftime("%Y-%m-%d")]. *)
Record datetime : Type := {
  dt_str : string;
  dt_ymd : string
}.

(** A listing entry of the storage handler. *)
Record s3_object : Type := {
  Key : string;
  attributes : dict pyval
}.

(** A row of an Athena result set: the [Data] list, a cell being [None] when
    it carries no ["VarCharValue"]. *)
Definition row : Type := list (option string).

(** A response of [get_query_results]. *)
Record raw_result : Type := {
  Rows : list row;
  NextToken : option string
}.

(** One interaction with a collaborator. *)
Inductive event : Type :=
| TimeNs
| Random (scale : nat)
| Now
| Sleep (seconds : Z)
| S3Save (path : option string) (value : pyval) (opts : dict pyval)
| S3Load (path : option string)
| S3LoadFile (full_path : string)
| S3ListObjects (prefix warehouse : string)
| S3Listdir (prefix : string)
| AthenaStart (query output_location : string)
| AthenaStatus (query_id : string)
| AthenaResults (query_id : string) (next_token : option string).

Definition history : Type := list event.

(** The collaborators: what each call answers after a given history (oldest
    interaction first).  [random_times h n] is [int(random.random() * n)]. *)
Record Runtime : Type := {
  time_ns : history -> Z;
  random_times : history -> nat -> nat;
  now : history -> datetime;
  s3_save : history -> option string -> pyval -> dict pyval -> result pyval;
  s3_load : history -> option string -> result pyval;
  s3_load_file : history -> string -> result pyval;
  s3_list_objects : history -> string -> string -> result (list s3_object);
  s3_listdir : history -> string -> result (list string);
  athena_start_query_execution : history -> string -> string -> result string;
  athena_get_query_execution : history -> string -> result string;
  athena_get_query_results : history -> string -> option string -> result raw_result
}.

(** Effectful methods: a history in, an outcome and the extended history out. *)
Definition M (A : Type) : Type := history -> result A * history.

Definition ret {A : Type} (a : A) : M A := fun h => (Ok a, h).

Definition raise {A : Type} (e : exn) : M A := fun h => (Raise e, h).

Definition lift {A : Type} (r : result A) : M A := fun h => (r, h).

Definition bind {A B : Type} (m : M A) (k : A -> M B) : M B :=
  fun h =>
    match m h with
    | (Ok a, h') => k a h'
    | (Raise e, h') => (Raise e, h')
    end.

(** A call: the collaborator answers after the history so far, and the call
    joins the history whether it succeeded or not. *)
Definition call {A : Type} (e : event) (answer : history -> result A) : M A :=
  fun h => (answer h, (h ++ [e])%list).

Declare Scope M_scope.
Delimit Scope M_scope with M.
Notation "x <- m ;; k" := (bind m (fun x => k))
  (at level 61, m at next level, right associativity) : M_scope.
Notation "m ;; k" := (bind m (fun _ => k))
  (at level 61, right associativity) : M_scope.

(** The calls to the storage handler, in the order they were issued. *)
Definition is_storage_call (e : event) : bool :=
  match e with
  | S3Save _ _ _ | S3Load _ | S3LoadFile _ | S3ListObjects _ _ | S3Listdir _ => true
  | _ => false
  end.

Definition storage_calls (h : history) : list event := filter is_storage_call h.

(** What a listing returns: backend entries, loaded [{key, value}] pairs or
    directory names. *)
Inductive listing : Type :=
| Entries (l : list s3_object)
| Loaded (l : list (string * pyval))
| Directories (l : list string).

(** An element of a query result: a raw page or a parsed row. *)
Inductive query_item : Type :=
| RawPage (r : raw_result)
| ParsedRow (d : dict string).

(** [f"{x}"] of a value that may be [None]. *)
Definition fmt (x : option string) : string :=
  match x with
  | Some s => s
  | None => "None"
  end.

(** ** The store

    The methods of [DataWarehouse] that save, load and list.  [meta.copy()]
    needs no counterpart, values being immutable here; the loop of
    [_get_random_string] carries its accumulator [result]. *)

Section Store.

Variable rt : Runtime.
Variable self : DataWarehouse.

Definition random_box : string :=
  "abcdefghijklmnopqrstuvwxyzABCDEFGHIJKLMNOPQRSTUVWXYZ1234567890".

Fixpoint _get_random_string_from (n : nat) (result0 : string) : M string :=
  match n with
  | O => ret result0
  | S n' =>
      (let random_box_length := String.length random_box in
       i <- call (Random random_box_length)
                 (fun h => Ok (random_times rt h random_box_length)) ;;
       c <- lift (match String.get i random_box with
                  | Some c => Ok c
                  | None => Raise (IndexError "string index out of range")
                  end) ;;
       _get_random_string_from n' (result0 ++ String c EmptyString))%M
  end.

Definition _get_random_string (n : nat) : M string :=
  _get_random_string_from n EmptyString.

Definition _get_valid_user_path (user_path : string) : M string :=
  match user_path with
  | EmptyString => raise (ValueError ("invalid user_path " ++ user_path))
  | String c0 rest =>
      if Ascii.eqb c0 PyStr.dot then
        if (String.length user_path =? 1)%nat
        then raise (ValueError ("invalid user_path " ++ user_path))
        else
          (t <- call TimeNs (fun h => Ok (time_ns rt h)) ;;
           r <- _get_random_string 5 ;;
           let uuid := PyStr.of_int t ++ "_" ++ r in
           ret (uuid ++ user_path))%M
      else ret user_path
  end.

Definition _upgrade_meta (store_kind : string) (meta : dict pyval)
    (warehouse_full_path : option string) (table_name0 : string) : M (dict pyval) :=
  (let table_name1 := _get_table_name self table_name0 in
   let temp_meta := meta in
   let new_meta := Dict.set "default_table_name" (PStr table_name1) [] in
   let full_path := "default/" ++ warehouse_name self ++ "/" ++ fmt warehouse_full_path in
   let temp_meta := Dict.set "full_path" (PStr full_path) temp_meta in
   t1 <- call Now (fun h => Ok (now rt h)) ;;
   let temp_meta := Dict.set "stored_time" (PStr (dt_str t1)) temp_meta in
   t2 <- call Now (fun h => Ok (now rt h)) ;;
   let temp_meta := Dict.set "ymd" (PStr (dt_ymd t2)) temp_meta in
   (if String.eqb store_kind "raw" then ret tt
    else if String.eqb store_kind "discovery" then ret tt
    else raise (ValueError ("invalid store_kind " ++ store_kind))) ;;
   ret (fold_left (fun acc kv => Dict.set (store_kind ++ "_" ++ fst kv) (snd kv) acc)
                  temp_meta new_meta))%M.

Definition es_save (path : option string) (value : pyval) (opts : dict pyval) : M pyval :=
  call (S3Save path value opts) (fun h => s3_save rt h path value opts).

Definition _save_worker (store_kind table_kind user_path : string) (value : pyval)
    (meta : dict pyval) (use_ymd : bool) (table_name0 user_ymd : string) : M pyval :=
  (let table_name1 := _get_table_name self table_name0 in
   ymd <- (if negb (String.eqb user_ymd "") then ret user_ymd
           else if use_ymd then (t <- call Now (fun h => Ok (now rt h)) ;; ret (dt_ymd t))
           else ret "") ;;
   user_path <- _get_valid_user_path user_path ;;
   let ext := snd (OsPath.splitext user_path) in
   value <- (if String.eqb ext ".csv" && PyVal.is_list value
             then (s <- lift (_json_to_csv value) ;; ret (PStr s))
             else ret value) ;;
   let warehouse_full_path :=
     _get_warehouse_full_path self store_kind table_name1 user_path table_kind ymd false in
   let meta_warehouse_full_path :=
     _get_warehouse_full_path self store_kind table_name1 user_path table_kind ymd true in
   meta <- _upgrade_meta store_kind meta warehouse_full_path table_name1 ;;
   let opts := if String.eqb ext ".parquet" then [] else [("compress_type", PStr "gz")] in
   if String.eqb store_kind "raw" then
     (es_save meta_warehouse_full_path (PDict meta) opts ;;
      result0 <- es_save warehouse_full_path value opts ;;
      ret result0)
   else if String.eqb store_kind "discovery" then
     (result0 <- es_save warehouse_full_path value opts ;;
      es_save meta_warehouse_full_path (PDict meta) opts ;;
      ret result0)
   else raise (ValueError ("invalid store kind " ++ store_kind)))%M.

Definition raw_save (user_path : string) (value : pyval) (meta : dict pyval)
    (use_ymd : bool) (table_name0 table_kind ymd : string) : M pyval :=
  _save_worker "raw" table_kind user_path value meta use_ymd table_name0 ymd.

Definition discovery_save (user_path : string) (value : pyval) (meta : dict pyval)
    (use_ymd : bool) (table_name0 table_kind ymd : string) : M pyval :=
  _save_worker "discovery" table_kind user_path value meta use_ymd table_name0 ymd.

Definition _load_worker (store_kind table_name0 user_path table_kind ymd : string)
    (is_meta : bool) : M pyval :=
  let table_name1 := _get_table_name self table_name0 in
  let warehouse_full_path :=
    _get_warehouse_full_path self store_kind table_name1 user_path table_kind ymd is_meta in
  call (S3Load warehouse_full_path) (fun h => s3_load rt h warehouse_full_path).

Definition raw_load (user_path table_name0 ymd : string) (is_meta : bool)
    (table_kind : string) : M pyval :=
  _load_worker "raw" table_name0 user_path table_kind ymd is_meta.

Definition discovery_load (user_path table_name0 ymd : string) (is_meta : bool)
    (table_kind : string) : M pyval :=
  _load_worker "discovery" table_name0 user_path table_kind ymd is_meta.

Definition load_with_full_path (full_path : string) : M pyval :=
  call (S3LoadFile full_path) (fun h => s3_load_file rt h full_path).

Definition load_meta_with_full_path (full_path : string) : M pyval :=
  (meta_path <- lift (_get_meta_path_with_full_path full_path) ;;
   call (S3LoadFile meta_path) (fun h => s3_load_file rt h meta_path))%M.

Definition es_list_objects (prefix : string) : M (list s3_object) :=
  call (S3ListObjects prefix (warehouse_name self))
       (fun h => s3_list_objects rt h prefix (warehouse_name self)).

(** The [includes] loop: an entry is appended once per substring it contains. *)
Definition filter_includes (includes : list string) (objects : list s3_object)
    : list s3_object :=
  flat_map (fun obj =>
              flat_map (fun include_str =>
                          if PyStr.contains (Key obj) include_str then [obj] else [])
                       includes)
           objects.

Fixpoint load_each (is_meta : bool) (objects : list s3_object)
    (result0 : list (string * pyval)) : M (list (string * pyval)) :=
  match objects with
  | [] => ret result0
  | obj :: rest =>
      (let key := Key obj in
       value <- (if is_meta then load_meta_with_full_path key
                 else load_with_full_path key) ;;
       load_each is_meta rest (result0 ++ [(key, value)])%list)%M
  end.

Definition _list_worker (store_kind table_kind table_name0 user_dir ymd : string)
    (load is_meta : bool) (includes : list string) (is_direoctry : bool) : M listing :=
  (let table_name1 := _get_table_name self table_name0 in
   let user_dir_with_slash := if negb (String.eqb user_dir "") then "/" ++ user_dir else "" in
   let ymd_with_slash := if negb (String.eqb ymd "") then "/" ++ ymd else "" in
   let full_path :=
     store_kind ++ "/" ++ table_kind ++ "/value/" ++ table_name1
                ++ user_dir_with_slash ++ ymd_with_slash in
   objects <- es_list_objects full_path ;;
   let objects :=
     if (0 <? List.length includes)%nat then filter_includes includes objects
     else objects in
   if negb is_direoctry then
     (objects <- es_list_objects full_path ;;
      if load then (l <- load_each is_meta objects [] ;; ret (Loaded l))
      else ret (Entries objects))
   else
     (l <- call (S3Listdir full_path) (fun h => s3_listdir rt h full_path) ;;
      ret (Directories l)))%M.

Definition raw_list (table_name0 user_dir ymd table_kind : string) (load is_meta : bool)
    (includes : list string) (is_direoctry : bool) : M listing :=
  _list_worker "raw" table_kind table_name0 user_dir ymd load is_meta includes is_direoctry.

Definition discovery_list (table_name0 user_dir ymd table_kind : string)
    (load is_meta : bool) (includes : list string) (is_direoctry : bool) : M listing :=
  _list_worker "discovery" table_kind table_name0 user_dir ymd load is_meta includes
               is_direoctry.

End Store.

(** ** The query runner

    [load_with_athena_query].  The lazily created Athena client is the
    [athena_*] part of the runtime; the progress messages it prints are left
    out, [time.sleep(1)] is the [Sleep] event. *)

Section Query.

Variable rt : Runtime.
Variable self : DataWarehouse.

Definition get_format_type (query : string) : string :=
  if PyStr.contains query "SELECT" || PyStr.contains query "select"
  then "select" else "raw".

(** [[obj['VarCharValue'] for obj in d['Data']]]. *)
Definition get_var_char_values (d : row) : result (list string) :=
  rmap (fun obj => match obj with
                   | Some v => Ok v
                   | None => Raise (KeyError "VarCharValue")
                   end) d.

Definition parse (header : row) (rows : list row) : result (list (dict string)) :=
  (header <- get_var_char_values header ;;
   rmap (fun r => values <- get_var_char_values r ;;
                  Ok (Dict.of_pairs (combine header values))) rows)%res.

(** The status loop.  [fuel] bounds the number of polls the model follows;
    [None] means the bound was reached with the query still running. *)
Fixpoint poll (fuel : nat) (query query_id : string) (h : history)
    : option (result unit * history) :=
  match fuel with
  | O => None
  | S fuel' =>
      match call (AthenaStatus query_id)
                 (fun h => athena_get_query_execution rt h query_id) h with
      | (Raise e, h1) => Some (Raise e, h1)
      | (Ok status, h1) =>
          let h2 := (h1 ++ [Sleep 1])%list in
          if String.eqb status "CANCELLED"
          then Some (Raise (ValueError ("[" ++ query ++ "] is cancelled.")), h2)
          else if String.eqb status "FAILED"
          then Some (Raise (ValueError ("[" ++ query ++ "] is failed.")), h2)
          else if String.eqb status "SUCCEEDED"
          then Some (Ok tt, h2)
          else poll fuel' query query_id h2
      end
  end.

(** The page loop: [n] iterations remain, [index] is the loop variable. *)
Fixpoint fetch_pages (n index : nat) (format_type query_id : string)
    (next_tokens : list string) (header : row) (result0 : list query_item)
    : M (list query_item) :=
  match n with
  | O => ret result0
  | S n' =>
      (let request_token :=
         if (0 <? List.length next_tokens)%nat then Some (last next_tokens "") else None in
       query_raw_result <-
         call (AthenaResults query_id request_token)
              (fun h => athena_get_query_results rt h query_id request_token) ;;
       if String.eqb format_type "raw" then
         ret (result0 ++ [RawPage query_raw_result])%list
       else if String.eqb format_type "select" then
         (hr <- (if (index =? 0)%nat then
                   match Rows query_raw_result with
                   | [] => raise (ValueError
                             "not enough values to unpack (expected at least 1, got 0)")
                   | header :: rows => ret (header, rows)
                   end
                 else ret (header, Rows query_raw_result)) ;;
          let header := fst hr in
          let rows := snd hr in
          parsed <- lift (parse header rows) ;;
          let result0 := (result0 ++ map ParsedRow parsed)%list in
          match NextToken query_raw_result with
          | Some new_next_token =>
              if existsb (String.eqb new_next_token) next_tokens
              then ret result0
              else fetch_pages n' (S index) format_type query_id
                               (next_tokens ++ [new_next_token])%list header result0
          | None => ret result0
          end)
       else fetch_pages n' (S index) format_type query_id next_tokens header result0)%M
  end.

Definition load_with_athena_query (fuel : nat) (query format_type : string)
    (request_limit : Z) (h : history) : option (result (list query_item) * history) :=
  let format_type :=
    if String.eqb format_type "auto" then get_format_type query else format_type in
  match call (AthenaStart query ("s3://" ++ bucket_name self ++ "/trash/athena_result"))
             (fun h => athena_start_query_execution rt h query
                         ("s3://" ++ bucket_name self ++ "/trash/athena_result")) h with
  | (Raise e, h1) => Some (Raise e, h1)
  | (Ok query_id, h1) =>
      match poll fuel query query_id h1 with
      | None => None
      | Some (Raise e, h2) => Some (Raise e, h2)
      | Some (Ok _, h2) =>
          Some (fetch_pages (Z.to_nat request_limit) 0 format_type query_id [] [] [] h2)
      end
  end.

(** The [get_query_results] requests of a history. *)
Definition page_requests (h : history) : list event :=
  filter (fun e => match e with AthenaResults _ _ => true | _ => false end) h.

End Query.

(** ** Vocabulary of the statements *)

(** [s] has no slash: it is one segment of a key. *)
Definition slash_free (s : string) : Prop := PyVal.has_char PyStr.slash s = false.



(** The suffix [_get_warehouse_full_path] appends to [user_path]. *)
Definition compression_suffix (user_path : string) : string :=
  if String.eqb (snd (OsPath.splitext user_path)) ".parquet" then "" else ".gz".

(** ** A handler and scripted collaborators for concrete runs *)

Definition wh : DataWarehouse :=
  {| warehouse_name := "warehouse"; bucket_name := "bucket"; table_name := "events" |}.

Definition count_events (p : event -> bool) (h : history) : nat :=
  List.length (filter p h).

(** Collaborators that follow a script: the n-th status poll answers the n-th
    of [statuses] ("RUNNING" once they run out), the n-th page request the
    n-th of [pages], every listing [objects]; the storage handler accepts
    every write and serves every key. *)
Definition scripted (statuses : list string) (pages : list raw_result)
    (objects : list s3_object) : Runtime :=
  {| time_ns := fun _ => 1598774400000000000%Z;
     random_times := fun h n => Nat.modulo (7 * List.length h) n;
     now := fun _ => {| dt_str := "2020-08-30 12:00:00.000000"; dt_ymd := "2020-08-30" |};
     s3_save := fun _ path _ _ => Ok (PStr ("s3://bucket/default/warehouse/" ++ fmt path));
     s3_load := fun _ path => Ok (PStr ("contents of " ++ fmt path));
     s3_load_file := fun _ full_path => Ok (PStr ("contents of " ++ full_path));
     s3_list_objects := fun _ _ _ => Ok objects;
     s3_listdir := fun _ _ => Ok [];
     athena_start_query_execution := fun _ _ _ => Ok "query-1";
     athena_get_query_execution := fun h _ =>
       Ok (nth (count_events (fun e => match e with AthenaStatus _ => true | _ => false end) h)
               statuses "RUNNING");
     athena_get_query_results := fun h _ _ =>
       Ok (nth (count_events (fun e => match e with AthenaResults _ _ => true | _ => false end) h)
               pages {| Rows := []; NextToken := None |}) |}.

Definition quiet : Runtime := scripted [] [] [].

(** The random source stays below its scale, as [random.random()] in [[0, 1)]
    makes [int(random.random() * n)] do. *)
Definition random_in_range (rt : Runtime) : Prop :=
  forall (h : history) (n : nat), 0 < n -> random_times rt h n < n.

(** The metadata record [_upgrade_meta] builds once the clock has been read
    twice ([t1] for [stored_time], [t2] for [ymd]). *)
Definition meta_record (self : DataWarehouse) (store_kind : string) (meta : dict pyval)
    (warehouse_full_path : option string) (table_name0 : string) (t1 t2 : datetime)
    : dict pyval :=
  fold_left (fun acc kv => Dict.set (store_kind ++ "_" ++ fst kv) (snd kv) acc)
    (Dict.set "ymd" (PStr (dt_ymd t2))
       (Dict.set "stored_time" (PStr (dt_str t1))
          (Dict.set "full_path"
             (PStr ("default/" ++ warehouse_name self ++ "/" ++ fmt warehouse_full_path))
             meta)))
    (Dict.set "default_table_name" (PStr (_get_table_name self table_name0)) []).

(** The history once [_save_worker] has resolved the partition: the clock is
    read only when no partition was given and [use_ymd] is set. *)
Definition after_partition (user_ymd : string) (use_ymd : bool) (h : history) : history :=
  if negb (String.eqb user_ymd "") then h
  else if use_ymd then (h ++ [Now])%list else h.

(** The partition [_save_worker] resolves: the one given, else today's date
    when [use_ymd] is set, else none. *)
Definition resolved_partition (rt : Runtime) (user_ymd : string) (use_ymd : bool)
    (h : history) : string :=
  if negb (String.eqb user_ymd "") then user_ymd
  else if use_ymd then dt_ymd (now rt h) else "".

(** The prefix [_list_worker] lists. *)
Definition listing_prefix (self : DataWarehouse)
    (store_kind table_kind table_name0 user_dir ymd : string) : string :=
  store_kind ++ "/" ++ table_kind ++ "/value/" ++ _get_table_name self table_name0
             ++ (if negb (String.eqb user_dir "") then "/" ++ user_dir else "")
             ++ (if negb (String.eqb ymd "") then "/" ++ ymd else "").

Definition three_keys : list s3_object :=
  [ {| Key := "a/1"; attributes := [] |};
    {| Key := "a/2"; attributes := [] |};
    {| Key := "b/1"; attributes := [] |} ].

(** The history after [k] more rounds of the status loop. *)
Fixpoint polled (h : history) (query_id : string) (k : nat) : history :=
  match k with
  | O => h
  | S k' => polled (h ++ [AthenaStatus query_id; Sleep 1])%list query_id k'
  end.

(** The statuses that end the status loop. *)
Definition is_terminal (status : string) : bool :=
  String.eqb status "CANCELLED" || String.eqb status "FAILED"
  || String.eqb status "SUCCEEDED".

(** The query service reports [status] at poll [n] of the query, after [n]
    polls that reported no terminal status. *)
Definition reports_at (rt : Runtime) (started : history) (query_id : string) (n : nat)
    (status : string) : Prop :=
  (forall k, k < n ->
     exists s, athena_get_query_execution rt (polled started query_id k) query_id = Ok s
               /\ is_terminal s = false) /\
  athena_get_query_execution rt (polled started query_id n) query_id = Ok status.

(** The history once [load_with_athena_query] has submitted [query]. *)
Definition submitted (self : DataWarehouse) (query : string) (h : history) : history :=
  (h ++ [AthenaStart query ("s3://" ++ bucket_name self ++ "/trash/athena_result")])%list.

(** Three pages whose continuation tokens are t1, t2 and t1 again. *)
Definition looping_pages : list raw_result :=
  [ {| Rows := [[Some "a"]; [Some "1"]]; NextToken := Some "t1" |};
    {| Rows := [[Some "2"]]; NextToken := Some "t2" |};
    {| Rows := [[Some "3"]]; NextToken := Some "t1" |} ].

(** The value [_save_worker] goes on with once the path is normalized: the
    CSV text for a list under a [.csv] path, the value itself otherwise. *)
Definition transcoded (path : string) (value : pyval) : result pyval :=
  if String.eqb (snd (OsPath.splitext path)) ".csv" && PyVal.is_list value
  then match _json_to_csv value with
       | Ok s => Ok (PStr s)
       | Raise e => Raise e
       end
  else Ok value.

(** The two writes that end [_save_worker], in the order of the store kind,
    answering with what the value write answered. *)
Definition write_pair (rt : Runtime) (store_kind : string) (vkey mkey : option string)
    (v : pyval) (m opts : dict pyval) : M pyval :=
  if String.eqb store_kind "raw"
  then bind (es_save rt mkey (PDict m) opts)
            (fun _ => bind (es_save rt vkey v opts) (fun r => ret r))
  else bind (es_save rt vkey v opts)
            (fun r => bind (es_save rt mkey (PDict m) opts) (fun _ => ret r)).

(** Collaborators like [quiet], with a storage handler that accepts the first
    write of a history and refuses every later one. *)
Definition one_write_only : Runtime :=
  {| time_ns := time_ns quiet;
     random_times := random_times quiet;
     now := now quiet;
     s3_save := fun h path value opts =>
       if existsb is_storage_call h then Raise (BackendError "unavailable")
       else s3_save quiet h path value opts;
     s3_load := s3_load quiet;
     s3_load_file := s3_load_file quiet;
     s3_list_objects := s3_list_objects quiet;
     s3_listdir := s3_listdir quiet;
     athena_start_query_execution := athena_start_query_execution quiet;
     athena_get_query_execution := athena_get_query_execution quiet;
     athena_get_query_results := athena_get_query_results quiet |}.

(** Collaborators like [quiet], with a clock that advances with every
    interaction. *)
Definition ticking : Runtime :=
  {| time_ns := fun h => (1598774400000000000 + Z.of_nat (List.length h))%Z;
     random_times := random_times quiet;
     now := now quiet;
     s3_save := s3_save quiet;
     s3_load := s3_load quiet;
     s3_load_file := s3_load_file quiet;
     s3_list_objects := s3_list_objects quiet;
     s3_listdir := s3_listdir quiet;
     athena_start_query_execution := athena_start_query_execution quiet;
     athena_get_query_execution := athena_get_query_execution quiet;
     athena_get_query_results := athena_get_query_results quiet |}.

(** The query service serves [pages] one after the other from history [h]
    on, each request carrying the token of the page before. *)
Fixpoint served (rt : Runtime) (query_id : string) (token : option string)
    (pages : list raw_result) (h : history) : Prop :=
  match pages with
  | [] => True
  | p :: rest =>
      athena_get_query_results rt h query_id token = Ok p /\
      served rt query_id (NextToken p) rest (h ++ [AthenaResults query_id token])%list
  end.

(** The page requests that fetch [pages], the first one carrying [token]. *)
Fixpoint requests (query_id : string) (token : option string) (pages : list raw_result)
    : list event :=
  match pages with
  | [] => []
  | p :: rest => AthenaResults query_id token :: requests query_id (NextToken p) rest
  end.

(** Every page but the last carries a token that is neither in [seen] nor
    carried by an earlier page; the last page carries no token, or one of
    those. *)
Fixpoint ends_at_last (seen : list string) (pages : list raw_result) : Prop :=
  match pages with
  | [] => False
  | p :: rest =>
      match rest with
      | [] => match NextToken p with
              | None => True
              | Some t => In t seen
              end
      | _ :: _ => match NextToken p with
                  | None => False
                  | Some t => ~ In t seen /\ ends_at_last (seen ++ [t])%list rest
                  end
      end
  end.

(** Every page carries a token that is neither in [seen] nor carried by an
    earlier page: the service always has more. *)
Fixpoint all_fresh (seen : list string) (pages : list raw_result) : Prop :=
  match pages with
  | [] => True
  | p :: rest =>
      match NextToken p with
      | None => False
      | Some t => ~ In t seen /\ all_fresh (seen ++ [t])%list rest
      end
  end.

(** The token the page loop sends: the last one collected, if any. *)
Definition request_token (next_tokens : list string) : option string :=
  if (0 <? List.length next_tokens)%nat then Some (last next_tokens "") else None.

(** The options both writes of a save carry. *)
Definition save_options (user_path : string) : dict pyval :=
  if String.eqb (snd (OsPath.splitext user_path)) ".parquet" then []
  else [("compress_type", PStr "gz")].

(** Every character of [s] is one of [box]. *)
Definition drawn_from (box s : string) : Prop :=
  forall c : ascii, PyVal.has_char c s = true -> PyVal.has_char c box = true.

(** * Properties *)

(** ** Strings *)

Lemma append_assoc (a b c : string) : (a ++ b) ++ c = a ++ (b ++ c).
Proof.
  induction a as [|x a IH]; simpl; [reflexivity | now rewrite IH].
Qed.

Lemma append_empty_r (a : string) : a ++ "" = a.
Proof.
  induction a as [|x a IH]; simpl; [reflexivity | now rewrite IH].
Qed.

Lemma length_append (a b : string) :
  String.length (a ++ b) = String.length a + String.length b.
Proof.
  induction a as [|x a IH]; simpl; [reflexivity | now rewrite IH].
Qed.

Lemma substring_all (s : string) : String.substring 0 (String.length s) s = s.
Proof.
  induction s as [|x s IH]; simpl; [reflexivity | now rewrite IH].
Qed.

Lemma substring_head (a b : string) :
  String.substring 0 (String.length a) (a ++ b) = a.
Proof.
  induction a as [|x a IH]; simpl.
  - destruct b; reflexivity.
  - now rewrite IH.
Qed.

Lemma substring_skip (a b : string) (n : nat) :
  String.substring (String.length a) n (a ++ b) = String.substring 0 n b.
Proof.
  induction a as [|x a IH]; simpl; [reflexivity | exact IH].
Qed.

Lemma substring_cut (n : nat) (s : string) :
  String.substring 0 n s ++ String.substring n (String.length s - n) s = s.
Proof.
  revert n; induction s as [|x s IH]; intros [|n]; simpl; try reflexivity.
  - now rewrite substring_all.
  - now rewrite IH.
Qed.

Lemma last_n_append (n : nat) (a e : string) :
  String.length e = n -> PyStr.last_n n (a ++ e) = e.
Proof.
  intros <-. unfold PyStr.last_n.
  rewrite length_append, Nat.add_sub, substring_skip. apply substring_all.
Qed.

Lemma drop_last_n_append (n : nat) (a e : string) :
  String.length e = n -> PyStr.drop_last_n n (a ++ e) = a.
Proof.
  intros <-. unfold PyStr.drop_last_n.
  rewrite length_append, Nat.add_sub. apply substring_head.
Qed.


Lemma split_nonempty (sep : ascii) (s : string) : PyStr.split sep s <> [].
Proof.
  induction s as [|c s IH]; simpl; [discriminate|].
  destruct (Ascii.eqb c sep); [discriminate|].
  destruct (PyStr.split sep s); [contradiction | discriminate].
Qed.

Lemma split_append (sep : ascii) (a b : string) :
  PyStr.split sep (a ++ String sep b) = (PyStr.split sep a ++ PyStr.split sep b)%list.
Proof.
  induction a as [|c a IH]; simpl.
  - now rewrite Ascii.eqb_refl.
  - destruct (Ascii.eqb c sep); [now rewrite IH|].
    rewrite IH. pose proof (split_nonempty sep a) as Hne.
    destruct (PyStr.split sep a); [contradiction | reflexivity].
Qed.

Lemma split_slash_free (s : string) :
  slash_free s -> PyStr.split PyStr.slash s = [s].
Proof.
  unfold slash_free. induction s as [|c s IH]; simpl; [reflexivity|].
  intros H. apply orb_false_iff in H as [Hc Hs].
  rewrite Hc, (IH Hs). reflexivity.
Qed.

Lemma split_segment (a b : string) :
  slash_free a ->
  PyStr.split PyStr.slash (a ++ String PyStr.slash b) = a :: PyStr.split PyStr.slash b.
Proof.
  intros H. now rewrite split_append, (split_slash_free a H).
Qed.

Lemma join_split (s : string) : PyStr.join "/" (PyStr.split PyStr.slash s) = s.
Proof.
  unfold PyStr.join. induction s as [|c s IH]; simpl; [reflexivity|].
  destruct (Ascii.eqb_spec c PyStr.slash) as [->|Hc].
  - pose proof (split_nonempty PyStr.slash s) as Hne.
    simpl. destruct (PyStr.split PyStr.slash s) as [|h t]; [contradiction|].
    simpl in *. now rewrite IH.
  - pose proof (split_nonempty PyStr.slash s) as Hne.
    destruct (PyStr.split PyStr.slash s) as [|h t]; [contradiction|].
    simpl in *. destruct t; simpl in *; now rewrite <- IH.
Qed.

Lemma splitext_append (p : string) :
  fst (OsPath.splitext p) ++ snd (OsPath.splitext p) = p.
Proof.
  unfold OsPath.splitext.
  destruct (_ && _)%bool; simpl; [apply substring_cut | apply append_empty_r].
Qed.

(** ** Path codec *)

Lemma gz_suffix_kept (a p : string) :
  snd (OsPath.splitext p) = ".parquet" ->
  String.eqb (PyStr.last_n 3 (a ++ p)) ".gz" = false.
Proof.
  intros He. rewrite <- (splitext_append p), He.
  change ".parquet" with (".parq" ++ "uet").
  rewrite <- !append_assoc, last_n_append by reflexivity. reflexivity.
Qed.









(** C6.  For a store kind other than [raw] and [discovery] the key builder
    raises nothing: it returns [None], and [_load_worker] hands that [None] to
    the storage handler as the path to load. *)
Theorem bad_store_kind_builds_none (rt : Runtime) (self : DataWarehouse)
    (store_kind table_name0 user_path table_kind ymd : string) (is_meta : bool)
    (h : history) :
  store_kind <> "raw" -> store_kind <> "discovery" ->
  _get_warehouse_full_path self store_kind table_name0 user_path table_kind ymd is_meta
    = None /\
  _load_worker rt self store_kind table_name0 user_path table_kind ymd is_meta h
    = (s3_load rt h None, (h ++ [S3Load None])%list).
Proof.
  intros Hraw Hdisc.
  assert (Hnone : forall tn,
    _get_warehouse_full_path self store_kind tn user_path table_kind ymd is_meta = None).
  { intros tn. unfold _get_warehouse_full_path.
    apply String.eqb_neq in Hraw, Hdisc. now rewrite Hraw, Hdisc. }
  split; [apply Hnone|].
  unfold _load_worker, call. now rewrite Hnone.
Qed.

Lemma bad_store_kind_builds_none_witness :
  _get_warehouse_full_path wh "bogus" "" "a.json" "general" "2020-08-30" false = None /\
  _load_worker quiet wh "bogus" "" "a.json" "general" "2020-08-30" false []
    = (s3_load quiet [] None, ([] ++ [S3Load None])%list).
Proof.
  apply (bad_store_kind_builds_none quiet wh "bogus" "" "a.json" "general" "2020-08-30"
           false []); discriminate.
Defined.

(** ** Effects *)

Lemma bind_ok {A B : Type} (m : M A) (k : A -> M B) (h h1 : history) (a : A) :
  m h = (Ok a, h1) -> bind m k h = k a h1.
Proof.
  intros H. unfold bind. now rewrite H.
Qed.

Lemma bind_raise {A B : Type} (m : M A) (k : A -> M B) (h h1 : history) (e : exn) :
  m h = (Raise e, h1) -> bind m k h = (Raise e, h1).
Proof.
  intros H. unfold bind. now rewrite H.
Qed.

Lemma bind_inv {A B : Type} (m : M A) (k : A -> M B) (h h' : history) (b : B) :
  bind m k h = (Ok b, h') ->
  exists a h1, m h = (Ok a, h1) /\ k a h1 = (Ok b, h').
Proof.
  unfold bind. destruct (m h) as [[a|e] h1]; intros H; [|discriminate].
  now exists a, h1.
Qed.

Lemma storage_calls_app (h1 h2 : history) :
  storage_calls (h1 ++ h2)%list = (storage_calls h1 ++ storage_calls h2)%list.
Proof.
  apply filter_app.
Qed.

(** ** Anonymous user paths *)

Lemma get_has_char (i : nat) (s : string) (c : ascii) :
  String.get i s = Some c -> PyVal.has_char c s = true.
Proof.
  revert i; induction s as [|x s IH]; intros [|i]; simpl; try discriminate.
  - intros [= ->]. now rewrite Ascii.eqb_refl.
  - intros H. rewrite (IH _ H). apply orb_true_r.
Qed.

Lemma get_in_range (i : nat) (s : string) :
  i < String.length s -> exists c, String.get i s = Some c.
Proof.
  revert i; induction s as [|x s IH]; intros [|i]; simpl; intros H; try lia.
  - now exists x.
  - apply IH. lia.
Qed.

Lemma random_string_draws (rt : Runtime) (n : nat) :
  random_in_range rt ->
  forall (acc : string) (h : history),
  exists s,
    _get_random_string_from rt n acc h
      = (Ok (acc ++ s), (h ++ repeat (Random 62) n)%list) /\
    String.length s = n /\ drawn_from random_box s /\
    (forall k, k < n ->
       String.get k s
       = String.get (random_times rt (h ++ repeat (Random 62) k)%list 62) random_box).
Proof.
  intros Hrt. induction n as [|n IH]; intros acc h;
    cbn [_get_random_string_from repeat].
  - exists "". unfold ret. rewrite append_empty_r, app_nil_r.
    split; [reflexivity|]. split; [reflexivity|]. split; [intros c; discriminate|].
    intros k Hk. lia.
  - destruct (get_in_range (random_times rt h 62) random_box) as [c Hc].
    { change (String.length random_box) with 62. apply Hrt. lia. }
    destruct (IH (acc ++ String c "") (h ++ [Random 62])%list)
      as (s & Hs & Hlen & Hbox & Hdraws).
    exists (String c s). split; [|split; [|split]].
    + unfold bind, call, lift. change (String.length random_box) with 62.
      rewrite Hc, Hs.
      rewrite append_assoc, <- app_assoc. reflexivity.
    + simpl. now rewrite Hlen.
    + intros x. simpl. intros Hx. apply orb_true_iff in Hx as [Hx | Hx].
      * apply Ascii.eqb_eq in Hx. subst x. now apply (get_has_char _ _ _ Hc).
      * now apply Hbox.
    + intros [|k] Hk.
      * cbn [String.get repeat]. now rewrite app_nil_r, Hc.
      * cbn [String.get repeat]. rewrite (Hdraws k) by lia.
        now rewrite <- app_assoc.
Qed.

Lemma random_string_from (rt : Runtime) (n : nat) :
  random_in_range rt ->
  forall (acc : string) (h : history),
  exists s,
    _get_random_string_from rt n acc h
      = (Ok (acc ++ s), (h ++ repeat (Random 62) n)%list) /\
    String.length s = n /\ drawn_from random_box s.
Proof.
  intros Hrt acc h.
  destruct (random_string_draws rt n Hrt acc h) as (s & Hs & Hlen & Hbox & _).
  now exists s.
Qed.

(** C9.  [_get_valid_user_path] raises [ValueError] for the empty path and
    for the path ["."], touching no collaborator; a longer path that begins
    with a dot comes back behind [str(time.time_ns())], an underscore and a
    suffix of five characters of [random_box], the k-th of them the
    character of [random_box] at the index the k-th draw of the random source
    gave; any other path comes back unchanged. *)
Theorem valid_user_path_cases (rt : Runtime) (h : history) :
  random_in_range rt ->
  _get_valid_user_path rt "" h = (Raise (ValueError "invalid user_path "), h) /\
  _get_valid_user_path rt "." h = (Raise (ValueError "invalid user_path ."), h) /\
  (forall rest : string, rest <> "" ->
     exists suffix,
       _get_valid_user_path rt (String "." rest) h
         = (Ok (PyStr.of_int (time_ns rt h) ++ "_" ++ suffix ++ String "." rest),
            (h ++ TimeNs :: repeat (Random 62) 5)%list) /\
       String.length suffix = 5 /\ drawn_from random_box suffix /\
       (forall k, k < 5 ->
          String.get k suffix
          = String.get (random_times rt (h ++ TimeNs :: repeat (Random 62) k)%list 62)
                       random_box)) /\
  (forall (c : ascii) (rest : string), c <> "."%char ->
     _get_valid_user_path rt (String c rest) h = (Ok (String c rest), h)).
Proof.
  intros Hrt. repeat split.
  - intros rest Hrest. unfold _get_valid_user_path.
    change (Ascii.eqb "." PyStr.dot) with true. cbn iota.
    destruct rest as [|c rest]; [contradiction|]. cbn [String.length Nat.eqb].
    destruct (random_string_draws rt 5 Hrt "" (h ++ [TimeNs])%list)
      as (s & Hs & Hlen & Hbox & Hdraws).
    exists s. split; [|split; [exact Hlen | split; [exact Hbox|]]].
    + unfold bind, call, _get_random_string, ret. rewrite Hs.
      rewrite <- app_assoc. cbn [String.append]. now rewrite append_assoc.
    + intros k Hk. rewrite (Hdraws k Hk), <- app_assoc. reflexivity.
  - intros c rest Hc. unfold _get_valid_user_path.
    apply Ascii.eqb_neq in Hc. unfold PyStr.dot. now rewrite Hc.
Qed.

Lemma quiet_random_in_range : random_in_range quiet.
Proof.
  intros h n Hn. cbn. apply Nat.mod_upper_bound. lia.
Qed.

Lemma valid_user_path_cases_witness :
  _get_valid_user_path quiet "" [] = (Raise (ValueError "invalid user_path "), []) /\
  _get_valid_user_path quiet "." [] = (Raise (ValueError "invalid user_path ."), []) /\
  (forall rest : string, rest <> "" ->
     exists suffix,
       _get_valid_user_path quiet (String "." rest) []
         = (Ok (PyStr.of_int (time_ns quiet []) ++ "_" ++ suffix ++ String "." rest),
            ([] ++ TimeNs :: repeat (Random 62) 5)%list) /\
       String.length suffix = 5 /\ drawn_from random_box suffix /\
       (forall k, k < 5 ->
          String.get k suffix
          = String.get (random_times quiet ([] ++ TimeNs :: repeat (Random 62) k)%list 62)
                       random_box)) /\
  (forall (c : ascii) (rest : string), c <> "."%char ->
     _get_valid_user_path quiet (String c rest) [] = (Ok (String c rest), [])).
Proof.
  apply (valid_user_path_cases quiet []). exact quiet_random_in_range.
Defined.

Example anonymous_json :
  fst (_get_valid_user_path quiet ".json" []) = Ok "1598774400000000000_hovCJ.json".
Proof.
  vm_compute. reflexivity.
Qed.

(** ** The save pipeline *)

Lemma random_string_silent (rt : Runtime) (n : nat) :
  forall (acc : string) (h : history),
    storage_calls (snd (_get_random_string_from rt n acc h)) = storage_calls h.
Proof.
  induction n as [|n IH]; intros acc h; cbn [_get_random_string_from]; [reflexivity|].
  unfold bind, call, lift.
  destruct (String.get _ random_box) as [c|]; cbn [fst snd].
  - rewrite IH, storage_calls_app. apply app_nil_r.
  - rewrite storage_calls_app. apply app_nil_r.
Qed.

Lemma valid_user_path_silent (rt : Runtime) (user_path : string) (h : history) :
  storage_calls (snd (_get_valid_user_path rt user_path h)) = storage_calls h.
Proof.
  unfold _get_valid_user_path. destruct user_path as [|c rest]; [reflexivity|].
  destruct (Ascii.eqb c PyStr.dot); [|reflexivity].
  destruct (String.length (String c rest) =? 1)%nat; [reflexivity|].
  unfold bind, call, _get_random_string.
  pose proof (random_string_silent rt 5 "" (h ++ [TimeNs])%list) as Hs.
  destruct (_get_random_string_from rt 5 "" (h ++ [TimeNs])%list) as [[r|e] h1];
    unfold ret; cbn [snd] in *; rewrite Hs, storage_calls_app; apply app_nil_r.
Qed.

Lemma upgrade_meta_eq (rt : Runtime) (self : DataWarehouse) (store_kind : string)
    (meta : dict pyval) (warehouse_full_path : option string) (table_name0 : string)
    (h : history) :
  _upgrade_meta rt self store_kind meta warehouse_full_path table_name0 h
  = (if String.eqb store_kind "raw" || String.eqb store_kind "discovery"
     then Ok (meta_record self store_kind meta warehouse_full_path table_name0
                (now rt h) (now rt (h ++ [Now])%list))
     else Raise (ValueError ("invalid store_kind " ++ store_kind)),
     (h ++ [Now; Now])%list).
Proof.
  unfold _upgrade_meta, meta_record, bind, call, ret, raise. cbn [fst snd].
  rewrite <- app_assoc. cbn [app].
  destruct (String.eqb store_kind "raw"); [reflexivity|].
  destruct (String.eqb store_kind "discovery"); reflexivity.
Qed.

Lemma partition_stage (rt : Runtime) (user_ymd : string) (use_ymd : bool) (h : history) :
  (if negb (String.eqb user_ymd "") then ret user_ymd
   else if use_ymd then bind (call Now (fun h => Ok (now rt h))) (fun t => ret (dt_ymd t))
   else ret "") h
  = (Ok (resolved_partition rt user_ymd use_ymd h), after_partition user_ymd use_ymd h).
Proof.
  unfold after_partition, resolved_partition.
  destruct (negb (String.eqb user_ymd "")); [reflexivity|].
  destruct use_ymd; reflexivity.
Qed.

Lemma after_partition_silent (user_ymd : string) (use_ymd : bool) (h : history) :
  storage_calls (after_partition user_ymd use_ymd h) = storage_calls h.
Proof.
  unfold after_partition.
  destruct (negb (String.eqb user_ymd "")); [reflexivity|].
  destruct use_ymd; [|reflexivity]. rewrite storage_calls_app. apply app_nil_r.
Qed.

(** What a save that returned went through. *)
Lemma save_anatomy (rt : Runtime) (self : DataWarehouse)
    (store_kind table_kind user_path : string) (value : pyval) (meta : dict pyval)
    (use_ymd : bool) (table_name0 user_ymd : string) (h h' : history) (r : pyval) :
  _save_worker rt self store_kind table_kind user_path value meta use_ymd table_name0
               user_ymd h = (Ok r, h') ->
  exists (path : string) (v : pyval) (h0 : history) (t1 t2 : datetime),
    let ymd := resolved_partition rt user_ymd use_ymd h in
    let table := _get_table_name self table_name0 in
    let vkey := _get_warehouse_full_path self store_kind table path table_kind ymd false in
    let mkey := _get_warehouse_full_path self store_kind table path table_kind ymd true in
    let m := meta_record self store_kind meta vkey table t1 t2 in
    let value_write := S3Save vkey v (save_options path) in
    let meta_write := S3Save mkey (PDict m) (save_options path) in
    (store_kind = "raw" \/ store_kind = "discovery") /\
    (exists hp, _get_valid_user_path rt user_path (after_partition user_ymd use_ymd h)
                = (Ok path, hp)) /\
    (if String.eqb (snd (OsPath.splitext path)) ".csv" && PyVal.is_list value
     then exists s, _json_to_csv value = Ok s /\ v = PStr s
     else v = value) /\
    storage_calls h0 = storage_calls h /\
    h' = (h0 ++ (if String.eqb store_kind "raw" then [meta_write; value_write]
                 else [value_write; meta_write]))%list.
Proof.
  unfold _save_worker. intros H.
  rewrite (bind_ok _ _ _ _ _ (partition_stage rt user_ymd use_ymd h)) in H.
  apply bind_inv in H as (path & h2 & Hp & H).
  apply bind_inv in H as (v & h3 & Hv & H).
  apply bind_inv in H as (m & h4 & Hm & H).
  rewrite upgrade_meta_eq in Hm.
  assert (Hv' : h3 = h2 /\
                if String.eqb (snd (OsPath.splitext path)) ".csv" && PyVal.is_list value
                then exists s, _json_to_csv value = Ok s /\ v = PStr s
                else v = value).
  { destruct (String.eqb (snd (OsPath.splitext path)) ".csv" && PyVal.is_list value).
    - unfold bind, lift, ret in Hv. destruct (_json_to_csv value) as [s|e]; [|discriminate].
      injection Hv as <- <-. split; [reflexivity | now exists s].
    - unfold ret in Hv. now injection Hv as <- <-. }
  destruct Hv' as [-> Hv'].
  assert (Hsilent : storage_calls (h2 ++ [Now; Now])%list = storage_calls h).
  { rewrite storage_calls_app, app_nil_r.
    pose proof (valid_user_path_silent rt user_path (after_partition user_ymd use_ymd h)) as Hs.
    rewrite Hp in Hs. cbn [snd] in Hs. rewrite Hs. apply after_partition_silent. }
  exists path, v, (h2 ++ [Now; Now])%list, (now rt h2), (now rt (h2 ++ [Now])%list).
  cbn zeta. unfold save_options.
  destruct (String.eqb_spec store_kind "raw") as [Hraw | Hraw].
  - cbn [orb] in Hm. injection Hm as <- <-.
    apply bind_inv in H as (r1 & h5 & H1 & H).
    apply bind_inv in H as (r2 & h6 & H2 & H).
    unfold es_save, call, ret in *. injection H1 as _ <-. injection H2 as _ <-.
    injection H as _ <-.
    repeat split; try (now left); try assumption; [now exists h2|].
    now rewrite <- app_assoc.
  - cbn [orb] in Hm.
    destruct (String.eqb_spec store_kind "discovery") as [Hdisc | Hdisc]; [|discriminate].
    injection Hm as <- <-.
    apply bind_inv in H as (r1 & h5 & H1 & H).
    apply bind_inv in H as (r2 & h6 & H2 & H).
    unfold es_save, call, ret in *. injection H1 as _ <-. injection H2 as _ <-.
    injection H as _ <-.
    repeat split; try (now right); try assumption; [now exists h2|].
    now rewrite <- app_assoc.
Qed.

(** C3.  A save that returns has issued exactly two storage calls, both
    writes with the same options: for [raw] the meta object first and the
    value object second, for [discovery] the value object first and the meta
    object second. *)
Theorem save_write_order (rt : Runtime) (self : DataWarehouse)
    (store_kind table_kind user_path : string) (value : pyval) (meta : dict pyval)
    (use_ymd : bool) (table_name0 user_ymd : string) (h h' : history) (r : pyval) :
  _save_worker rt self store_kind table_kind user_path value meta use_ymd table_name0
               user_ymd h = (Ok r, h') ->
  exists (path : string) (v : pyval) (m : dict pyval),
    let ymd := resolved_partition rt user_ymd use_ymd h in
    let table := _get_table_name self table_name0 in
    let value_write :=
      S3Save (_get_warehouse_full_path self store_kind table path table_kind ymd false)
             v (save_options path) in
    let meta_write :=
      S3Save (_get_warehouse_full_path self store_kind table path table_kind ymd true)
             (PDict m) (save_options path) in
    (store_kind = "raw" /\
     storage_calls h' = (storage_calls h ++ [meta_write; value_write])%list) \/
    (store_kind = "discovery" /\
     storage_calls h' = (storage_calls h ++ [value_write; meta_write])%list).
Proof.
  intros H. apply save_anatomy in H as (path & v & h0 & t1 & t2 & H).
  cbn zeta in H. destruct H as (Hsk & _ & _ & Hsilent & ->).
  exists path, v. eexists. cbn zeta.
  rewrite storage_calls_app, Hsilent.
  destruct Hsk as [-> | ->]; [left | right]; (split; [reflexivity|]); reflexivity.
Qed.

Lemma save_write_order_witness :
  exists (path : string) (v : pyval) (m : dict pyval),
    let ymd := resolved_partition quiet "" true [] in
    let h' := snd (_save_worker quiet wh "raw" "general" "a.json" (PStr "payload") []
                                true "" "" []) in
    let value_write :=
      S3Save (_get_warehouse_full_path wh "raw" "events" path "general" ymd false)
             v (save_options path) in
    let meta_write :=
      S3Save (_get_warehouse_full_path wh "raw" "events" path "general" ymd true)
             (PDict m) (save_options path) in
    ("raw" = "raw" /\
     storage_calls h' = (storage_calls [] ++ [meta_write; value_write])%list) \/
    ("raw" = "discovery" /\
     storage_calls h' = (storage_calls [] ++ [value_write; meta_write])%list).
Proof.
  apply (save_write_order quiet wh "raw" "general" "a.json" (PStr "payload") [] true "" ""
           []
           (snd (_save_worker quiet wh "raw" "general" "a.json" (PStr "payload") []
                              true "" "" []))
           (PStr "s3://bucket/default/warehouse/raw/general/value/events/2020-08-30/a.json.gz")).
  vm_compute. reflexivity.
Defined.

Example discovery_writes_value_first :
  storage_calls (snd (_save_worker quiet wh "discovery" "general" "t.parquet" (PStr "rows")
                                   [] false "" "2020-08-30" []))
  = [S3Save (Some "discovery/general/value/events/2020-08-30/t.parquet") (PStr "rows") [];
     S3Save (Some "discovery/general/meta/events/2020-08-30/t.parquet")
       (PDict [("default_table_name", PStr "events");
               ("discovery_full_path",
                PStr "default/warehouse/discovery/general/value/events/2020-08-30/t.parquet");
               ("discovery_stored_time", PStr "2020-08-30 12:00:00.000000");
               ("discovery_ymd", PStr "2020-08-30")]) []].
Proof.
  vm_compute. reflexivity.
Qed.

(** ** Dictionaries *)

Section DictFacts.

Context {V : Type}.
Implicit Types (d : dict V) (k : string) (v : V).

Lemma get_set_same k v d : Dict.get k (Dict.set k v d) = Some v.
Proof.
  induction d as [|[k' v'] d IH]; simpl.
  - now rewrite String.eqb_refl.
  - destruct (String.eqb k' k) eqn:E; simpl; now rewrite E.
Qed.

Lemma get_set_other k k' v d : k <> k' -> Dict.get k (Dict.set k' v d) = Dict.get k d.
Proof.
  intros Hne. induction d as [|[k1 v1] d IH]; simpl.
  - apply not_eq_sym, String.eqb_neq in Hne. now rewrite Hne.
  - destruct (String.eqb_spec k1 k') as [-> | H1]; simpl.
    + apply not_eq_sym, String.eqb_neq in Hne. now rewrite Hne.
    + now rewrite IH.
Qed.

Lemma keys_set k v d :
  Dict.keys (Dict.set k v d)
  = if existsb (String.eqb k) (Dict.keys d) then Dict.keys d else (Dict.keys d ++ [k])%list.
Proof.
  induction d as [|[k' v'] d IH]; simpl; [reflexivity|].
  rewrite (String.eqb_sym k k'). destruct (String.eqb k' k); simpl; [reflexivity|].
  rewrite IH. now destruct (existsb (String.eqb k) (Dict.keys d)).
Qed.

Lemma wf_set k v d : Dict.wf d -> Dict.wf (Dict.set k v d).
Proof.
  unfold Dict.wf. intros Hwf. rewrite keys_set.
  destruct (existsb (String.eqb k) (Dict.keys d)) eqn:E; [assumption|].
  apply NoDup_app; [assumption | repeat constructor; intros [] | ].
  intros x Hx [<- | []].
  assert (existsb (String.eqb k) (Dict.keys d) = true) as E'
    by (apply existsb_exists; exists k; split; [assumption | apply String.eqb_refl]).
  congruence.
Qed.

Lemma get_in k v d : Dict.get k d = Some v -> In (k, v) d.
Proof.
  induction d as [|[k' v'] d IH]; simpl; [discriminate|].
  destruct (String.eqb_spec k' k) as [-> | Hne].
  - intros [= ->]. now left.
  - intros H. right. now apply IH.
Qed.

Lemma fold_set_untouched (f : string -> string) (key : string) (items : dict V) :
  forall init : dict V,
    (forall k, In k (Dict.keys items) -> f k <> key) ->
    Dict.get key (fold_left (fun acc kv => Dict.set (f (fst kv)) (snd kv) acc) items init)
    = Dict.get key init.
Proof.
  induction items as [|[k v] items IH]; intros init Hf; simpl; [reflexivity|].
  rewrite IH by (intros k' Hk'; apply Hf; now right).
  apply get_set_other. apply not_eq_sym, Hf. now left.
Qed.

Lemma fold_set_get (f : string -> string) (items : dict V) :
  (forall a b, f a = f b -> a = b) ->
  Dict.wf items ->
  forall (init : dict V) k v,
    In (k, v) items ->
    Dict.get (f k) (fold_left (fun acc kv => Dict.set (f (fst kv)) (snd kv) acc) items init)
    = Some v.
Proof.
  intros Hinj. induction items as [|[k1 v1] items IH]; intros Hwf init k v Hin;
    [contradiction|].
  unfold Dict.wf in Hwf. simpl in Hwf. apply NoDup_cons_iff in Hwf as [Hfresh Hwf].
  simpl. destruct Hin as [[= -> ->] | Hin].
  - rewrite fold_set_untouched; [apply get_set_same|].
    intros k' Hk' Heq. apply Hinj in Heq. now subst k'.
  - now apply IH.
Qed.

End DictFacts.

Lemma append_inv_head (a b c : string) : a ++ b = a ++ c -> b = c.
Proof.
  induction a as [|x a IH]; simpl; [trivial|]. intros [= H]. now apply IH.
Qed.

Lemma meta_record_full_path (self : DataWarehouse) (store_kind : string)
    (meta : dict pyval) (warehouse_full_path : option string) (table_name0 : string)
    (t1 t2 : datetime) :
  Dict.wf meta ->
  Dict.get (store_kind ++ "_full_path")
           (meta_record self store_kind meta warehouse_full_path table_name0 t1 t2)
  = Some (PStr ("default/" ++ warehouse_name self ++ "/" ++ fmt warehouse_full_path)).
Proof.
  intros Hwf. unfold meta_record.
  apply (fold_set_get (fun k => store_kind ++ "_" ++ k)).
  - intros a b H. apply append_inv_head in H. now injection H.
  - now repeat apply wf_set.
  - apply get_in. rewrite !get_set_other by discriminate. apply get_set_same.
Qed.

(** ** Value and meta keys *)

Lemma built_keys_paired (self : DataWarehouse)
    (store_kind table_name0 user_path table_kind ymd : string) :
  store_kind = "raw" \/ store_kind = "discovery" ->
  exists stem : string,
    _get_warehouse_full_path self store_kind table_name0 user_path table_kind ymd false
      = Some (store_kind ++ String PyStr.slash (table_kind ++ String PyStr.slash
                ("value" ++ String PyStr.slash
                   (stem ++ user_path ++ compression_suffix user_path)))) /\
    _get_warehouse_full_path self store_kind table_name0 user_path table_kind ymd true
      = Some (store_kind ++ String PyStr.slash (table_kind ++ String PyStr.slash
                ("meta" ++ String PyStr.slash
                   (stem ++ user_path ++ compression_suffix user_path)))).
Proof.
  intros Hsk.
  exists (_get_table_name self table_name0
          ++ (if String.eqb ymd "" then "" else "/" ++ ymd) ++ "/").
  unfold _get_warehouse_full_path, compression_suffix.
  destruct Hsk as [-> | ->]; cbn [String.eqb Ascii.eqb Bool.eqb];
    split; f_equal; simpl; repeat (rewrite append_assoc; simpl); reflexivity.
Qed.

(** C7.  In a save that returns, the keys of the two writes split into the
    same segments except for one, ["value"] in the value key and ["meta"] in
    the meta key; and the record written under the meta key maps
    [{store_kind}_full_path] to the stored key of the value object, suffix
    included, which is not the stored key of the meta object. *)
Theorem meta_points_to_value (rt : Runtime) (self : DataWarehouse)
    (store_kind table_kind user_path : string) (value : pyval) (meta : dict pyval)
    (use_ymd : bool) (table_name0 user_ymd : string) (h h' : history) (r : pyval) :
  Dict.wf meta ->
  _save_worker rt self store_kind table_kind user_path value meta use_ymd table_name0
               user_ymd h = (Ok r, h') ->
  exists (vkey mkey stem path : string) (v : pyval) (m opts : dict pyval)
         (pre post : list string),
    let value_write := S3Save (Some vkey) v opts in
    let meta_write := S3Save (Some mkey) (PDict m) opts in
    (storage_calls h' = (storage_calls h ++ [meta_write; value_write])%list \/
     storage_calls h' = (storage_calls h ++ [value_write; meta_write])%list) /\
    PyStr.split PyStr.slash vkey = (pre ++ "value" :: post)%list /\
    PyStr.split PyStr.slash mkey = (pre ++ "meta" :: post)%list /\
    vkey = stem ++ path ++ compression_suffix path /\
    Dict.get (store_kind ++ "_full_path") m = Some (PStr (stored_key self vkey)) /\
    stored_key self vkey <> stored_key self mkey.
Proof.
  intros Hwf H. apply save_anatomy in H as (path & v & h0 & t1 & t2 & H).
  cbn zeta in H. destruct H as (Hsk & _ & _ & Hsilent & ->).
  destruct (built_keys_paired self store_kind (_get_table_name self table_name0) path
              table_kind (resolved_partition rt user_ymd use_ymd h) Hsk) as (stem & Hv & Hm).
  rewrite Hv, Hm.
  set (tail := stem ++ path ++ compression_suffix path).
  set (vkey := store_kind ++ String PyStr.slash (table_kind ++ String PyStr.slash
                 ("value" ++ String PyStr.slash tail))).
  set (mkey := store_kind ++ String PyStr.slash (table_kind ++ String PyStr.slash
                 ("meta" ++ String PyStr.slash tail))).
  assert (Hsv : PyStr.split PyStr.slash vkey
                = ((PyStr.split PyStr.slash store_kind ++ PyStr.split PyStr.slash table_kind)
                     ++ "value" :: PyStr.split PyStr.slash tail)%list).
  { unfold vkey. rewrite !split_append, <- app_assoc. reflexivity. }
  assert (Hsm : PyStr.split PyStr.slash mkey
                = ((PyStr.split PyStr.slash store_kind ++ PyStr.split PyStr.slash table_kind)
                     ++ "meta" :: PyStr.split PyStr.slash tail)%list).
  { unfold mkey. rewrite !split_append, <- app_assoc. reflexivity. }
  exists vkey, mkey,
    (store_kind ++ String PyStr.slash (table_kind ++ String PyStr.slash
       ("value" ++ String PyStr.slash stem))),
    path, v,
    (meta_record self store_kind meta (Some vkey) (_get_table_name self table_name0) t1 t2),
    (save_options path),
    (PyStr.split PyStr.slash store_kind ++ PyStr.split PyStr.slash table_kind)%list,
    (PyStr.split PyStr.slash tail).
  cbn zeta. rewrite storage_calls_app, Hsilent. repeat split.
  - destruct (String.eqb store_kind "raw"); [now left | now right].
  - exact Hsv.
  - exact Hsm.
  - unfold vkey, tail. simpl. repeat (rewrite append_assoc; simpl). reflexivity.
  - now apply meta_record_full_path.
  - unfold stored_key. intros Heq.
    apply append_inv_head, append_inv_head, append_inv_head in Heq.
    rewrite Heq, Hsm in Hsv. apply app_inv_head in Hsv. discriminate.
Qed.

Lemma meta_points_to_value_witness :
  exists (vkey mkey stem path : string) (v : pyval) (m opts : dict pyval)
         (pre post : list string),
    let h' := snd (_save_worker quiet wh "discovery" "general" "a.json" (PStr "payload")
                                [("source", PStr "crawler")] true "" "" []) in
    let value_write := S3Save (Some vkey) v opts in
    let meta_write := S3Save (Some mkey) (PDict m) opts in
    (storage_calls h' = (storage_calls [] ++ [meta_write; value_write])%list \/
     storage_calls h' = (storage_calls [] ++ [value_write; meta_write])%list) /\
    PyStr.split PyStr.slash vkey = (pre ++ "value" :: post)%list /\
    PyStr.split PyStr.slash mkey = (pre ++ "meta" :: post)%list /\
    vkey = stem ++ path ++ compression_suffix path /\
    Dict.get ("discovery" ++ "_full_path") m = Some (PStr (stored_key wh vkey)) /\
    stored_key wh vkey <> stored_key wh mkey.
Proof.
  apply (meta_points_to_value quiet wh "discovery" "general" "a.json" (PStr "payload")
           [("source", PStr "crawler")] true "" "" []
           (snd (_save_worker quiet wh "discovery" "general" "a.json" (PStr "payload")
                              [("source", PStr "crawler")] true "" "" []))
           (PStr
              "s3://bucket/default/warehouse/discovery/general/value/events/2020-08-30/a.json.gz")).
  - repeat constructor. intros [].
  - vm_compute. reflexivity.
Defined.

(** ** CSV transcoding on the save path *)

Lemma random_string_raises (rt : Runtime) (n : nat) :
  forall (acc : string) (h h1 : history) (e : exn),
    _get_random_string_from rt n acc h = (Raise e, h1) ->
    e = IndexError "string index out of range".
Proof.
  induction n as [|n IH]; intros acc h h1 e; cbn [_get_random_string_from].
  - discriminate.
  - unfold bind, call, lift.
    destruct (String.get _ random_box) as [c|]; [apply IH | now intros [= <- _]].
Qed.

Lemma valid_user_path_raises (rt : Runtime) (user_path : string) (h h1 : history) (e : exn) :
  _get_valid_user_path rt user_path h = (Raise e, h1) ->
  e = ValueError ("invalid user_path " ++ user_path)
  \/ e = IndexError "string index out of range".
Proof.
  unfold _get_valid_user_path. destruct user_path as [|c rest].
  - intros [= <- _]. now left.
  - destruct (Ascii.eqb c PyStr.dot); [|discriminate].
    destruct (String.length (String c rest) =? 1)%nat; [intros [= <- _]; now left|].
    unfold bind, call, _get_random_string.
    destruct (_get_random_string_from rt 5 "" (h ++ [TimeNs])%list) as [[s|e0] h2] eqn:E;
      [discriminate|].
    intros [= <- _]. right. exact (random_string_raises _ _ _ _ _ _ E).
Qed.

Lemma rmap_values_raises (l : list pyval) (e : exn) :
  rmap PyVal.values l = Raise e -> exists msg, e = AttributeError msg.
Proof.
  induction l as [|x l IH]; simpl; [discriminate|].
  destruct (PyVal.values x) as [vs|e0] eqn:E.
  - destruct (rmap PyVal.values l); [discriminate|]. intros [= <-]. now apply IH.
  - intros [= <-]. destruct x; try discriminate; injection E as <-; eexists; reflexivity.
Qed.

Lemma json_to_csv_list_raises (l : list pyval) (e : exn) :
  _json_to_csv (PList l) = Raise e -> exists msg, e = AttributeError msg.
Proof.
  unfold _json_to_csv. destruct l as [|first rest]; [discriminate|].
  unfold rbind. destruct (PyVal.keys first) as [ks|e0] eqn:E.
  - destruct (rmap PyVal.values (first :: rest)) as [b|e1] eqn:E1; [discriminate|].
    intros [= <-]. exact (rmap_values_raises _ _ E1).
  - intros [= <-]. destruct first; try discriminate; injection E as <-; eexists; reflexivity.
Qed.

(** The end of [_save_worker], from [_upgrade_meta] on, when it raised: either
    the store kind was refused or a write had been issued. *)
Ltac storage_grew Hs :=
  let Hq := fresh "Hq" in
  intros Hq; apply (f_equal (@List.length event)) in Hq;
  rewrite !storage_calls_app, Hs, !length_app in Hq; cbn in Hq; lia.

Ltac save_tail H Hs :=
  unfold bind at 1 in H; rewrite upgrade_meta_eq in H;
  destruct (String.eqb _ "raw");
  [ cbn [orb] in H; unfold bind, es_save, call, ret in H;
    repeat match type of H with
           | context [match s3_save ?r ?a ?b ?c ?d with _ => _ end] =>
               destruct (s3_save r a b c d)
           end;
    try discriminate; injection H as _ <-; right; storage_grew Hs
  | cbn [orb] in H; destruct (String.eqb _ "discovery");
    [ unfold bind, es_save, call, ret in H;
      repeat match type of H with
             | context [match s3_save ?r ?a ?b ?c ?d with _ => _ end] =>
                 destruct (s3_save r a b c d)
             end;
      try discriminate; injection H as _ <-; right; storage_grew Hs
    | injection H as <- _; left; reflexivity ] ].

(** Where a save that raised gave up. *)
Lemma save_failure (rt : Runtime) (self : DataWarehouse)
    (store_kind table_kind user_path : string) (value : pyval) (meta : dict pyval)
    (use_ymd : bool) (table_name0 user_ymd : string) (h h' : history) (e : exn) :
  _save_worker rt self store_kind table_kind user_path value meta use_ymd table_name0
               user_ymd h = (Raise e, h') ->
  _get_valid_user_path rt user_path (after_partition user_ymd use_ymd h) = (Raise e, h')
  \/ (exists path,
        _get_valid_user_path rt user_path (after_partition user_ymd use_ymd h)
          = (Ok path, h') /\
        PyVal.is_list value = true /\ _json_to_csv value = Raise e)
  \/ e = ValueError ("invalid store_kind " ++ store_kind)
  \/ storage_calls h' <> storage_calls h.
Proof.
  unfold _save_worker. intros H.
  rewrite (bind_ok _ _ _ _ _ (partition_stage rt user_ymd use_ymd h)) in H.
  pose proof (valid_user_path_silent rt user_path (after_partition user_ymd use_ymd h)) as Hs.
  rewrite after_partition_silent in Hs.
  destruct (_get_valid_user_path rt user_path (after_partition user_ymd use_ymd h))
    as [[path|e0] hp] eqn:Hp; cbn [snd] in Hs.
  2:{ rewrite (bind_raise _ _ _ _ _ Hp) in H. injection H as <- <-. now left. }
  rewrite (bind_ok _ _ _ _ _ Hp) in H. right.
  destruct (String.eqb (snd (OsPath.splitext path)) ".csv" && PyVal.is_list value) eqn:Hc.
  - unfold bind at 1 in H. unfold bind at 1, lift in H.
    destruct (_json_to_csv value) as [s|e1] eqn:Hj.
    + unfold ret at 1 in H. right. revert H. generalize (PStr s). intros v H.
      save_tail H Hs.
    + injection H as <- <-. left. exists path. apply andb_true_iff in Hc as [_ Hl].
      now repeat split.
  - rewrite (bind_ok _ _ hp hp value eq_refl) in H. right. save_tail H Hs.
Qed.

(** C10.  On the save path the transcoder runs exactly when the normalized
    path has the extension [.csv] and the value is a list.  A list whose first
    element is not a mapping makes the save raise [AttributeError] from the
    transcoder with no storage call issued; the transcoder never answers a
    list with its "must be list" error, so a save that ends with that error
    got it from the storage handler; and a save that returns has written the
    transcoded text in the first case and the value itself otherwise. *)
Theorem csv_transcode_on_save (rt : Runtime) (self : DataWarehouse)
    (store_kind table_kind user_path : string) (value : pyval) (meta : dict pyval)
    (use_ymd : bool) (table_name0 user_ymd : string) (h : history) :
  let save :=
    _save_worker rt self store_kind table_kind user_path value meta use_ymd table_name0
                 user_ymd in
  let normalize :=
    _get_valid_user_path rt user_path (after_partition user_ymd use_ymd h) in
  (forall (first : pyval) (rest : list pyval) (path : string) (hp : history),
     value = PList (first :: rest) ->
     (forall d, first <> PDict d) ->
     normalize = (Ok path, hp) ->
     snd (OsPath.splitext path) = ".csv" ->
     save h = (Raise (AttributeError ("'" ++ PyVal.type_name first
                                          ++ "' object has no attribute 'keys'")), hp)
     /\ storage_calls hp = storage_calls h) /\
  (forall l : list pyval,
     _json_to_csv (PList l) <> Raise (ValueError "json data's type must be list.")) /\
  (forall h' : history,
     save h = (Raise (ValueError "json data's type must be list."), h') ->
     storage_calls h' <> storage_calls h) /\
  (forall (r : pyval) (h' : history),
     save h = (Ok r, h') ->
     exists (path : string) (hp : history) (key : option string) (v : pyval),
       normalize = (Ok path, hp) /\
       In (S3Save key v (save_options path)) h' /\
       key = _get_warehouse_full_path self store_kind (_get_table_name self table_name0)
               path table_kind (resolved_partition rt user_ymd use_ymd h) false /\
       if String.eqb (snd (OsPath.splitext path)) ".csv" && PyVal.is_list value
       then exists s, _json_to_csv value = Ok s /\ v = PStr s
       else v = value).
Proof.
  cbn zeta. repeat split.
  - subst value. unfold _save_worker.
    rewrite (bind_ok _ _ _ _ _ (partition_stage rt user_ymd use_ymd h)),
      (bind_ok _ _ _ _ _ H1), H2.
    cbn [String.eqb Ascii.eqb Bool.eqb PyVal.is_list andb].
    apply bind_raise. unfold bind, lift.
    destruct first; try reflexivity. now elim (H0 d).
  - pose proof (valid_user_path_silent rt user_path (after_partition user_ymd use_ymd h)) as Hs.
    rewrite H1, after_partition_silent in Hs. exact Hs.
  - intros l Hl. apply json_to_csv_list_raises in Hl as [msg Hmsg]. discriminate.
  - intros h' H. apply save_failure in H as [H | [(path & _ & Hl & H) | [H | H]]].
    + apply valid_user_path_raises in H as [H | H]; discriminate.
    + destruct value; try discriminate.
      apply json_to_csv_list_raises in H as [msg Hmsg]. discriminate.
    + discriminate.
    + exact H.
  - intros r h' H. apply save_anatomy in H as (path & v & h0 & t1 & t2 & H).
    cbn zeta in H. destruct H as (_ & [hp Hp] & Hv & _ & ->).
    exists path, hp. eexists. exists v. repeat split; [exact Hp | | exact Hv].
    apply in_or_app. right.
    destruct (String.eqb store_kind "raw"); [right; left | left]; reflexivity.
Qed.

Lemma csv_transcode_on_save_witness :
  _save_worker quiet wh "raw" "general" "rows.csv" (PList [PInt 1; PInt 2]) [] true "" "" []
    = (Raise (AttributeError ("'" ++ PyVal.type_name (PInt 1)
                                  ++ "' object has no attribute 'keys'")), [Now])
  /\ storage_calls [Now] = storage_calls [].
Proof.
  apply (proj1 (csv_transcode_on_save quiet wh "raw" "general" "rows.csv"
                  (PList [PInt 1; PInt 2]) [] true "" "" [])
               (PInt 1) [PInt 2] "rows.csv" [Now]).
  - reflexivity.
  - discriminate.
  - reflexivity.
  - reflexivity.
Defined.

Example csv_of_records :
  _json_to_csv (PList [PDict [("a", PInt 1); ("b", PInt 2)];
                       PDict [("a", PInt 3); ("b", PInt 4)]])
  = Ok ("a,b" ++ Csv.lineterminator ++ "1,2" ++ Csv.lineterminator
              ++ "3,4" ++ Csv.lineterminator).
Proof.
  reflexivity.
Qed.

(** ** Listing *)

(** C2.  With [is_direoctry] and [load] unset, [_list_worker] lists the prefix
    a second time after the [includes] loop and returns that second listing
    whole: the result does not depend on [includes]. *)
Theorem list_returns_second_listing (rt : Runtime) (self : DataWarehouse)
    (store_kind table_kind table_name0 user_dir ymd : string) (is_meta : bool)
    (includes : list string) (h : history) :
  let prefix := listing_prefix self store_kind table_kind table_name0 user_dir ymd in
  let listed := S3ListObjects prefix (warehouse_name self) in
  _list_worker rt self store_kind table_kind table_name0 user_dir ymd false is_meta
               includes false h
  = match s3_list_objects rt h prefix (warehouse_name self) with
    | Raise e => (Raise e, (h ++ [listed])%list)
    | Ok _ =>
        (match s3_list_objects rt (h ++ [listed])%list prefix (warehouse_name self) with
         | Ok objects => Ok (Entries objects)
         | Raise e => Raise e
         end, (h ++ [listed; listed])%list)
    end.
Proof.
  cbn zeta. unfold _list_worker, listing_prefix, es_list_objects, bind, call, ret.
  cbn [negb].
  destruct (s3_list_objects rt h _ _) as [objects|e]; [|reflexivity].
  rewrite <- app_assoc. cbn [app].
  destruct (s3_list_objects rt _ _ _) as [objects'|e]; reflexivity.
Qed.

Example filter_includes_keeps_matches :
  map Key (filter_includes ["a/"] three_keys) = ["a/1"; "a/2"].
Proof.
  reflexivity.
Qed.

Example list_ignores_includes :
  fst (raw_list (scripted [] [] three_keys) wh "t" "" "" "general" false false ["a/"] false [])
  = Ok (Entries three_keys).
Proof.
  reflexivity.
Qed.

(** ** Loading by full path *)

Lemma join_cons (a : string) (l : list string) :
  l <> [] -> PyStr.join "/" (a :: l) = a ++ String PyStr.slash (PyStr.join "/" l).
Proof.
  destruct l; [contradiction | reflexivity].
Qed.

Lemma meta_path_of_segments (a0 a1 a2 a3 c tail : string) :
  slash_free a0 -> slash_free a1 -> slash_free a2 -> slash_free a3 -> slash_free c ->
  _get_meta_path_with_full_path
    (a0 ++ String PyStr.slash (a1 ++ String PyStr.slash (a2 ++ String PyStr.slash
       (a3 ++ String PyStr.slash (c ++ String PyStr.slash tail)))))
  = Ok (a0 ++ String PyStr.slash (a1 ++ String PyStr.slash (a2 ++ String PyStr.slash
          (a3 ++ String PyStr.slash ("meta" ++ String PyStr.slash tail))))).
Proof.
  intros H0 H1 H2 H3 Hc. unfold _get_meta_path_with_full_path.
  rewrite !split_segment by assumption. cbn [PyStr.set_item rbind].
  pose proof (split_nonempty PyStr.slash tail) as Hne.
  rewrite !join_cons by discriminate. rewrite join_cons by assumption.
  now rewrite join_split.
Qed.

(** C5 (as amended).  The full-path loaders validate nothing.
    [load_with_full_path] fetches the key it is given, whatever its prefix.
    [load_meta_with_full_path] raises [IndexError] before any fetch when the
    key has fewer than five segments; otherwise it fetches the key with its
    fifth segment replaced by ["meta"], which for the stored key of a value
    object is the stored key of its meta object. *)
Theorem full_path_loaders_fetch (rt : Runtime) (self : DataWarehouse) (full_path : string)
    (h : history) :
  load_with_full_path rt full_path h
    = (s3_load_file rt h full_path, (h ++ [S3LoadFile full_path])%list) /\
  (List.length (PyStr.split PyStr.slash full_path) <= 4 ->
   load_meta_with_full_path rt full_path h
     = (Raise (IndexError "list assignment index out of range"), h)) /\
  (forall (s0 s1 s2 s3 s4 : string) (rest : list string),
     PyStr.split PyStr.slash full_path = s0 :: s1 :: s2 :: s3 :: s4 :: rest ->
     let meta_path := PyStr.join "/" (s0 :: s1 :: s2 :: s3 :: "meta" :: rest) in
     load_meta_with_full_path rt full_path h
       = (s3_load_file rt h meta_path, (h ++ [S3LoadFile meta_path])%list)) /\
  (forall (store_kind table_name0 user_path table_kind ymd vkey mkey : string),
     slash_free (warehouse_name self) -> slash_free table_kind ->
     _get_warehouse_full_path self store_kind table_name0 user_path table_kind ymd false
       = Some vkey ->
     _get_warehouse_full_path self store_kind table_name0 user_path table_kind ymd true
       = Some mkey ->
     full_path = stored_key self vkey ->
     load_meta_with_full_path rt full_path h
       = (s3_load_file rt h (stored_key self mkey),
          (h ++ [S3LoadFile (stored_key self mkey)])%list)).
Proof.
  split; [reflexivity|]. split; [|split].
  - intros Hlen. unfold load_meta_with_full_path, _get_meta_path_with_full_path, bind, lift.
    destruct (PyStr.split PyStr.slash full_path) as [|s0 [|s1 [|s2 [|s3 [|s4 rest]]]]];
      try reflexivity.
    cbn [List.length] in Hlen. lia.
  - intros s0 s1 s2 s3 s4 rest Hsplit. cbn zeta.
    unfold load_meta_with_full_path, _get_meta_path_with_full_path, bind, lift.
    now rewrite Hsplit.
  - intros store_kind table_name0 user_path table_kind ymd vkey mkey Hw Htk Hv Hm ->.
    assert (Hsk : store_kind = "raw" \/ store_kind = "discovery").
    { unfold _get_warehouse_full_path in Hv.
      destruct (String.eqb_spec store_kind "raw"); [now left|].
      destruct (String.eqb_spec store_kind "discovery"); [now right | discriminate]. }
    destruct (built_keys_paired self store_kind table_name0 user_path table_kind ymd Hsk)
      as (stem & Hv' & Hm').
    rewrite Hv' in Hv. rewrite Hm' in Hm. injection Hv as <-. injection Hm as <-.
    unfold load_meta_with_full_path, stored_key, bind, lift.
    change ("default/" ++ warehouse_name self ++ "/" ++ ?x)
      with ("default" ++ String PyStr.slash (warehouse_name self ++ String PyStr.slash x)).
    set (tail := stem ++ user_path ++ compression_suffix user_path).
    change (String "v" (String "a" (String "l" (String "u" (String "e"
              (String PyStr.slash tail))))))
      with ("value" ++ String PyStr.slash tail).
    rewrite meta_path_of_segments; try assumption; try reflexivity.
    destruct Hsk as [-> | ->]; reflexivity.
Qed.

(** C5 as stated fails: a key outside [default/warehouse/], which
    [_valid_full_path] refuses, is fetched by both loaders. *)
Lemma full_path_loaders_skip_validation :
  _valid_full_path wh "elsewhere/w/raw/general/value/t/x.json"
    = Raise (ValueError "invalid full_path elsewhere/w/raw/general/value/t/x.json") /\
  load_with_full_path quiet "elsewhere/w/raw/general/value/t/x.json" []
    = (Ok (PStr "contents of elsewhere/w/raw/general/value/t/x.json"),
       [S3LoadFile "elsewhere/w/raw/general/value/t/x.json"]) /\
  load_meta_with_full_path quiet "elsewhere/w/raw/general/value/t/x.json" []
    = (Ok (PStr "contents of elsewhere/w/raw/general/meta/t/x.json"),
       [S3LoadFile "elsewhere/w/raw/general/meta/t/x.json"]).
Proof.
  repeat split.
Qed.

Lemma full_path_loaders_fetch_witness :
  load_meta_with_full_path quiet
    (stored_key wh "raw/general/value/events/2020-08-30/a.json.gz") []
  = (s3_load_file quiet [] (stored_key wh "raw/general/meta/events/2020-08-30/a.json.gz"),
     ([] ++ [S3LoadFile (stored_key wh "raw/general/meta/events/2020-08-30/a.json.gz")])%list).
Proof.
  apply (proj2 (proj2 (proj2
           (full_path_loaders_fetch quiet wh
              (stored_key wh "raw/general/value/events/2020-08-30/a.json.gz") [])))
           "raw" "" "a.json" "general" "2020-08-30"
           "raw/general/value/events/2020-08-30/a.json.gz"
           "raw/general/meta/events/2020-08-30/a.json.gz"); reflexivity.
Defined.

(** ** The status loop *)

Lemma polled_succ (h : history) (query_id : string) (k : nat) :
  polled h query_id (S k) = (polled h query_id k ++ [AthenaStatus query_id; Sleep 1])%list.
Proof.
  revert h; induction k as [|k IH]; intros h; [reflexivity|].
  change (polled h query_id (S (S k)))
    with (polled (h ++ [AthenaStatus query_id; Sleep 1])%list query_id (S k)).
  now rewrite IH.
Qed.

Lemma page_requests_polled (h : history) (query_id : string) (k : nat) :
  page_requests (polled h query_id k) = page_requests h.
Proof.
  revert h; induction k as [|k IH]; intros h; [reflexivity|].
  cbn [polled]. rewrite IH. unfold page_requests. rewrite filter_app. apply app_nil_r.
Qed.

Lemma poll_running (rt : Runtime) (query query_id : string) (n : nat) :
  forall (fuel : nat) (h : history),
    (forall k, k < n ->
       exists s, athena_get_query_execution rt (polled h query_id k) query_id = Ok s
                 /\ is_terminal s = false) ->
    poll rt (n + fuel) query query_id h = poll rt fuel query query_id (polled h query_id n).
Proof.
  induction n as [|n IH]; intros fuel h Hrun; [reflexivity|].
  destruct (Hrun 0) as (s & Hs & Hterm); [lia|].
  cbn [polled] in Hs. cbn [Nat.add poll polled]. unfold call. rewrite Hs.
  unfold is_terminal in Hterm. apply orb_false_iff in Hterm as [Hterm Hok].
  apply orb_false_iff in Hterm as [Hc Hf]. rewrite Hc, Hf, Hok.
  rewrite <- app_assoc. cbn [app]. apply IH.
  intros k Hk. apply (Hrun (S k)). lia.
Qed.

Lemma poll_exhausted (rt : Runtime) (query query_id : string) (n fuel : nat) (h : history)
    (status : string) :
  reports_at rt h query_id n status -> fuel <= n ->
  poll rt fuel query query_id h = None.
Proof.
  intros [Hrun _] Hle.
  rewrite <- (Nat.add_0_r fuel), poll_running; [reflexivity|].
  intros k Hk. apply Hrun. lia.
Qed.

Lemma poll_reaches (rt : Runtime) (query query_id : string) (n fuel : nat) (h : history)
    (status : string) :
  reports_at rt h query_id n status -> n < fuel ->
  poll rt fuel query query_id h
  = poll rt (S (fuel - S n)) query query_id (polled h query_id n)
  /\ athena_get_query_execution rt (polled h query_id n) query_id = Ok status.
Proof.
  intros [Hrun Hn] Hlt. split; [|exact Hn].
  replace fuel with (n + S (fuel - S n)) at 1 by lia.
  now apply poll_running.
Qed.

Lemma poll_succeeded (rt : Runtime) (query query_id : string) (n fuel : nat) (h : history) :
  reports_at rt h query_id n "SUCCEEDED" -> n < fuel ->
  poll rt fuel query query_id h = Some (Ok tt, polled h query_id (S n)).
Proof.
  intros Hrep Hlt. destruct (poll_reaches rt query query_id n fuel h _ Hrep Hlt) as [-> Hn].
  cbn [poll]. unfold call. rewrite Hn, polled_succ, <- app_assoc. reflexivity.
Qed.

Lemma poll_failed (rt : Runtime) (query query_id : string) (n fuel : nat) (h : history) :
  reports_at rt h query_id n "FAILED" -> n < fuel ->
  poll rt fuel query query_id h
  = Some (Raise (ValueError ("[" ++ query ++ "] is failed.")), polled h query_id (S n)).
Proof.
  intros Hrep Hlt. destruct (poll_reaches rt query query_id n fuel h _ Hrep Hlt) as [-> Hn].
  cbn [poll]. unfold call. rewrite Hn, polled_succ, <- app_assoc. reflexivity.
Qed.

Lemma poll_cancelled (rt : Runtime) (query query_id : string) (n fuel : nat) (h : history) :
  reports_at rt h query_id n "CANCELLED" -> n < fuel ->
  poll rt fuel query query_id h
  = Some (Raise (ValueError ("[" ++ query ++ "] is cancelled.")), polled h query_id (S n)).
Proof.
  intros Hrep Hlt. destruct (poll_reaches rt query query_id n fuel h _ Hrep Hlt) as [-> Hn].
  cbn [poll]. unfold call. rewrite Hn, polled_succ, <- app_assoc. reflexivity.
Qed.

(** C8.  When the status loop meets [FAILED] or [CANCELLED] (after any number
    of polls that reported no terminal status), [load_with_athena_query]
    raises a [ValueError] that quotes the query, having requested no result
    page; and whatever the number of polls followed, it does not return. *)
Theorem terminal_status_raises (rt : Runtime) (self : DataWarehouse)
    (query format_type query_id status : string) (request_limit : Z) (h : history)
    (n fuel : nat) :
  athena_start_query_execution rt h query
    ("s3://" ++ bucket_name self ++ "/trash/athena_result") = Ok query_id ->
  reports_at rt (submitted self query h) query_id n status ->
  status = "FAILED" \/ status = "CANCELLED" ->
  (n < fuel ->
   load_with_athena_query rt self fuel query format_type request_limit h
   = Some (Raise (ValueError ("[" ++ query ++ "] is "
                                  ++ (if String.eqb status "FAILED" then "failed."
                                      else "cancelled."))),
           polled (submitted self query h) query_id (S n))
   /\ page_requests (polled (submitted self query h) query_id (S n)) = page_requests h) /\
  (forall (r : list query_item) (h' : history),
     load_with_athena_query rt self fuel query format_type request_limit h
     <> Some (Ok r, h')).
Proof.
  intros Hstart Hrep Hstatus.
  assert (Hrun : n < fuel ->
    load_with_athena_query rt self fuel query format_type request_limit h
    = Some (Raise (ValueError ("[" ++ query ++ "] is "
                                   ++ (if String.eqb status "FAILED" then "failed."
                                       else "cancelled."))),
            polled (submitted self query h) query_id (S n))).
  { intros Hlt. unfold load_with_athena_query, call. rewrite Hstart.
    fold (submitted self query h).
    destruct Hstatus as [-> | ->].
    - now rewrite (poll_failed rt query query_id n fuel _ Hrep Hlt).
    - now rewrite (poll_cancelled rt query query_id n fuel _ Hrep Hlt). }
  split.
  - intros Hlt. split; [now apply Hrun|].
    rewrite page_requests_polled. unfold submitted, page_requests.
    rewrite filter_app. apply app_nil_r.
  - intros r h' H. destruct (Nat.lt_ge_cases n fuel) as [Hlt | Hge].
    + rewrite (Hrun Hlt) in H. discriminate.
    + unfold load_with_athena_query, call in H. rewrite Hstart in H.
      fold (submitted self query h) in H.
      rewrite (poll_exhausted rt query query_id n fuel _ status Hrep Hge) in H.
      discriminate.
Qed.

Lemma terminal_status_raises_witness :
  (load_with_athena_query (scripted ["RUNNING"; "FAILED"] [] []) wh 5 "SELECT 1" "auto"
                          10000 []
   = Some (Raise (ValueError ("[" ++ "SELECT 1" ++ "] is "
                                  ++ (if String.eqb "FAILED" "FAILED" then "failed."
                                      else "cancelled."))),
           polled (submitted wh "SELECT 1" []) "query-1" 2)
   /\ page_requests (polled (submitted wh "SELECT 1" []) "query-1" 2) = page_requests []) /\
  (forall (r : list query_item) (h' : history),
     load_with_athena_query (scripted ["RUNNING"; "FAILED"] [] []) wh 5 "SELECT 1" "auto"
                            10000 []
     <> Some (Ok r, h')).
Proof.
  assert (Hrep : reports_at (scripted ["RUNNING"; "FAILED"] [] [])
                   (submitted wh "SELECT 1" []) "query-1" 1 "FAILED").
  { split; [|reflexivity].
    intros k Hk. assert (k = 0) as -> by lia. exists "RUNNING". split; reflexivity. }
  destruct (terminal_status_raises (scripted ["RUNNING"; "FAILED"] [] []) wh "SELECT 1"
              "auto" "query-1" "FAILED" 10000 [] 1 5 eq_refl Hrep (or_introl eq_refl))
    as [Hraise Hnever].
  split; [apply Hraise; lia | exact Hnever].
Defined.

(** ** Pagination *)

(** C4 (as amended).  In row-parsing mode, when the first three result pages
    carry the continuation tokens [t1], [t2] and [t1] again, the page loop
    stops at the third page: exactly three pages are requested (with no token,
    with [t1], with [t2]) and the rows of all three are returned, the first
    row of the first page serving as the header. *)
Theorem pagination_stops_on_repeated_token (rt : Runtime) (self : DataWarehouse)
    (query query_id t1 t2 : string) (request_limit : Z) (h : history) (n fuel : nat)
    (p1 p2 p3 : raw_result) (header : row) (rows1 : list row)
    (r1 r2 r3 : list (dict string)) :
  let ready := polled (submitted self query h) query_id (S n) in
  let first := AthenaResults query_id None in
  let second := AthenaResults query_id (Some t1) in
  let third := AthenaResults query_id (Some t2) in
  athena_start_query_execution rt h query
    ("s3://" ++ bucket_name self ++ "/trash/athena_result") = Ok query_id ->
  reports_at rt (submitted self query h) query_id n "SUCCEEDED" ->
  n < fuel ->
  (3 <= request_limit)%Z ->
  t1 <> t2 ->
  athena_get_query_results rt ready query_id None = Ok p1 ->
  athena_get_query_results rt (ready ++ [first])%list query_id (Some t1) = Ok p2 ->
  athena_get_query_results rt (ready ++ [first; second])%list query_id (Some t2) = Ok p3 ->
  NextToken p1 = Some t1 -> NextToken p2 = Some t2 -> NextToken p3 = Some t1 ->
  Rows p1 = header :: rows1 ->
  parse header rows1 = Ok r1 ->
  parse header (Rows p2) = Ok r2 ->
  parse header (Rows p3) = Ok r3 ->
  load_with_athena_query rt self fuel query "select" request_limit h
  = Some (Ok (map ParsedRow (r1 ++ r2 ++ r3)%list), (ready ++ [first; second; third])%list).
Proof.
  cbn zeta. intros Hstart Hrep Hlt Hlimit Hne Hp1 Hp2 Hp3 Ht1 Ht2 Ht3 Hrows Hr1 Hr2 Hr3.
  unfold load_with_athena_query, call. rewrite Hstart. fold (submitted self query h).
  rewrite (poll_succeeded rt query query_id n fuel _ Hrep Hlt).
  change (String.eqb "select" "auto") with false. cbn iota.
  destruct (Z.to_nat request_limit) as [|[|[|limit]]] eqn:Hl; try lia.
  set (ready := polled (submitted self query h) query_id (S n)) in *.
  f_equal.
  cbn [fetch_pages List.length Nat.ltb Nat.leb].
  unfold bind at 1. unfold call at 1. rewrite Hp1.
  change (String.eqb "select" "raw") with false.
  change (String.eqb "select" "select") with true. cbn iota.
  unfold bind at 1. cbn [Nat.eqb]. rewrite Hrows. unfold ret at 1.
  unfold bind at 1. unfold lift at 1. cbn [fst snd]. rewrite Hr1, Ht1. cbn [existsb].
  cbn [fetch_pages app List.length Nat.ltb Nat.leb last].
  unfold bind at 1. unfold call at 1. rewrite Hp2.
  unfold bind at 1. cbn [Nat.eqb]. unfold ret at 1.
  unfold bind at 1. unfold lift at 1. cbn [fst snd]. rewrite Hr2, Ht2. cbn [existsb].
  apply String.eqb_neq in Hne. rewrite String.eqb_sym, Hne. cbn [orb].
  cbn [fetch_pages app List.length Nat.ltb Nat.leb last].
  unfold bind at 1. unfold call at 1. rewrite <- app_assoc. cbn [app]. rewrite Hp3.
  unfold bind at 1. cbn [Nat.eqb]. unfold ret at 1.
  unfold bind at 1. unfold lift at 1. cbn [fst snd]. rewrite Hr3, Ht3. cbn [existsb].
  rewrite String.eqb_refl. cbn [orb]. unfold ret.
  rewrite <- !app_assoc, !map_app. reflexivity.
Qed.

Lemma scripted_succeeds_at_second_poll :
  reports_at (scripted ["RUNNING"; "SUCCEEDED"] looping_pages [])
             (submitted wh "SELECT a FROM t" []) "query-1" 1 "SUCCEEDED".
Proof.
  split; [|reflexivity].
  intros k Hk. assert (k = 0) as -> by lia. exists "RUNNING". split; reflexivity.
Qed.

Lemma pagination_stops_on_repeated_token_witness :
  load_with_athena_query (scripted ["RUNNING"; "SUCCEEDED"] looping_pages []) wh 5
                         "SELECT a FROM t" "select" 10000 []
  = Some (Ok (map ParsedRow ([[("a", "1")]] ++ [[("a", "2")]] ++ [[("a", "3")]])%list),
          (polled (submitted wh "SELECT a FROM t" []) "query-1" 2
             ++ [AthenaResults "query-1" None; AthenaResults "query-1" (Some "t1");
                 AthenaResults "query-1" (Some "t2")])%list).
Proof.
  apply (pagination_stops_on_repeated_token
           (scripted ["RUNNING"; "SUCCEEDED"] looping_pages []) wh "SELECT a FROM t"
           "query-1" "t1" "t2" 10000 [] 1 5
           {| Rows := [[Some "a"]; [Some "1"]]; NextToken := Some "t1" |}
           {| Rows := [[Some "2"]]; NextToken := Some "t2" |}
           {| Rows := [[Some "3"]]; NextToken := Some "t1" |}
           [Some "a"] [[Some "1"]]);
    try reflexivity.
  - exact scripted_succeeds_at_second_poll.
  - lia.
  - lia.
  - discriminate.
Defined.

(** C4 as stated fails: with tokens t1, t2, t1 the rows of the third page are
    part of the result, which therefore is not the rows of the first two
    pages. *)
Lemma pagination_returns_third_page :
  option_map fst
    (load_with_athena_query (scripted ["RUNNING"; "SUCCEEDED"] looping_pages []) wh 5
                            "SELECT a FROM t" "select" 10000 [])
  = Some (Ok [ParsedRow [("a", "1")]; ParsedRow [("a", "2")]; ParsedRow [("a", "3")]]) /\
  option_map fst
    (load_with_athena_query (scripted ["RUNNING"; "SUCCEEDED"] looping_pages []) wh 5
                            "SELECT a FROM t" "select" 10000 [])
  <> Some (Ok [ParsedRow [("a", "1")]; ParsedRow [("a", "2")]]).
Proof.
  assert (H : option_map fst
    (load_with_athena_query (scripted ["RUNNING"; "SUCCEEDED"] looping_pages []) wh 5
                            "SELECT a FROM t" "select" 10000 [])
    = Some (Ok [ParsedRow [("a", "1")]; ParsedRow [("a", "2")]; ParsedRow [("a", "3")]]))
    by (vm_compute; reflexivity).
  split; [exact H | rewrite H; discriminate].
Qed.

(** * Further properties *)

(** ** Substrings *)

Lemma substring_occurs (s : string) :
  forall m l : nat, exists a b, s = a ++ String.substring m l s ++ b.
Proof.
  induction s as [|c s IH]; intros m l.
  - exists "", "". now destruct m, l.
  - destruct m as [|m].
    + exists "", (String.substring l (String.length (String c s) - l) (String c s)).
      cbn [String.append]. symmetry. apply substring_cut.
    + destruct (IH m l) as (a & b & Hs). exists (String c a), b.
      cbn [String.substring String.append]. now rewrite <- Hs.
Qed.

Lemma contains_spec (s sub : string) :
  PyStr.contains s sub = true <-> exists a b, s = a ++ sub ++ b.
Proof.
  unfold PyStr.contains. split.
  - destruct (String.index 0 sub s) as [m|] eqn:E; [intros _ | discriminate].
    apply String.index_correct1 in E.
    destruct (substring_occurs s m (String.length sub)) as (a & b & Hs).
    exists a, b. now rewrite E in Hs.
  - intros (a & b & ->).
    destruct (String.index 0 sub (a ++ sub ++ b)) as [m|] eqn:E; [reflexivity|].
    exfalso. destruct sub as [|c sub].
    + apply String.index_correct4 in E. lia.
    + apply (String.index_correct3 0 (String.length a)) in E; [|discriminate|lia].
      apply E. rewrite substring_skip. apply substring_head.
Qed.

(** ** More on listing *)

(** X1.  The [includes] argument changes nothing: whatever the flags, the
    outcome of [_list_worker] and the calls it issues are the same for any
    two [includes] lists. *)
Theorem list_worker_ignores_includes (rt : Runtime) (self : DataWarehouse)
    (store_kind table_kind table_name0 user_dir ymd : string) (load is_meta : bool)
    (includes includes' : list string) (is_direoctry : bool) (h : history) :
  _list_worker rt self store_kind table_kind table_name0 user_dir ymd load is_meta
               includes is_direoctry h
  = _list_worker rt self store_kind table_kind table_name0 user_dir ymd load is_meta
                 includes' is_direoctry h.
Proof.
  unfold _list_worker, bind.
  destruct (es_list_objects rt self _ h) as [[objects|e] h1]; reflexivity.
Qed.

(** X2.  The loop over [includes] keeps an entry exactly when its key has one
    of the substrings somewhere inside it, and keeps nothing else. *)
Theorem filter_includes_membership (includes : list string) (objects : list s3_object)
    (obj : s3_object) :
  In obj (filter_includes includes objects)
  <-> In obj objects /\
      exists include_str a b, In include_str includes /\ Key obj = a ++ include_str ++ b.
Proof.
  unfold filter_includes. rewrite in_flat_map. split.
  - intros (o & Ho & Hin). apply in_flat_map in Hin as (inc & Hinc & Hin).
    destruct (PyStr.contains (Key o) inc) eqn:Hc; [|contradiction].
    destruct Hin as [<- | []]. split; [assumption|].
    apply contains_spec in Hc as (a & b & Hk). now exists inc, a, b.
  - intros (Ho & inc & a & b & Hinc & Hk). exists obj. split; [assumption|].
    apply in_flat_map. exists inc. split; [assumption|].
    assert (Hc : PyStr.contains (Key obj) inc = true)
      by (apply contains_spec; now exists a, b).
    rewrite Hc. now left.
Qed.

(** X3.  With [is_direoctry] set, [_list_worker] lists the prefix once, throws
    that listing away and answers with the handler's [listdir] of the same
    prefix; [load], [is_meta] and [includes] play no part and no object is
    fetched. *)
Theorem list_directories (rt : Runtime) (self : DataWarehouse)
    (store_kind table_kind table_name0 user_dir ymd : string) (load is_meta : bool)
    (includes : list string) (h : history) :
  let prefix := listing_prefix self store_kind table_kind table_name0 user_dir ymd in
  let listed := S3ListObjects prefix (warehouse_name self) in
  _list_worker rt self store_kind table_kind table_name0 user_dir ymd load is_meta
               includes true h
  = match s3_list_objects rt h prefix (warehouse_name self) with
    | Raise e => (Raise e, (h ++ [listed])%list)
    | Ok _ =>
        (match s3_listdir rt (h ++ [listed])%list prefix with
         | Ok names => Ok (Directories names)
         | Raise e => Raise e
         end, (h ++ [listed; S3Listdir prefix])%list)
    end.
Proof.
  cbn zeta. unfold _list_worker, listing_prefix, es_list_objects, bind, call, ret.
  cbn [negb].
  destruct (s3_list_objects rt h _ _) as [objects|e]; [|reflexivity].
  rewrite <- app_assoc. cbn [app].
  destruct (s3_listdir rt _ _) as [names|e]; reflexivity.
Qed.

Lemma load_each_ok (rt : Runtime) (is_meta : bool) (objects : list s3_object) :
  forall (acc l : list (string * pyval)) (h h' : history),
    load_each rt is_meta objects acc h = (Ok l, h') ->
    map fst l = (map fst acc ++ map Key objects)%list /\
    exists paths : list string,
      h' = (h ++ map S3LoadFile paths)%list /\
      List.length paths = List.length objects /\
      (is_meta = false -> paths = map Key objects).
Proof.
  induction objects as [|obj objects IH]; intros acc l h h' H; cbn [load_each] in H.
  - injection H as <- <-. split; [now rewrite app_nil_r|].
    exists []. now rewrite app_nil_r.
  - apply bind_inv in H as (value & h1 & Hv & H).
    apply IH in H as (Hkeys & paths & -> & Hlen & Hpaths).
    rewrite map_app, <- app_assoc in Hkeys. split; [exact Hkeys|].
    destruct is_meta.
    + unfold load_meta_with_full_path, bind, lift in Hv.
      destruct (_get_meta_path_with_full_path (Key obj)) as [p|e]; [|discriminate].
      unfold call in Hv. injection Hv as _ <-.
      exists (p :: paths). rewrite <- app_assoc. cbn [map app List.length].
      repeat split; [now rewrite Hlen | discriminate].
    + unfold load_with_full_path, call in Hv. injection Hv as _ <-.
      exists (Key obj :: paths). rewrite <- app_assoc. cbn [map app List.length].
      repeat split; [now rewrite Hlen | intros _; now rewrite Hpaths].
Qed.

(** X4.  A listing with [load] set that returns has listed the prefix twice
    and then fetched one object per entry of the second listing, in listing
    order; it returns the entries' keys in that order, each with what was
    fetched, and without [is_meta] the fetched keys are the entries' keys. *)
Theorem list_with_load (rt : Runtime) (self : DataWarehouse)
    (store_kind table_kind table_name0 user_dir ymd : string) (is_meta : bool)
    (includes : list string) (h h' : history) (res : listing) :
  let prefix := listing_prefix self store_kind table_kind table_name0 user_dir ymd in
  let listed := S3ListObjects prefix (warehouse_name self) in
  _list_worker rt self store_kind table_kind table_name0 user_dir ymd true is_meta
               includes false h = (Ok res, h') ->
  exists (objects : list s3_object) (l : list (string * pyval)) (paths : list string),
    s3_list_objects rt (h ++ [listed])%list prefix (warehouse_name self) = Ok objects /\
    res = Loaded l /\
    map fst l = map Key objects /\
    h' = (h ++ listed :: listed :: map S3LoadFile paths)%list /\
    List.length paths = List.length objects /\
    (is_meta = false -> paths = map Key objects).
Proof.
  cbn zeta. unfold _list_worker. fold (listing_prefix self store_kind table_kind
                                         table_name0 user_dir ymd).
  set (prefix := listing_prefix self store_kind table_kind table_name0 user_dir ymd).
  intros H. cbn [negb] in H.
  apply bind_inv in H as (objects0 & h1 & H1 & H).
  apply bind_inv in H as (objects & h2 & H2 & H).
  apply bind_inv in H as (l & h3 & Hl & H).
  unfold ret in H. injection H as <- <-.
  unfold es_list_objects, call in H1, H2.
  injection H1 as _ <-. injection H2 as Hobj <-.
  apply load_each_ok in Hl as (Hkeys & paths & -> & Hlen & Hpaths).
  exists objects, l, paths. repeat split; try assumption.
  now rewrite <- !app_assoc.
Qed.

Lemma list_with_load_witness :
  exists (objects : list s3_object) (l : list (string * pyval)) (paths : list string),
    let rt := scripted [] [] three_keys in
    let prefix := listing_prefix wh "raw" "general" "t" "" "" in
    let listed := S3ListObjects prefix (warehouse_name wh) in
    s3_list_objects rt ([] ++ [listed])%list prefix (warehouse_name wh) = Ok objects /\
    Loaded [("a/1", PStr "contents of a/1"); ("a/2", PStr "contents of a/2");
            ("b/1", PStr "contents of b/1")] = Loaded l /\
    map fst l = map Key objects /\
    snd (_list_worker rt wh "raw" "general" "t" "" "" true false ["a/"] false [])
      = ([] ++ listed :: listed :: map S3LoadFile paths)%list /\
    List.length paths = List.length objects /\
    (false = false -> paths = map Key objects).
Proof.
  apply (list_with_load (scripted [] [] three_keys) wh "raw" "general" "t" "" "" false
           ["a/"] []
           (snd (_list_worker (scripted [] [] three_keys) wh "raw" "general" "t" "" "" true
                              false ["a/"] false []))).
  reflexivity.
Defined.

(** ** More on the metadata record *)

Section DictLookup.

Context {V : Type}.

Lemma get_none_keys (k : string) (d : dict V) :
  Dict.get k d = None -> ~ In k (Dict.keys d).
Proof.
  induction d as [|[k' v'] d IH]; simpl; [tauto|].
  destruct (String.eqb_spec k' k) as [-> | Hne]; [discriminate|].
  intros H [Heq | Hin]; [contradiction | now apply IH].
Qed.

Lemma fold_set_lookup (f : string -> string) (items init : dict V) (k : string) :
  (forall a b, f a = f b -> a = b) ->
  Dict.wf items ->
  Dict.get (f k) (fold_left (fun acc kv => Dict.set (f (fst kv)) (snd kv) acc) items init)
  = match Dict.get k items with
    | Some v => Some v
    | None => Dict.get (f k) init
    end.
Proof.
  intros Hinj Hwf. destruct (Dict.get k items) as [v|] eqn:E.
  - apply fold_set_get; [assumption | assumption | now apply get_in].
  - apply fold_set_untouched. intros k' Hk' Heq. apply Hinj in Heq. subst k'.
    now apply get_none_keys in E.
Qed.

End DictLookup.

(** X5.  The record [_upgrade_meta] returns holds, besides the unprefixed
    [default_table_name], the value key behind [default/{warehouse_name}/]
    under [{store_kind}_full_path], the two clock readings under
    [{store_kind}_stored_time] and [{store_kind}_ymd] (whatever the caller
    gave under those names), and every other field of the caller's meta
    under its name prefixed with the store kind, and nothing under a prefixed
    name the caller did not give. *)
Theorem upgrade_meta_contents (rt : Runtime) (self : DataWarehouse) (store_kind : string)
    (meta : dict pyval) (warehouse_full_path : option string) (table_name0 : string)
    (h h' : history) (m : dict pyval) :
  Dict.wf meta ->
  _upgrade_meta rt self store_kind meta warehouse_full_path table_name0 h = (Ok m, h') ->
  h' = (h ++ [Now; Now])%list /\
  Dict.get "default_table_name" m = Some (PStr (_get_table_name self table_name0)) /\
  Dict.get (store_kind ++ "_full_path") m
    = Some (PStr ("default/" ++ warehouse_name self ++ "/" ++ fmt warehouse_full_path)) /\
  Dict.get (store_kind ++ "_stored_time") m = Some (PStr (dt_str (now rt h))) /\
  Dict.get (store_kind ++ "_ymd") m = Some (PStr (dt_ymd (now rt (h ++ [Now])%list))) /\
  (forall k : string,
     k <> "full_path" -> k <> "stored_time" -> k <> "ymd" ->
     Dict.get (store_kind ++ "_" ++ k) m = Dict.get k meta).
Proof.
  intros Hwf H. rewrite upgrade_meta_eq in H.
  assert (Hinj : forall a b, store_kind ++ "_" ++ a = store_kind ++ "_" ++ b -> a = b).
  { intros a b Heq. apply append_inv_head in Heq. now injection Heq. }
  assert (Hwf3 : forall v1 v2 v3 : pyval,
            Dict.wf (Dict.set "ymd" v3 (Dict.set "stored_time" v2
                       (Dict.set "full_path" v1 meta))))
    by (intros; now repeat apply wf_set).
  assert (Hsk : store_kind = "raw" \/ store_kind = "discovery").
  { destruct (String.eqb_spec store_kind "raw"); [now left|].
    destruct (String.eqb_spec store_kind "discovery"); [now right | discriminate]. }
  replace (String.eqb store_kind "raw" || String.eqb store_kind "discovery") with true in H
    by (destruct Hsk as [-> | ->]; reflexivity).
  injection H as <- <-. split; [reflexivity|]. unfold meta_record.
  split; [|split; [|split; [|split]]].
  - rewrite (fold_set_untouched (fun k => store_kind ++ "_" ++ k)); [reflexivity|].
    intros k _ Heq. destruct Hsk as [-> | ->]; discriminate.
  - change (store_kind ++ "_full_path") with (store_kind ++ "_" ++ "full_path").
    rewrite (fold_set_lookup (fun k => store_kind ++ "_" ++ k)) by auto.
    now rewrite !get_set_other, get_set_same by discriminate.
  - change (store_kind ++ "_stored_time") with (store_kind ++ "_" ++ "stored_time").
    rewrite (fold_set_lookup (fun k => store_kind ++ "_" ++ k)) by auto.
    now rewrite get_set_other, get_set_same by discriminate.
  - change (store_kind ++ "_ymd") with (store_kind ++ "_" ++ "ymd").
    rewrite (fold_set_lookup (fun k => store_kind ++ "_" ++ k)) by auto.
    now rewrite get_set_same.
  - intros k Hk1 Hk2 Hk3.
    rewrite (fold_set_lookup (fun k => store_kind ++ "_" ++ k)) by auto.
    rewrite !get_set_other by auto.
    destruct (Dict.get k meta); [reflexivity|].
    destruct Hsk as [-> | ->]; reflexivity.
Qed.

Lemma upgrade_meta_contents_witness :
  let m := [("default_table_name", PStr "events");
            ("raw_source", PStr "crawler");
            ("raw_ymd", PStr "2020-08-30");
            ("raw_full_path", PStr "default/warehouse/raw/general/value/events/a.json.gz");
            ("raw_stored_time", PStr "2020-08-30 12:00:00.000000")] in
  let meta := [("source", PStr "crawler"); ("ymd", PStr "1999-01-01")] in
  [Now; Now] = ([] ++ [Now; Now])%list /\
  Dict.get "default_table_name" m = Some (PStr (_get_table_name wh "")) /\
  Dict.get ("raw" ++ "_full_path") m
    = Some (PStr ("default/" ++ warehouse_name wh ++ "/"
                             ++ fmt (Some "raw/general/value/events/a.json.gz"))) /\
  Dict.get ("raw" ++ "_stored_time") m = Some (PStr (dt_str (now quiet []))) /\
  Dict.get ("raw" ++ "_ymd") m = Some (PStr (dt_ymd (now quiet ([] ++ [Now])%list))) /\
  (forall k : string,
     k <> "full_path" -> k <> "stored_time" -> k <> "ymd" ->
     Dict.get ("raw" ++ "_" ++ k) m = Dict.get k meta).
Proof.
  cbn zeta.
  apply (upgrade_meta_contents quiet wh "raw"
           [("source", PStr "crawler"); ("ymd", PStr "1999-01-01")]
           (Some "raw/general/value/events/a.json.gz") "" []).
  - repeat constructor; simpl; intuition discriminate.
  - reflexivity.
Defined.

(** ** More on the save pipeline *)

(** The pipeline of [_save_worker] stage by stage: normalization, transcoding,
    the store-kind check of [_upgrade_meta] and the pair of writes. *)
Lemma save_outcome (rt : Runtime) (self : DataWarehouse)
    (store_kind table_kind user_path : string) (value : pyval) (meta : dict pyval)
    (use_ymd : bool) (table_name0 user_ymd : string) (h : history) :
  _save_worker rt self store_kind table_kind user_path value meta use_ymd table_name0
               user_ymd h
  = match _get_valid_user_path rt user_path (after_partition user_ymd use_ymd h) with
    | (Raise e, hp) => (Raise e, hp)
    | (Ok path, hp) =>
        match transcoded path value with
        | Raise e => (Raise e, hp)
        | Ok v =>
            let ymd := resolved_partition rt user_ymd use_ymd h in
            let table := _get_table_name self table_name0 in
            let vkey :=
              _get_warehouse_full_path self store_kind table path table_kind ymd false in
            let mkey :=
              _get_warehouse_full_path self store_kind table path table_kind ymd true in
            let m := meta_record self store_kind meta vkey table
                                 (now rt hp) (now rt (hp ++ [Now])%list) in
            if String.eqb store_kind "raw" || String.eqb store_kind "discovery"
            then write_pair rt store_kind vkey mkey v m (save_options path)
                            (hp ++ [Now; Now])%list
            else (Raise (ValueError ("invalid store_kind " ++ store_kind)),
                  (hp ++ [Now; Now])%list)
        end
    end.
Proof.
  unfold _save_worker.
  rewrite (bind_ok _ _ _ _ _ (partition_stage rt user_ymd use_ymd h)).
  destruct (_get_valid_user_path rt user_path (after_partition user_ymd use_ymd h))
    as [[path|e0] hp] eqn:Hp.
  2:{ now rewrite (bind_raise _ _ _ _ _ Hp). }
  rewrite (bind_ok _ _ _ _ _ Hp). unfold transcoded.
  unfold bind at 1.
  destruct (String.eqb (snd (OsPath.splitext path)) ".csv" && PyVal.is_list value).
  - unfold bind at 1, lift. destruct (_json_to_csv value) as [s|e]; [|reflexivity].
    unfold ret at 1. cbv beta iota zeta. unfold bind at 1. rewrite upgrade_meta_eq.
    unfold write_pair, save_options.
    destruct (String.eqb store_kind "raw"); [reflexivity|].
    destruct (String.eqb store_kind "discovery"); reflexivity.
  - unfold ret at 1. cbv beta iota zeta. unfold bind at 1. rewrite upgrade_meta_eq.
    unfold write_pair, save_options.
    destruct (String.eqb store_kind "raw"); [reflexivity|].
    destruct (String.eqb store_kind "discovery"); reflexivity.
Qed.

(** X6.  With a store kind other than [raw] and [discovery], [_save_worker]
    never returns and never reaches the storage handler; once the path is
    normalized and the value transcoded it raises the [ValueError] of
    [_upgrade_meta], so its own closing [else] (the "invalid store kind"
    error) is never the one raised. *)
Theorem save_refuses_unknown_store_kind (rt : Runtime) (self : DataWarehouse)
    (store_kind table_kind user_path : string) (value : pyval) (meta : dict pyval)
    (use_ymd : bool) (table_name0 user_ymd : string) (h : history) :
  let run :=
    _save_worker rt self store_kind table_kind user_path value meta use_ymd table_name0
                 user_ymd h in
  store_kind <> "raw" -> store_kind <> "discovery" ->
  storage_calls (snd run) = storage_calls h /\
  (forall r, fst run <> Ok r) /\
  fst run <> Raise (ValueError ("invalid store kind " ++ store_kind)) /\
  (forall (path : string) (hp : history) (v : pyval),
     _get_valid_user_path rt user_path (after_partition user_ymd use_ymd h) = (Ok path, hp) ->
     transcoded path value = Ok v ->
     run = (Raise (ValueError ("invalid store_kind " ++ store_kind)),
            (hp ++ [Now; Now])%list)).
Proof.
  cbn zeta. intros Hraw Hdisc. rewrite save_outcome.
  apply String.eqb_neq in Hraw, Hdisc. rewrite Hraw, Hdisc. cbn [orb].
  pose proof (valid_user_path_silent rt user_path (after_partition user_ymd use_ymd h)) as Hs.
  rewrite after_partition_silent in Hs.
  destruct (_get_valid_user_path rt user_path (after_partition user_ymd use_ymd h))
    as [[path|e0] hp] eqn:Hp; cbn [snd] in Hs.
  - destruct (transcoded path value) as [v|e] eqn:Hv; cbn [fst snd].
    + split; [|split; [|split]].
      * rewrite storage_calls_app, Hs. apply app_nil_r.
      * discriminate.
      * intros [=].
      * intros path' hp' v' [= <- <-] _. reflexivity.
    + split; [exact Hs|]. split; [discriminate|].
      split; [|intros path' hp' v' [= <- <-] Hv'; congruence].
      intros [= ->]. unfold transcoded in Hv.
      destruct (String.eqb (snd (OsPath.splitext path)) ".csv" && PyVal.is_list value)
        eqn:Hc; [|discriminate].
      apply andb_true_iff in Hc as [_ Hl]. destruct value; try discriminate.
      destruct (_json_to_csv (PList l)) as [s|e] eqn:Hj; [discriminate|].
      injection Hv as ->. apply json_to_csv_list_raises in Hj as [msg Hmsg]. discriminate.
  - cbn [fst snd]. split; [exact Hs|]. split; [discriminate|].
    split; [|intros path' hp' v' [=]].
    intros [= ->]. apply valid_user_path_raises in Hp as [Hp | Hp]; discriminate.
Qed.

Lemma save_refuses_unknown_store_kind_witness :
  let run := _save_worker quiet wh "bronze" "general" "a.json" (PStr "x") [] true "" "" [] in
  storage_calls (snd run) = storage_calls [] /\
  (forall r, fst run <> Ok r) /\
  fst run <> Raise (ValueError ("invalid store kind " ++ "bronze")) /\
  (forall (path : string) (hp : history) (v : pyval),
     _get_valid_user_path quiet "a.json" (after_partition "" true []) = (Ok path, hp) ->
     transcoded path (PStr "x") = Ok v ->
     run = (Raise (ValueError ("invalid store_kind " ++ "bronze")),
            (hp ++ [Now; Now])%list)).
Proof.
  apply (save_refuses_unknown_store_kind quiet wh "bronze" "general" "a.json" (PStr "x") []
           true "" "" []); discriminate.
Defined.

(** X7.  What a save returns is the storage handler's answer to the value
    write; the answer to the meta write is dropped. *)
Theorem save_returns_value_confirmation (rt : Runtime) (self : DataWarehouse)
    (store_kind table_kind user_path : string) (value : pyval) (meta : dict pyval)
    (use_ymd : bool) (table_name0 user_ymd : string) (h h' : history) (r : pyval) :
  _save_worker rt self store_kind table_kind user_path value meta use_ymd table_name0
               user_ymd h = (Ok r, h') ->
  exists (path : string) (v : pyval) (before after : history),
    let vkey :=
      _get_warehouse_full_path self store_kind (_get_table_name self table_name0) path
        table_kind (resolved_partition rt user_ymd use_ymd h) false in
    h' = (before ++ S3Save vkey v (save_options path) :: after)%list /\
    s3_save rt before vkey v (save_options path) = Ok r.
Proof.
  rewrite save_outcome. intros H.
  destruct (_get_valid_user_path rt user_path (after_partition user_ymd use_ymd h))
    as [[path|e0] hp]; [|discriminate].
  destruct (transcoded path value) as [v|e]; [|discriminate]. cbn zeta in H.
  destruct (String.eqb store_kind "raw" || String.eqb store_kind "discovery");
    [|discriminate].
  unfold write_pair in H. exists path, v. cbn zeta.
  destruct (String.eqb store_kind "raw"); unfold bind, es_save, call, ret in H.
  - destruct (s3_save rt (hp ++ [Now; Now])%list _ (PDict _) _) as [r1|e1];
      [|discriminate].
    match type of H with
    | context [s3_save rt ?h1 ?k v ?o] =>
        destruct (s3_save rt h1 k v o) as [r2|e2] eqn:E2; [|discriminate];
        exists h1, []
    end.
    injection H as <- <-. split; [reflexivity | exact E2].
  - match type of H with
    | context [s3_save rt ?h1 ?k v ?o] =>
        destruct (s3_save rt h1 k v o) as [r2|e2] eqn:E2; [|discriminate];
        exists h1
    end.
    destruct (s3_save rt _ _ (PDict _) _) as [r1|e1]; [|discriminate].
    injection H as <- <-. eexists. split; [|exact E2].
    rewrite <- app_assoc. reflexivity.
Qed.

Lemma save_returns_value_confirmation_witness :
  exists (path : string) (v : pyval) (before after : history),
    let vkey :=
      _get_warehouse_full_path wh "discovery" (_get_table_name wh "") path
        "general" (resolved_partition quiet "" true []) false in
    snd (_save_worker quiet wh "discovery" "general" "a.json" (PStr "x") [] true "" "" [])
      = (before ++ S3Save vkey v (save_options path) :: after)%list /\
    s3_save quiet before vkey v (save_options path)
      = Ok (PStr
              "s3://bucket/default/warehouse/discovery/general/value/events/2020-08-30/a.json.gz").
Proof.
  apply (save_returns_value_confirmation quiet wh "discovery" "general" "a.json" (PStr "x")
           [] true "" "" []).
  reflexivity.
Defined.

(** X8.  A save does not undo a write.  When it raises after reaching the
    storage handler, either the first write (meta for [raw], value for
    [discovery]) was refused and no second write was issued, or the first
    write was accepted, the second refused, and both calls stand; the error
    raised is the handler's, and no other storage call is made. *)
Theorem save_partial_failure (rt : Runtime) (self : DataWarehouse)
    (store_kind table_kind user_path : string) (value : pyval) (meta : dict pyval)
    (use_ymd : bool) (table_name0 user_ymd : string) (h h' : history) (e : exn) :
  _save_worker rt self store_kind table_kind user_path value meta use_ymd table_name0
               user_ymd h = (Raise e, h') ->
  storage_calls h' <> storage_calls h ->
  exists (path : string) (v : pyval) (m : dict pyval) (h0 : history),
    let ymd := resolved_partition rt user_ymd use_ymd h in
    let table := _get_table_name self table_name0 in
    let opts := save_options path in
    let value_write :=
      (_get_warehouse_full_path self store_kind table path table_kind ymd false, v) in
    let meta_write :=
      (_get_warehouse_full_path self store_kind table path table_kind ymd true, PDict m) in
    let first := if String.eqb store_kind "raw" then meta_write else value_write in
    let second := if String.eqb store_kind "raw" then value_write else meta_write in
    storage_calls h0 = storage_calls h /\
    ((s3_save rt h0 (fst first) (snd first) opts = Raise e /\
      h' = (h0 ++ [S3Save (fst first) (snd first) opts])%list)
     \/
     (exists r1,
        s3_save rt h0 (fst first) (snd first) opts = Ok r1 /\
        s3_save rt (h0 ++ [S3Save (fst first) (snd first) opts])%list
                (fst second) (snd second) opts = Raise e /\
        h' = (h0 ++ [S3Save (fst first) (snd first) opts;
                     S3Save (fst second) (snd second) opts])%list)).
Proof.
  rewrite save_outcome. intros H Hgrew.
  pose proof (valid_user_path_silent rt user_path (after_partition user_ymd use_ymd h)) as Hs.
  rewrite after_partition_silent in Hs.
  destruct (_get_valid_user_path rt user_path (after_partition user_ymd use_ymd h))
    as [[path|e0] hp]; cbn [snd] in Hs.
  2:{ injection H as _ <-. contradiction. }
  destruct (transcoded path value) as [v|e1].
  2:{ injection H as _ <-. contradiction. }
  cbn zeta in H.
  assert (Hs2 : storage_calls (hp ++ [Now; Now])%list = storage_calls h)
    by (rewrite storage_calls_app, Hs; apply app_nil_r).
  destruct (String.eqb store_kind "raw" || String.eqb store_kind "discovery").
  2:{ injection H as _ <-. contradiction. }
  exists path, v,
    (meta_record self store_kind meta
       (_get_warehouse_full_path self store_kind (_get_table_name self table_name0) path
          table_kind (resolved_partition rt user_ymd use_ymd h) false)
       (_get_table_name self table_name0) (now rt hp) (now rt (hp ++ [Now])%list)),
    (hp ++ [Now; Now])%list.
  cbn zeta. split; [exact Hs2|].
  unfold write_pair in H.
  destruct (String.eqb store_kind "raw"); cbn [fst snd];
    unfold bind, es_save, call, ret in H.
  - destruct (s3_save rt (hp ++ [Now; Now])%list _ (PDict _) _) as [r1|e1] eqn:E1.
    + match type of H with
      | context [s3_save rt ?h1 ?k v ?o] =>
          destruct (s3_save rt h1 k v o) as [r2|e2] eqn:E2; [discriminate|]
      end.
      injection H as <- <-. right. exists r1.
      split; [reflexivity | split; [reflexivity | now rewrite <- app_assoc]].
    + injection H as <- <-. left. split; reflexivity.
  - destruct (s3_save rt (hp ++ [Now; Now])%list _ v _) as [r1|e1] eqn:E1.
    + match type of H with
      | context [s3_save rt ?h1 ?k (PDict ?d) ?o] =>
          destruct (s3_save rt h1 k (PDict d) o) as [r2|e2] eqn:E2; [discriminate|]
      end.
      injection H as <- <-. right. exists r1.
      split; [reflexivity | split; [reflexivity | now rewrite <- app_assoc]].
    + injection H as <- <-. left. split; reflexivity.
Qed.

Lemma save_partial_failure_witness :
  exists (path : string) (v : pyval) (m : dict pyval) (h0 : history),
    let rt := one_write_only in
    let h' := snd (_save_worker rt wh "raw" "general" "a.json" (PStr "x") [] true "" "" []) in
    let e := BackendError "unavailable" in
    let ymd := resolved_partition rt "" true [] in
    let table := _get_table_name wh "" in
    let opts := save_options path in
    let value_write :=
      (_get_warehouse_full_path wh "raw" table path "general" ymd false, v) in
    let meta_write :=
      (_get_warehouse_full_path wh "raw" table path "general" ymd true, PDict m) in
    let first := if String.eqb "raw" "raw" then meta_write else value_write in
    let second := if String.eqb "raw" "raw" then value_write else meta_write in
    storage_calls h0 = storage_calls [] /\
    ((s3_save rt h0 (fst first) (snd first) opts = Raise e /\
      h' = (h0 ++ [S3Save (fst first) (snd first) opts])%list)
     \/
     (exists r1,
        s3_save rt h0 (fst first) (snd first) opts = Ok r1 /\
        s3_save rt (h0 ++ [S3Save (fst first) (snd first) opts])%list
                (fst second) (snd second) opts = Raise e /\
        h' = (h0 ++ [S3Save (fst first) (snd first) opts;
                     S3Save (fst second) (snd second) opts])%list)).
Proof.
  apply (save_partial_failure one_write_only wh "raw" "general" "a.json" (PStr "x") [] true
           "" "" []
           (snd (_save_worker one_write_only wh "raw" "general" "a.json" (PStr "x") [] true
                              "" "" []))
           (BackendError "unavailable")).
  - reflexivity.
  - vm_compute. discriminate.
Defined.

(** ** Saving, loading and listing agree on keys *)

Lemma named_path_kept (rt : Runtime) (user_path path : string) (h hp : history) :
  PyStr.startswith user_path "." = false ->
  _get_valid_user_path rt user_path h = (Ok path, hp) ->
  path = user_path /\ hp = h.
Proof.
  unfold _get_valid_user_path, PyStr.startswith. destruct user_path as [|c rest];
    [discriminate|].
  intros Hdot. destruct (Ascii.eqb_spec c PyStr.dot) as [-> | Hc].
  - exfalso. revert Hdot. unfold PyStr.dot. cbn. now destruct rest.
  - unfold ret. now intros [= <- <-].
Qed.

(** X9.  A value saved under a path that does not begin with a dot is found
    again: the save wrote it under the very key that [_load_worker] fetches
    for the same store kind, table kind, table name and path and the
    partition the save resolved, and its meta record under the key fetched
    with [is_meta] set. *)
Theorem load_fetches_saved_key (rt : Runtime) (self : DataWarehouse)
    (store_kind table_kind user_path : string) (value : pyval) (meta : dict pyval)
    (use_ymd : bool) (table_name0 user_ymd : string) (h h' h2 : history) (r : pyval) :
  PyStr.startswith user_path "." = false ->
  _save_worker rt self store_kind table_kind user_path value meta use_ymd table_name0
               user_ymd h = (Ok r, h') ->
  exists (vkey mkey : option string) (v : pyval) (m opts : dict pyval),
    let ymd := resolved_partition rt user_ymd use_ymd h in
    In (S3Save vkey v opts) h' /\
    In (S3Save mkey (PDict m) opts) h' /\
    _load_worker rt self store_kind table_name0 user_path table_kind ymd false h2
      = (s3_load rt h2 vkey, (h2 ++ [S3Load vkey])%list) /\
    _load_worker rt self store_kind table_name0 user_path table_kind ymd true h2
      = (s3_load rt h2 mkey, (h2 ++ [S3Load mkey])%list).
Proof.
  intros Hdot H. apply save_anatomy in H as (path & v & h0 & t1 & t2 & H).
  cbn zeta in H. destruct H as (_ & [hp Hp] & _ & _ & ->).
  apply (named_path_kept _ _ _ _ _ Hdot) in Hp as [-> _].
  do 2 eexists. exists v. do 2 eexists. cbn zeta. unfold _load_worker, call.
  repeat split.
  - apply in_or_app. right.
    destruct (String.eqb store_kind "raw"); [right; left | left]; reflexivity.
  - apply in_or_app. right.
    destruct (String.eqb store_kind "raw"); [left | right; left]; reflexivity.
Qed.

Lemma load_fetches_saved_key_witness :
  exists (vkey mkey : option string) (v : pyval) (m opts : dict pyval),
    let ymd := resolved_partition quiet "2020-01-31" true [] in
    let h' := snd (raw_save quiet wh "a.json" (PStr "x") [] true "" "general" "2020-01-31"
                            []) in
    In (S3Save vkey v opts) h' /\
    In (S3Save mkey (PDict m) opts) h' /\
    _load_worker quiet wh "raw" "" "a.json" "general" ymd false []
      = (s3_load quiet [] vkey, ([] ++ [S3Load vkey])%list) /\
    _load_worker quiet wh "raw" "" "a.json" "general" ymd true []
      = (s3_load quiet [] mkey, ([] ++ [S3Load mkey])%list).
Proof.
  apply (load_fetches_saved_key quiet wh "raw" "general" "a.json" (PStr "x") [] true ""
           "2020-01-31" []
           (snd (raw_save quiet wh "a.json" (PStr "x") [] true "" "general" "2020-01-31" []))
           []
           (PStr "s3://bucket/default/warehouse/raw/general/value/events/2020-01-31/a.json.gz"));
    reflexivity.
Defined.

Lemma prefix_common (a p s : string) : String.prefix (a ++ p) (a ++ s) = String.prefix p s.
Proof.
  induction a as [|x a IH]; [reflexivity|]. cbn [String.append].
  change (String.prefix (String x (a ++ p)) (String x (a ++ s)))
    with (if ascii_dec x x then String.prefix (a ++ p) (a ++ s) else false).
  destruct (ascii_dec x x) as [_|n]; [exact IH | now elim n].
Qed.

Lemma prefix_self_append (p s : string) : String.prefix p (p ++ s) = true.
Proof.
  rewrite <- (append_empty_r p) at 1. rewrite prefix_common. now destruct s.
Qed.

Ltac by_remainder rem :=
  match goal with
  | |- String.prefix ?p ?k = true =>
      replace k with (p ++ rem)
        by (simpl; repeat (rewrite append_assoc; simpl); reflexivity);
      apply prefix_self_append
  end.

(** X10.  Listing walks the value channel of the save layout.  With no
    [user_dir], the prefix listed for a partition is a prefix of the value
    key of every object saved in that partition; with no partition, the
    prefix listed for [user_dir] is a prefix of the value key of every
    unpartitioned object whose path begins with [user_dir]; with both, the
    prefix puts [user_dir] before the partition, so it matches the objects
    saved in partition [user_dir] under paths that begin with [ymd/]; and it
    is never a prefix of a meta key. *)
Theorem listing_prefix_matches_value_keys (self : DataWarehouse)
    (store_kind table_kind table_name0 user_dir ymd rest : string) :
  let listed := listing_prefix self store_kind table_kind table_name0 in
  let key := fun path partition is_meta =>
    fmt (_get_warehouse_full_path self store_kind table_name0 path table_kind partition
           is_meta) in
  store_kind = "raw" \/ store_kind = "discovery" ->
  String.prefix (listed "" ymd) (key rest ymd false) = true /\
  String.prefix (listed user_dir "") (key (user_dir ++ rest) "" false) = true /\
  String.prefix (listed user_dir ymd) (key (ymd ++ "/" ++ rest) user_dir false) = true /\
  (forall path partition,
     String.prefix (listed user_dir ymd) (key path partition true) = false).
Proof.
  cbn zeta. intros Hsk.
  assert (Hkey : forall path partition is_meta,
    fmt (_get_warehouse_full_path self store_kind table_name0 path table_kind partition
           is_meta)
    = store_kind ++ "/" ++ table_kind ++ "/" ++ (if is_meta then "meta" else "value") ++ "/"
        ++ _get_table_name self table_name0
        ++ (if String.eqb partition "" then "" else "/" ++ partition)
        ++ "/" ++ path ++ compression_suffix path).
  { intros path partition is_meta. unfold _get_warehouse_full_path, compression_suffix.
    destruct Hsk as [-> | ->]; reflexivity. }
  assert (Hpre : forall ud y,
    listing_prefix self store_kind table_kind table_name0 ud y
    = store_kind ++ "/" ++ table_kind ++ "/" ++ "value" ++ "/"
        ++ _get_table_name self table_name0
        ++ (if negb (String.eqb ud "") then "/" ++ ud else "")
        ++ (if negb (String.eqb y "") then "/" ++ y else "")) by reflexivity.
  cbv beta. rewrite !Hkey, !Hpre.
  change (String.eqb "" "") with true. cbn [negb].
  split; [|split; [|split]].
  - destruct (String.eqb ymd ""); cbn [negb];
      by_remainder ("/" ++ rest ++ compression_suffix rest).
  - destruct (String.eqb_spec user_dir "") as [-> | _]; cbn [negb].
    + by_remainder ("/" ++ rest ++ compression_suffix rest).
    + by_remainder (rest ++ compression_suffix (user_dir ++ rest)).
  - destruct (String.eqb_spec user_dir "") as [-> | _];
      destruct (String.eqb_spec ymd "") as [-> | _]; cbn [negb];
      by_remainder ("/" ++ rest ++ compression_suffix (ymd ++ "/" ++ rest))
      || by_remainder ("//" ++ rest ++ compression_suffix ("/" ++ rest)).
  - intros path partition. rewrite Hkey, !prefix_common. reflexivity.
Qed.

Lemma listing_prefix_matches_value_keys_witness :
  let listed := listing_prefix wh "raw" "general" "" in
  let key := fun path partition is_meta =>
    fmt (_get_warehouse_full_path wh "raw" "" path "general" partition is_meta) in
  String.prefix (listed "" "2020-08-30") (key "a.json" "2020-08-30" false) = true /\
  String.prefix (listed "logs" "") (key ("logs" ++ "a.json") "" false) = true /\
  String.prefix (listed "logs" "2020-08-30")
                (key ("2020-08-30" ++ "/" ++ "a.json") "logs" false) = true /\
  (forall path partition,
     String.prefix (listed "logs" "2020-08-30") (key path partition true) = false).
Proof.
  apply (listing_prefix_matches_value_keys wh "raw" "general" "" "logs" "2020-08-30"
           "a.json").
  left; reflexivity.
Defined.

(** ** More on the path codec *)

Lemma valid_full_path_prefix (self : DataWarehouse) (full_path : string) :
  _valid_full_path self full_path = Ok tt
  <-> exists rest, full_path = stored_key self rest.
Proof.
  unfold _valid_full_path, PyStr.startswith, stored_key.
  set (p := "default/" ++ warehouse_name self ++ "/").
  assert (Hp : forall rest, "default/" ++ warehouse_name self ++ "/" ++ rest = p ++ rest).
  { intros rest. unfold p. simpl. repeat (rewrite append_assoc; simpl). reflexivity. }
  split.
  - destruct (String.prefix p full_path) eqn:E; [intros _ | discriminate].
    apply String.prefix_correct in E.
    exists (String.substring (String.length p) (String.length full_path - String.length p)
              full_path).
    rewrite Hp. rewrite <- E at 1. symmetry. apply substring_cut.
  - intros [rest ->]. now rewrite Hp, prefix_self_append.
Qed.

(** X11.  [_valid_full_path] accepts exactly the keys that consist of
    [default/{warehouse_name}/] followed by anything, and raises a
    [ValueError] naming the path for every other key. *)
Theorem valid_full_path_iff (self : DataWarehouse) (full_path : string) :
  (_valid_full_path self full_path = Ok tt
   <-> exists rest, full_path = stored_key self rest) /\
  (_valid_full_path self full_path = Ok tt
   \/ _valid_full_path self full_path = Raise (ValueError ("invalid full_path " ++ full_path))).
Proof.
  split; [apply valid_full_path_prefix|].
  unfold _valid_full_path. destruct (PyStr.startswith _ _); [now left | now right].
Qed.

Lemma substring_past_end (s : string) (n : nat) :
  String.length s <= n -> String.substring 0 n s = s.
Proof.
  revert n; induction s as [|c s IH]; intros [|n] Hn; cbn in *; try reflexivity; try lia.
  rewrite IH by lia. reflexivity.
Qed.

Lemma drop_last_append_last (n : nat) (s : string) :
  PyStr.drop_last_n n s ++ PyStr.last_n n s = s.
Proof.
  unfold PyStr.drop_last_n, PyStr.last_n.
  destruct (Nat.le_gt_cases n (String.length s)) as [Hle | Hgt].
  - assert (E : String.substring (String.length s - n) n s
                = String.substring (String.length s - n)
                    (String.length s - (String.length s - n)) s) by (f_equal; lia).
    rewrite E. apply substring_cut.
  - replace (String.length s - n) with 0 by lia. cbn [String.substring].
    rewrite (substring_past_end s n) by lia. now destruct s.
Qed.

Lemma split_segments_slash_free (s : string) :
  Forall slash_free (PyStr.split PyStr.slash s).
Proof.
  induction s as [|c s IH]; cbn [PyStr.split]; [repeat constructor|].
  destruct (Ascii.eqb c PyStr.slash) eqn:E; [constructor; [reflexivity | exact IH]|].
  pose proof (split_nonempty PyStr.slash s) as Hne.
  destruct (PyStr.split PyStr.slash s) as [|x t]; [contradiction|].
  inversion IH as [|? ? Hx Ht]; subst. constructor; [|exact Ht].
  unfold slash_free in *. cbn [PyVal.has_char]. now rewrite E, Hx.
Qed.

(** X12.  A key that [_parse_full_path] accepts is given back whole: the
    parsed path followed by [.gz] when the flag is set is the key that was
    parsed.  The parsed path lies under [default/{warehouse_name}/], which can
    only happen for a warehouse name without a slash, and it has at least
    seven segments. *)
Theorem parse_keeps_the_key (self : DataWarehouse) (full_path : string) (p : parsed_path) :
  _parse_full_path self full_path = Ok p ->
  ns_full_path p ++ (if ns_gz p then ".gz" else "") = full_path /\
  (exists rest, ns_full_path p = stored_key self rest) /\
  slash_free (warehouse_name self) /\
  7 <= List.length (PyStr.split PyStr.slash (ns_full_path p)).
Proof.
  unfold _parse_full_path.
  set (is_gz := String.eqb (PyStr.last_n 3 full_path) ".gz").
  set (stripped := if is_gz then PyStr.drop_last_n 3 full_path else full_path).
  assert (Hwhole : stripped ++ (if is_gz then ".gz" else "") = full_path).
  { unfold stripped, is_gz. destruct (String.eqb_spec (PyStr.last_n 3 full_path) ".gz") as [E|_].
    - rewrite <- E. apply drop_last_append_last.
    - apply append_empty_r. }
  clearbody stripped is_gz.
  destruct (_valid_full_path self stripped) as [[]|e] eqn:Hvalid; [|discriminate].
  cbn [rbind]. pose proof (split_segments_slash_free stripped) as Hfree.
  destruct (PyStr.split PyStr.slash stripped)
    as [|s0 [|s1 [|s2 [|s3 [|s4 [|s5 [|s6 rest]]]]]]] eqn:Hsplit;
    cbn [PyStr.item nth_error rbind];
    try discriminate;
    try (destruct (String.eqb s0 "default"); cbn [py_assert rbind]; try discriminate;
         destruct (String.eqb s1 (warehouse_name self)); cbn [py_assert rbind];
         discriminate).
  destruct (String.eqb s0 "default"); cbn [py_assert rbind]; [|discriminate].
  destruct (String.eqb_spec s1 (warehouse_name self)) as [Hw|]; cbn [py_assert rbind];
    [|discriminate].
  intros [= <-]. cbn [ns_full_path ns_gz]. repeat split.
  - exact Hwhole.
  - now apply (proj1 (valid_full_path_prefix self stripped)).
  - rewrite <- Hw. inversion Hfree as [|? ? _ H1]; subst. now inversion H1.
  - rewrite Hsplit. cbn [List.length]. lia.
Qed.

Lemma parse_keeps_the_key_witness :
  let p := {| ns_full_path := "default/warehouse/raw/general/value/events/2020-08-30/a.json";
              ns_ext := ".json"; ns_store_kind := "general"; ns_meta_or_value := "value";
              ns_table_name := "events"; ns_gz := true; ns_ymd := "2020-08-30" |} in
  ns_full_path p ++ (if ns_gz p then ".gz" else "")
    = "default/warehouse/raw/general/value/events/2020-08-30/a.json.gz" /\
  (exists rest, ns_full_path p = stored_key wh rest) /\
  slash_free (warehouse_name wh) /\
  7 <= List.length (PyStr.split PyStr.slash (ns_full_path p)).
Proof.
  apply (parse_keeps_the_key wh
           "default/warehouse/raw/general/value/events/2020-08-30/a.json.gz").
  vm_compute. reflexivity.
Defined.

Lemma join_cons_any (a : string) (l : list string) :
  l <> [] -> PyStr.join "/" (a :: l) = a ++ String PyStr.slash (PyStr.join "/" l).
Proof.
  destruct l; [contradiction | reflexivity].
Qed.

Lemma split_join (l : list string) :
  l <> [] -> Forall slash_free l -> PyStr.split PyStr.slash (PyStr.join "/" l) = l.
Proof.
  induction l as [|a l IH]; [contradiction|]. intros _ Hfree.
  inversion Hfree as [|? ? Ha Hl]; subst. destruct l as [|b l].
  - now apply split_slash_free.
  - rewrite join_cons_any by discriminate. rewrite split_segment by assumption.
    now rewrite IH.
Qed.

Lemma set_item_spec {A : Type} (P : A -> Prop) (l : list A) :
  forall (i : nat) (v : A) (l' : list A),
    PyStr.set_item l i v = Ok l' ->
    PyStr.set_item l' i v = Ok l' /\
    nth_error l' i = Some v /\
    List.length l' = List.length l /\
    (Forall P l -> P v -> Forall P l').
Proof.
  induction l as [|a l IH]; intros i v l' H; cbn [PyStr.set_item] in H; [discriminate|].
  destruct i as [|i].
  - injection H as <-. repeat split. intros Hl Hv. inversion Hl; subst. now constructor.
  - destruct (PyStr.set_item l i v) as [t|e] eqn:E; [|discriminate]. injection H as <-.
    destruct (IH i v t E) as (Hidem & Hnth & Hlen & Hall).
    cbn [PyStr.set_item nth_error List.length]. rewrite Hidem, Hlen. repeat split.
    + exact Hnth.
    + intros Hl Hv. inversion Hl; subst. constructor; auto.
Qed.

Lemma set_item_others {A : Type} (l : list A) :
  forall (i : nat) (v : A) (l' : list A),
    PyStr.set_item l i v = Ok l' ->
    forall j, j <> i -> nth_error l' j = nth_error l j.
Proof.
  induction l as [|a l IH]; intros i v l' H j Hj; cbn [PyStr.set_item] in H; [discriminate|].
  destruct i as [|i].
  - injection H as <-. destruct j as [|j]; [contradiction | reflexivity].
  - destruct (PyStr.set_item l i v) as [t|e] eqn:E; [|discriminate]. injection H as <-.
    destruct j as [|j]; [reflexivity|]. cbn [nth_error]. apply (IH i v t E). lia.
Qed.

(** X13.  Deriving the meta key is idempotent and touches one segment: the
    result has as many segments as the key, its fifth segment is ["meta"],
    every other segment is the segment of the key at the same position, and
    deriving again from the result gives the result. *)
Theorem meta_path_idempotent (full_path meta_path : string) :
  _get_meta_path_with_full_path full_path = Ok meta_path ->
  _get_meta_path_with_full_path meta_path = Ok meta_path /\
  nth_error (PyStr.split PyStr.slash meta_path) 4 = Some "meta" /\
  List.length (PyStr.split PyStr.slash meta_path)
    = List.length (PyStr.split PyStr.slash full_path) /\
  (forall i, i <> 4 ->
     nth_error (PyStr.split PyStr.slash meta_path) i
     = nth_error (PyStr.split PyStr.slash full_path) i).
Proof.
  unfold _get_meta_path_with_full_path.
  destruct (PyStr.set_item (PyStr.split PyStr.slash full_path) 4 "meta") as [l|e] eqn:E;
    cbn [rbind]; [|discriminate].
  intros [= <-].
  destruct (set_item_spec slash_free _ _ _ _ E) as (Hidem & Hnth & Hlen & Hall).
  assert (Hsplit : PyStr.split PyStr.slash (PyStr.join "/" l) = l).
  { apply split_join.
    - intros ->. discriminate.
    - apply Hall; [apply split_segments_slash_free | reflexivity]. }
  rewrite Hsplit, Hidem. cbn [rbind].
  split; [reflexivity|]. split; [exact Hnth|]. split; [exact Hlen|].
  intros i Hi. exact (set_item_others _ _ _ _ E i Hi).
Qed.

Lemma meta_path_idempotent_witness :
  _get_meta_path_with_full_path "default/warehouse/raw/general/meta/events/a.json.gz"
    = Ok "default/warehouse/raw/general/meta/events/a.json.gz" /\
  nth_error (PyStr.split PyStr.slash "default/warehouse/raw/general/meta/events/a.json.gz") 4
    = Some "meta" /\
  List.length (PyStr.split PyStr.slash "default/warehouse/raw/general/meta/events/a.json.gz")
    = List.length
        (PyStr.split PyStr.slash "default/warehouse/raw/general/value/events/a.json.gz") /\
  (forall i, i <> 4 ->
     nth_error (PyStr.split PyStr.slash "default/warehouse/raw/general/meta/events/a.json.gz") i
     = nth_error
         (PyStr.split PyStr.slash "default/warehouse/raw/general/value/events/a.json.gz") i).
Proof.
  apply (meta_path_idempotent "default/warehouse/raw/general/value/events/a.json.gz").
  reflexivity.
Defined.

(** ** More on anonymous paths *)

(** X14.  With a random source that stays below its scale,
    [_get_random_string(n)] draws [n] times and returns [n] characters, each
    one of the 62 letters and digits of [random_box]. *)
Theorem random_string_shape (rt : Runtime) (n : nat) (h : history) :
  random_in_range rt ->
  exists s,
    _get_random_string rt n h = (Ok s, (h ++ repeat (Random 62) n)%list) /\
    String.length s = n /\
    drawn_from random_box s.
Proof.
  intros Hrt. destruct (random_string_from rt n Hrt "" h) as (s & Hs & Hlen & Hbox).
  exists s. now repeat split.
Qed.

Lemma random_string_shape_witness :
  exists s,
    _get_random_string quiet 10 [] = (Ok s, ([] ++ repeat (Random 62) 10)%list) /\
    String.length s = 10 /\
    drawn_from random_box s.
Proof.
  apply (random_string_shape quiet 10 []). exact quiet_random_in_range.
Defined.

Lemma uint_digits (d : Decimal.uint) :
  PyVal.has_char "_"%char (NilEmpty.string_of_uint d) = false.
Proof.
  induction d; cbn; auto.
Qed.

Lemma of_int_digits (n : Z) : PyVal.has_char "_"%char (PyStr.of_int n) = false.
Proof.
  unfold PyStr.of_int, NilZero.string_of_int, NilZero.string_of_uint.
  destruct (Z.to_int n) as [d|d]; destruct d; cbn [PyVal.has_char]; try reflexivity;
    apply uint_digits || (cbn; apply uint_digits).
Qed.

Lemma of_int_inj (a b : Z) : PyStr.of_int a = PyStr.of_int b -> a = b.
Proof.
  unfold PyStr.of_int. intros H.
  assert (Hnorm : forall z, Z.to_int z <> Decimal.Pos Decimal.Nil
                            /\ Z.to_int z <> Decimal.Neg Decimal.Nil).
  { intros z. pose proof (DecimalZ.to_of (Z.to_int z)) as Hz.
    rewrite DecimalZ.of_to in Hz. split; intros E; rewrite E in Hz; discriminate. }
  apply (f_equal NilZero.int_of_string) in H.
  rewrite !NilZero.isi in H by apply Hnorm.
  injection H as H. now apply DecimalZ.to_int_inj.
Qed.

Lemma before_underscore (a b x y : string) :
  PyVal.has_char "_"%char a = false -> PyVal.has_char "_"%char b = false ->
  a ++ String "_" x = b ++ String "_" y -> a = b.
Proof.
  revert b; induction a as [|c a IH]; intros [|c' b] Ha Hb H; cbn in *.
  - reflexivity.
  - injection H as <- _. discriminate.
  - injection H as -> _. discriminate.
  - injection H as <- H. apply orb_false_iff in Ha as [_ Ha], Hb as [_ Hb].
    f_equal. now apply IH.
Qed.

Lemma anonymous_shape (rt : Runtime) (rest path : string) (h h' : history) :
  _get_valid_user_path rt (String "." rest) h = (Ok path, h') ->
  exists r, path = PyStr.of_int (time_ns rt h) ++ "_" ++ r ++ String "." rest.
Proof.
  unfold _get_valid_user_path. change (Ascii.eqb "." PyStr.dot) with true. cbn iota.
  destruct (String.length (String "." rest) =? 1)%nat; [discriminate|].
  unfold bind, call, ret.
  destruct (_get_random_string rt 5 (h ++ [TimeNs])%list) as [[r|e] h1]; [|discriminate].
  intros [= <- _]. exists r. cbn [String.append]. now rewrite append_assoc.
Qed.

(** X15.  Two anonymous paths never coincide when the clock readings behind
    them differ: whatever the random draws and whatever the two dotted
    suffixes, the normalized paths are different. *)
Theorem anonymous_paths_differ (rt : Runtime) (rest1 rest2 path1 path2 : string)
    (h1 h2 h1' h2' : history) :
  _get_valid_user_path rt (String "." rest1) h1 = (Ok path1, h1') ->
  _get_valid_user_path rt (String "." rest2) h2 = (Ok path2, h2') ->
  time_ns rt h1 <> time_ns rt h2 ->
  path1 <> path2.
Proof.
  intros H1 H2 Hclock Heq.
  apply anonymous_shape in H1 as [r1 ->]. apply anonymous_shape in H2 as [r2 ->].
  apply Hclock, of_int_inj.
  cbn [String.append] in Heq.
  exact (before_underscore _ _ _ _ (of_int_digits _) (of_int_digits _) Heq).
Qed.

Lemma anonymous_paths_differ_witness :
  "1598774400000000000_hovCJ.json" <> "1598774400000000001_ovCJQ.json".
Proof.
  apply (anonymous_paths_differ ticking "json" "json"
           "1598774400000000000_hovCJ.json" "1598774400000000001_ovCJQ.json"
           [] [Now]
           [TimeNs; Random 62; Random 62; Random 62; Random 62; Random 62]
           [Now; TimeNs; Random 62; Random 62; Random 62; Random 62; Random 62]).
  - vm_compute. reflexivity.
  - vm_compute. reflexivity.
  - vm_compute. discriminate.
Defined.

(** ** More on CSV transcoding *)

Lemma rmap_values_dicts (ds : list (dict pyval)) :
  rmap PyVal.values (map PDict ds) = Ok (map Dict.values ds).
Proof.
  induction ds as [|d ds IH]; [reflexivity|]. cbn [map rmap PyVal.values]. now rewrite IH.
Qed.

Lemma concat_lines (x : string) (l : list string) :
  String.concat "" (x :: l) = x ++ String.concat "" l.
Proof.
  destruct l; cbn [String.concat]; [now rewrite append_empty_r | reflexivity].
Qed.

(** X16.  A list of records always transcodes: the empty list to the empty
    text, and a non-empty list to one header line with the keys of the first
    record followed by one line per record with that record's own values, in
    its own order; the later records' keys are never looked at. *)
Theorem json_to_csv_of_records (d : dict pyval) (ds : list (dict pyval)) :
  _json_to_csv (PList []) = Ok "" /\
  _json_to_csv (PList (map PDict (d :: ds)))
  = Ok (Csv.writerow (map PStr (Dict.keys d))
          ++ String.concat "" (map (fun r => Csv.writerow (Dict.values r)) (d :: ds))).
Proof.
  split; [reflexivity|].
  unfold _json_to_csv. cbn [map PyVal.keys rbind].
  change (PDict d :: map PDict ds) with (map PDict (d :: ds)).
  rewrite rmap_values_dicts. cbn [rbind]. unfold Csv.writerows.
  rewrite map_cons, concat_lines, map_map. reflexivity.
Qed.

Example csv_ignores_later_keys :
  _json_to_csv (PList [PDict [("a", PInt 1); ("b", PInt 2)];
                       PDict [("b", PInt 3); ("c", PStr "x,y"); ("d", PNone)]])
  = Ok ("a,b" ++ Csv.lineterminator ++ "1,2" ++ Csv.lineterminator
              ++ "3," ++ Csv.quoted "x,y" ++ "," ++ Csv.lineterminator).
Proof.
  reflexivity.
Qed.

(** ** More on the query runner *)

Lemma load_after_success (rt : Runtime) (self : DataWarehouse)
    (query format_type query_id : string) (request_limit : Z) (h : history) (n fuel : nat) :
  athena_start_query_execution rt h query
    ("s3://" ++ bucket_name self ++ "/trash/athena_result") = Ok query_id ->
  reports_at rt (submitted self query h) query_id n "SUCCEEDED" ->
  n < fuel ->
  load_with_athena_query rt self fuel query format_type request_limit h
  = Some (fetch_pages rt (Z.to_nat request_limit) 0
            (if String.eqb format_type "auto" then get_format_type query else format_type)
            query_id [] [] [] (polled (submitted self query h) query_id (S n))).
Proof.
  intros Hstart Hrep Hlt. unfold load_with_athena_query, call. rewrite Hstart.
  fold (submitted self query h).
  now rewrite (poll_succeeded rt query query_id n fuel _ Hrep Hlt).
Qed.

(** X17.  In raw mode one page is requested, without a token, and returned
    as it came, whether or not it carries a continuation token. *)
Theorem raw_mode_single_page (rt : Runtime) (self : DataWarehouse)
    (query query_id : string) (request_limit : Z) (h : history) (n fuel : nat) :
  let ready := polled (submitted self query h) query_id (S n) in
  athena_start_query_execution rt h query
    ("s3://" ++ bucket_name self ++ "/trash/athena_result") = Ok query_id ->
  reports_at rt (submitted self query h) query_id n "SUCCEEDED" ->
  n < fuel ->
  (1 <= request_limit)%Z ->
  load_with_athena_query rt self fuel query "raw" request_limit h
  = Some (match athena_get_query_results rt ready query_id None with
          | Ok page => Ok [RawPage page]
          | Raise e => Raise e
          end, (ready ++ [AthenaResults query_id None])%list).
Proof.
  cbn zeta. intros Hstart Hrep Hlt Hlimit.
  rewrite (load_after_success rt self query "raw" query_id request_limit h n fuel)
    by assumption.
  destruct (Z.to_nat request_limit) as [|limit] eqn:Hl; [lia|].
  cbn [fetch_pages List.length Nat.ltb Nat.leb]. unfold bind, call, ret.
  change (String.eqb "raw" "auto") with false. cbn iota.
  destruct (athena_get_query_results rt _ query_id None); reflexivity.
Qed.

Lemma raw_mode_single_page_witness :
  let rt := scripted ["SUCCEEDED"] looping_pages [] in
  let ready := polled (submitted wh "SHOW TABLES" []) "query-1" 1 in
  load_with_athena_query rt wh 3 "SHOW TABLES" "raw" 10000 []
  = Some (match athena_get_query_results rt ready "query-1" None with
          | Ok page => Ok [RawPage page]
          | Raise e => Raise e
          end, (ready ++ [AthenaResults "query-1" None])%list).
Proof.
  apply (raw_mode_single_page (scripted ["SUCCEEDED"] looping_pages []) wh "SHOW TABLES"
           "query-1" 10000 [] 0 3).
  - reflexivity.
  - split; [intros k Hk; lia | reflexivity].
  - lia.
  - lia.
Defined.

Lemma fetch_unknown_format (rt : Runtime) (format_type query_id : string) (limit : nat) :
  String.eqb format_type "raw" = false ->
  String.eqb format_type "select" = false ->
  forall (index : nat) (header : row) (result0 : list query_item) (h : history),
    (forall k, k < limit ->
       exists page,
         athena_get_query_results rt (h ++ repeat (AthenaResults query_id None) k)%list
           query_id None = Ok page) ->
    fetch_pages rt limit index format_type query_id [] header result0 h
    = (Ok result0, (h ++ repeat (AthenaResults query_id None) limit)%list).
Proof.
  intros Hraw Hselect. induction limit as [|limit IH]; intros index header result0 h Hserved.
  - cbn [fetch_pages repeat]. unfold ret. now rewrite app_nil_r.
  - cbn [fetch_pages List.length Nat.ltb Nat.leb repeat]. unfold bind at 1, call at 1.
    destruct (Hserved 0) as [page Hpage]; [lia|].
    cbn [repeat] in Hpage. rewrite app_nil_r in Hpage. rewrite Hpage, Hraw, Hselect.
    rewrite IH.
    + now rewrite <- app_assoc.
    + intros k Hk. destruct (Hserved (S k)) as [page' Hpage']; [lia|].
      exists page'. cbn [repeat] in Hpage'. now rewrite <- app_assoc.
Qed.

(** X18.  Two edges of the page loop.  With a [request_limit] of zero or
    less no page is requested and the result is empty, whatever the mode.
    With a format type that is neither ["auto"], ["raw"] nor ["select"], the
    loop never stops early: it requests [request_limit] pages, all without a
    token, keeps none of them and returns the empty result. *)
Theorem page_loop_edges (rt : Runtime) (self : DataWarehouse)
    (query format_type query_id : string) (request_limit : Z) (h : history) (n fuel : nat) :
  let ready := polled (submitted self query h) query_id (S n) in
  athena_start_query_execution rt h query
    ("s3://" ++ bucket_name self ++ "/trash/athena_result") = Ok query_id ->
  reports_at rt (submitted self query h) query_id n "SUCCEEDED" ->
  n < fuel ->
  ((request_limit <= 0)%Z ->
   load_with_athena_query rt self fuel query format_type request_limit h
   = Some (Ok [], ready)) /\
  (format_type <> "auto" -> format_type <> "raw" -> format_type <> "select" ->
   (forall k, k < Z.to_nat request_limit ->
      exists page,
        athena_get_query_results rt (ready ++ repeat (AthenaResults query_id None) k)%list
          query_id None = Ok page) ->
   load_with_athena_query rt self fuel query format_type request_limit h
   = Some (Ok [],
           (ready ++ repeat (AthenaResults query_id None) (Z.to_nat request_limit))%list)).
Proof.
  cbn zeta. intros Hstart Hrep Hlt.
  rewrite (load_after_success rt self query format_type query_id request_limit h n fuel)
    by assumption.
  split.
  - intros Hlimit. replace (Z.to_nat request_limit) with 0 by lia. reflexivity.
  - intros Hauto Hraw Hselect Hserved.
    apply String.eqb_neq in Hauto, Hraw, Hselect. rewrite Hauto.
    now rewrite fetch_unknown_format.
Qed.

Lemma page_loop_edges_witness :
  let rt := scripted ["SUCCEEDED"] looping_pages [] in
  let ready := polled (submitted wh "SELECT 1" []) "query-1" 1 in
  load_with_athena_query rt wh 3 "SELECT 1" "json" 4 []
  = Some (Ok [], (ready ++ repeat (AthenaResults "query-1" None) (Z.to_nat 4))%list).
Proof.
  cbn zeta.
  assert (Hrep : reports_at (scripted ["SUCCEEDED"] looping_pages [])
                   (submitted wh "SELECT 1" []) "query-1" 0 "SUCCEEDED")
    by (split; [intros k Hk; lia | reflexivity]).
  assert (Hlt : 0 < 3) by lia.
  apply (proj2 (page_loop_edges (scripted ["SUCCEEDED"] looping_pages []) wh "SELECT 1"
                  "json" "query-1" 4 [] 0 3 eq_refl Hrep Hlt));
    try discriminate.
  intros k _. eexists. reflexivity.
Defined.

Lemma rmap_app {A B : Type} (f : A -> result B) (a b : list A) :
  rmap f (a ++ b)
  = match rmap f a with
    | Ok x => match rmap f b with
              | Ok y => Ok (x ++ y)%list
              | Raise e => Raise e
              end
    | Raise e => Raise e
    end.
Proof.
  induction a as [|x a IH]; cbn [app rmap].
  - now destruct (rmap f b).
  - destruct (f x); [|reflexivity]. rewrite IH.
    destruct (rmap f a); [|reflexivity]. now destruct (rmap f b).
Qed.

Lemma parse_app (header : row) (a b : list row) (r : list (dict string)) :
  parse header (a ++ b) = Ok r ->
  exists r1 r2, parse header a = Ok r1 /\ parse header b = Ok r2 /\ r = (r1 ++ r2)%list.
Proof.
  unfold parse, rbind. destruct (get_var_char_values header) as [hd|e]; [|discriminate].
  rewrite rmap_app.
  destruct (rmap _ a) as [r1|e1]; [|discriminate].
  destruct (rmap _ b) as [r2|e2]; [|discriminate].
  intros [= <-]. now exists r1, r2.
Qed.

Lemma request_token_snoc (next_tokens : list string) (t : string) :
  request_token (next_tokens ++ [t]) = Some t.
Proof.
  unfold request_token. rewrite length_app, last_last. cbn [List.length].
  replace (List.length next_tokens + 1) with (S (List.length next_tokens)) by lia.
  reflexivity.
Qed.

Lemma seen_token (t : string) (next_tokens : list string) :
  existsb (String.eqb t) next_tokens = true <-> In t next_tokens.
Proof.
  rewrite existsb_exists. split.
  - intros (x & Hx & Heq). apply String.eqb_eq in Heq. now subst.
  - intros Hin. exists t. split; [assumption | apply String.eqb_refl].
Qed.

Lemma fetch_rest (rt : Runtime) (query_id : string) (header : row)
    (pages : list raw_result) :
  forall (n index : nat) (next_tokens : list string) (result0 : list query_item)
         (h : history) (r : list (dict string)),
    index <> 0 ->
    List.length pages <= n ->
    served rt query_id (request_token next_tokens) pages h ->
    ends_at_last next_tokens pages ->
    parse header (flat_map Rows pages) = Ok r ->
    fetch_pages rt n index "select" query_id next_tokens header result0 h
    = (Ok (result0 ++ map ParsedRow r)%list,
       (h ++ requests query_id (request_token next_tokens) pages)%list).
Proof.
  induction pages as [|p rest IH];
    intros n index next_tokens result0 h r Hindex Hlen Hserved Hends Hparse;
    [contradiction|].
  destruct n as [|n]; [cbn in Hlen; lia|].
  cbn [served] in Hserved. destruct Hserved as [Hp Hserved].
  cbn [flat_map] in Hparse. apply parse_app in Hparse as (r1 & r2 & Hr1 & Hr2 & ->).
  cbn [fetch_pages]. fold (request_token next_tokens).
  unfold bind at 1, call at 1. rewrite Hp.
  change (String.eqb "select" "raw") with false.
  change (String.eqb "select" "select") with true. cbn iota.
  apply Nat.eqb_neq in Hindex. rewrite Hindex.
  unfold bind at 1, ret at 1. cbn [fst snd].
  unfold bind at 1, lift at 1. rewrite Hr1.
  cbn [requests]. cbn [ends_at_last] in Hends.
  destruct rest as [|p' rest'].
  - cbn [flat_map] in Hr2.
    assert (r2 = []) as ->.
    { unfold parse, rbind in Hr2.
      destruct (get_var_char_values header); [now injection Hr2 | discriminate]. }
    rewrite app_nil_r. cbn [requests].
    destruct (NextToken p) as [t|]; [|reflexivity].
    apply seen_token in Hends. rewrite Hends. reflexivity.
  - destruct (NextToken p) as [t|]; [|contradiction].
    destruct Hends as [Hfresh Hends].
    assert (Hnew : existsb (String.eqb t) next_tokens = false).
    { destruct (existsb (String.eqb t) next_tokens) eqn:E; [|reflexivity].
      apply seen_token in E. contradiction. }
    rewrite Hnew.
    rewrite (IH n (S index) (next_tokens ++ [t])%list _ _ r2); try assumption.
    + rewrite request_token_snoc, map_app, <- !app_assoc. reflexivity.
    + discriminate.
    + cbn [List.length] in *. lia.
    + now rewrite request_token_snoc.
Qed.

(** X19.  Row-parsing pagination consumes the result completely and in
    order.  When the service serves a sequence of pages, each request carrying
    the token of the page before, every page but the last carrying a token not
    met before and the last carrying none (or a repeated one), and the page
    ceiling allows that many pages, the call requests exactly those pages and
    returns every row after the header of the first page, zipped against
    that header. *)
Theorem pagination_drains_all_pages (rt : Runtime) (self : DataWarehouse)
    (query query_id : string) (request_limit : Z) (h : history) (n fuel : nat)
    (first : raw_result) (rest : list raw_result) (header : row) (rows0 : list row)
    (r : list (dict string)) :
  let ready := polled (submitted self query h) query_id (S n) in
  athena_start_query_execution rt h query
    ("s3://" ++ bucket_name self ++ "/trash/athena_result") = Ok query_id ->
  reports_at rt (submitted self query h) query_id n "SUCCEEDED" ->
  n < fuel ->
  served rt query_id None (first :: rest) ready ->
  ends_at_last [] (first :: rest) ->
  (Z.of_nat (List.length (first :: rest)) <= request_limit)%Z ->
  Rows first = header :: rows0 ->
  parse header (rows0 ++ flat_map Rows rest) = Ok r ->
  load_with_athena_query rt self fuel query "select" request_limit h
  = Some (Ok (map ParsedRow r), (ready ++ requests query_id None (first :: rest))%list).
Proof.
  cbn zeta. intros Hstart Hrep Hlt Hserved Hends Hlimit Hrows Hparse.
  rewrite (load_after_success rt self query "select" query_id request_limit h n fuel)
    by assumption.
  change (String.eqb "select" "auto") with false. cbn iota. f_equal.
  destruct (Z.to_nat request_limit) as [|limit] eqn:Hl; [cbn [List.length] in Hlimit; lia|].
  cbn [served] in Hserved. destruct Hserved as [Hp Hserved].
  apply parse_app in Hparse as (r1 & r2 & Hr1 & Hr2 & ->).
  cbn [fetch_pages List.length Nat.ltb Nat.leb].
  unfold bind at 1, call at 1. rewrite Hp.
  change (String.eqb "select" "raw") with false.
  change (String.eqb "select" "select") with true. cbn iota.
  unfold bind at 1. cbn [Nat.eqb]. rewrite Hrows. unfold ret at 1. cbn [fst snd].
  unfold bind at 1, lift at 1. rewrite Hr1. cbn [app requests].
  cbn [ends_at_last] in Hends. destruct rest as [|p' rest'].
  - cbn [flat_map] in Hr2.
    assert (r2 = []) as ->.
    { unfold parse, rbind in Hr2.
      destruct (get_var_char_values header); [now injection Hr2 | discriminate]. }
    rewrite app_nil_r. cbn [requests].
    destruct (NextToken first) as [t|]; [contradiction | reflexivity].
  - destruct (NextToken first) as [t|]; [|contradiction].
    destruct Hends as [_ Hends]. cbn [existsb app].
    rewrite (fetch_rest rt query_id header (p' :: rest') limit 1 [t] _ _ r2);
      try assumption.
    + rewrite map_app, <- app_assoc. reflexivity.
    + discriminate.
    + cbn [List.length] in *. lia.
Qed.

Lemma pagination_drains_all_pages_witness :
  let rt := scripted ["SUCCEEDED"] looping_pages [] in
  let ready := polled (submitted wh "SELECT a FROM t" []) "query-1" 1 in
  load_with_athena_query rt wh 2 "SELECT a FROM t" "select" 10000 []
  = Some (Ok (map ParsedRow [[("a", "1")]; [("a", "2")]; [("a", "3")]]),
          (ready ++ requests "query-1" None looping_pages)%list).
Proof.
  cbn zeta.
  apply (pagination_drains_all_pages (scripted ["SUCCEEDED"] looping_pages []) wh
           "SELECT a FROM t" "query-1" 10000 [] 0 2
           {| Rows := [[Some "a"]; [Some "1"]]; NextToken := Some "t1" |}
           [ {| Rows := [[Some "2"]]; NextToken := Some "t2" |};
             {| Rows := [[Some "3"]]; NextToken := Some "t1" |} ]
           [Some "a"] [[Some "1"]]).
  - reflexivity.
  - split; [intros k Hk; lia | reflexivity].
  - lia.
  - repeat split.
  - cbn. split; [tauto|]. split; [|now left]. intros [E | []]. discriminate.
  - cbn. lia.
  - reflexivity.
  - reflexivity.
Defined.

Lemma fetch_capped (rt : Runtime) (query_id : string) (header : row)
    (pages : list raw_result) :
  forall (index : nat) (next_tokens : list string) (result0 : list query_item)
         (h : history) (r : list (dict string)),
    index <> 0 ->
    served rt query_id (request_token next_tokens) pages h ->
    all_fresh next_tokens pages ->
    parse header (flat_map Rows pages) = Ok r ->
    fetch_pages rt (List.length pages) index "select" query_id next_tokens header result0 h
    = (Ok (result0 ++ map ParsedRow r)%list,
       (h ++ requests query_id (request_token next_tokens) pages)%list).
Proof.
  induction pages as [|p rest IH];
    intros index next_tokens result0 h r Hindex Hserved Hfresh Hparse.
  - cbn [flat_map] in Hparse.
    assert (r = []) as ->.
    { unfold parse, rbind in Hparse.
      destruct (get_var_char_values header); [now injection Hparse | discriminate]. }
    cbn [List.length fetch_pages requests map]. unfold ret. now rewrite !app_nil_r.
  - cbn [served] in Hserved. destruct Hserved as [Hp Hserved].
    cbn [flat_map] in Hparse. apply parse_app in Hparse as (r1 & r2 & Hr1 & Hr2 & ->).
    cbn [List.length fetch_pages]. fold (request_token next_tokens).
    unfold bind at 1, call at 1. rewrite Hp.
    change (String.eqb "select" "raw") with false.
    change (String.eqb "select" "select") with true. cbn iota.
    apply Nat.eqb_neq in Hindex. rewrite Hindex.
    unfold bind at 1, ret at 1. cbn [fst snd].
    unfold bind at 1, lift at 1. rewrite Hr1.
    cbn [requests]. cbn [all_fresh] in Hfresh.
    destruct (NextToken p) as [t|]; [|contradiction].
    destruct Hfresh as [Hnew Hfresh].
    assert (Hunseen : existsb (String.eqb t) next_tokens = false).
    { destruct (existsb (String.eqb t) next_tokens) eqn:E; [|reflexivity].
      apply seen_token in E. contradiction. }
    rewrite Hunseen.
    rewrite (IH (S index) (next_tokens ++ [t])%list _ _ r2); try assumption.
    + rewrite request_token_snoc, map_app, <- !app_assoc. reflexivity.
    + discriminate.
    + now rewrite request_token_snoc.
Qed.

(** X20.  The page ceiling cuts the result short without a sign.  When the
    service serves [request_limit] pages that each announce a further page,
    the call requests exactly those pages and returns their rows as if the
    result were complete. *)
Theorem page_ceiling_truncates (rt : Runtime) (self : DataWarehouse)
    (query query_id : string) (h : history) (n fuel : nat)
    (first : raw_result) (rest : list raw_result) (header : row) (rows0 : list row)
    (r : list (dict string)) :
  let ready := polled (submitted self query h) query_id (S n) in
  athena_start_query_execution rt h query
    ("s3://" ++ bucket_name self ++ "/trash/athena_result") = Ok query_id ->
  reports_at rt (submitted self query h) query_id n "SUCCEEDED" ->
  n < fuel ->
  served rt query_id None (first :: rest) ready ->
  all_fresh [] (first :: rest) ->
  Rows first = header :: rows0 ->
  parse header (rows0 ++ flat_map Rows rest) = Ok r ->
  load_with_athena_query rt self fuel query "select"
                         (Z.of_nat (List.length (first :: rest))) h
  = Some (Ok (map ParsedRow r), (ready ++ requests query_id None (first :: rest))%list).
Proof.
  cbn zeta. intros Hstart Hrep Hlt Hserved Hfresh Hrows Hparse.
  rewrite (load_after_success rt self query "select" query_id _ h n fuel) by assumption.
  change (String.eqb "select" "auto") with false. cbn iota. f_equal.
  rewrite Nat2Z.id.
  cbn [served] in Hserved. destruct Hserved as [Hp Hserved].
  apply parse_app in Hparse as (r1 & r2 & Hr1 & Hr2 & ->).
  cbn [fetch_pages List.length Nat.ltb Nat.leb].
  unfold bind at 1, call at 1. rewrite Hp.
  change (String.eqb "select" "raw") with false.
  change (String.eqb "select" "select") with true. cbn iota.
  unfold bind at 1. cbn [Nat.eqb]. rewrite Hrows. unfold ret at 1. cbn [fst snd].
  unfold bind at 1, lift at 1. rewrite Hr1. cbn [app requests].
  cbn [all_fresh] in Hfresh.
  destruct (NextToken first) as [t|]; [|contradiction].
  destruct Hfresh as [_ Hfresh]. cbn [existsb app].
  rewrite (fetch_capped rt query_id header rest 1 [t] _ _ r2); try assumption.
  - rewrite map_app, <- app_assoc. reflexivity.
  - discriminate.
Qed.

Lemma page_ceiling_truncates_witness :
  let rt := scripted ["SUCCEEDED"] looping_pages [] in
  let ready := polled (submitted wh "SELECT a FROM t" []) "query-1" 1 in
  let two := [ {| Rows := [[Some "a"]; [Some "1"]]; NextToken := Some "t1" |};
               {| Rows := [[Some "2"]]; NextToken := Some "t2" |} ] in
  load_with_athena_query rt wh 2 "SELECT a FROM t" "select" (Z.of_nat (List.length two)) []
  = Some (Ok (map ParsedRow [[("a", "1")]; [("a", "2")]]),
          (ready ++ requests "query-1" None two)%list).
Proof.
  cbn zeta.
  apply (page_ceiling_truncates (scripted ["SUCCEEDED"] looping_pages []) wh
           "SELECT a FROM t" "query-1" [] 0 2
           {| Rows := [[Some "a"]; [Some "1"]]; NextToken := Some "t1" |}
           [ {| Rows := [[Some "2"]]; NextToken := Some "t2" |} ]
           [Some "a"] [[Some "1"]]).
  - reflexivity.
  - split; [intros k Hk; lia | reflexivity].
  - lia.
  - repeat split.
  - cbn. split; [tauto|]. split; [|exact I]. intros [E | []]. discriminate.
  - reflexivity.
  - reflexivity.
Defined.

(** X21.  In ["auto"] mode the rows are parsed exactly when the query text
    has [SELECT] or [select] somewhere inside it, in one of these two
    spellings; any other text, [Select] included, is run in raw mode.  So
    when the query has succeeded and the service answers the first request
    with a page that carries no continuation token, a query with one of the
    two spellings returns the rows of the page zipped against its first row
    (or fails on a page without rows), and any other query returns the page
    as it came. *)
Theorem auto_format_detection (rt : Runtime) (self : DataWarehouse) (query : string)
    (request_limit : Z) (fuel : nat) (h : history) :
  ((exists a b, query = a ++ "SELECT" ++ b) \/ (exists a b, query = a ++ "select" ++ b) ->
   load_with_athena_query rt self fuel query "auto" request_limit h
   = load_with_athena_query rt self fuel query "select" request_limit h) /\
  (~ (exists a b, query = a ++ "SELECT" ++ b) ->
   ~ (exists a b, query = a ++ "select" ++ b) ->
   load_with_athena_query rt self fuel query "auto" request_limit h
   = load_with_athena_query rt self fuel query "raw" request_limit h) /\
  (forall (query_id : string) (n : nat) (page : raw_result),
     let ready := polled (submitted self query h) query_id (S n) in
     let asked := (ready ++ [AthenaResults query_id None])%list in
     athena_start_query_execution rt h query
       ("s3://" ++ bucket_name self ++ "/trash/athena_result") = Ok query_id ->
     reports_at rt (submitted self query h) query_id n "SUCCEEDED" ->
     n < fuel ->
     (1 <= request_limit)%Z ->
     athena_get_query_results rt ready query_id None = Ok page ->
     NextToken page = None ->
     ((exists a b, query = a ++ "SELECT" ++ b) \/ (exists a b, query = a ++ "select" ++ b) ->
      load_with_athena_query rt self fuel query "auto" request_limit h
      = Some (match Rows page with
              | [] => Raise (ValueError
                        "not enough values to unpack (expected at least 1, got 0)")
              | header :: rows =>
                  match parse header rows with
                  | Ok r => Ok (map ParsedRow r)
                  | Raise e => Raise e
                  end
              end, asked)) /\
     (~ (exists a b, query = a ++ "SELECT" ++ b) ->
      ~ (exists a b, query = a ++ "select" ++ b) ->
      load_with_athena_query rt self fuel query "auto" request_limit h
      = Some (Ok [RawPage page], asked))).
Proof.
  assert (Hsel : (exists a b, query = a ++ "SELECT" ++ b)
                 \/ (exists a b, query = a ++ "select" ++ b) ->
                 get_format_type query = "select").
  { unfold get_format_type. intros [H | H]; apply contains_spec in H; rewrite H;
      [reflexivity | now rewrite orb_true_r]. }
  assert (Hraw : ~ (exists a b, query = a ++ "SELECT" ++ b) ->
                 ~ (exists a b, query = a ++ "select" ++ b) ->
                 get_format_type query = "raw").
  { unfold get_format_type. intros Hupper Hlower.
    destruct (PyStr.contains query "SELECT") eqn:E1;
      [apply contains_spec in E1; contradiction|].
    destruct (PyStr.contains query "select") eqn:E2;
      [apply contains_spec in E2; contradiction|].
    reflexivity. }
  split; [|split].
  - intros H. unfold load_with_athena_query.
    change (String.eqb "auto" "auto") with true.
    change (String.eqb "select" "auto") with false. cbn iota. now rewrite (Hsel H).
  - intros Hupper Hlower. unfold load_with_athena_query.
    change (String.eqb "auto" "auto") with true.
    change (String.eqb "raw" "auto") with false. cbn iota. now rewrite (Hraw Hupper Hlower).
  - cbn zeta. intros query_id n page Hstart Hrep Hlt Hlimit Hpage Htoken.
    rewrite (load_after_success rt self query "auto" query_id request_limit h n fuel)
      by assumption.
    change (String.eqb "auto" "auto") with true. cbn iota.
    destruct (Z.to_nat request_limit) as [|limit] eqn:Hl; [lia|].
    split.
    + intros H. rewrite (Hsel H). f_equal.
      cbn [fetch_pages List.length Nat.ltb Nat.leb Nat.eqb]. unfold bind at 1, call at 1.
      rewrite Hpage.
      change (String.eqb "select" "raw") with false.
      change (String.eqb "select" "select") with true. cbn iota.
      unfold bind, raise, ret, lift.
      destruct (Rows page) as [|header rows]; [reflexivity|]. cbn [fst snd].
      destruct (parse header rows) as [r|e]; [|reflexivity].
      now rewrite Htoken.
    + intros Hupper Hlower. rewrite (Hraw Hupper Hlower). f_equal.
      cbn [fetch_pages List.length Nat.ltb Nat.leb]. unfold bind, call, ret.
      rewrite Hpage. reflexivity.
Qed.

Lemma auto_format_detection_witness :
  let rt := scripted ["SUCCEEDED"] looping_pages [] in
  load_with_athena_query rt wh 2 "SELECT a FROM t" "auto" 10000 []
  = Some (Ok (map ParsedRow [[("a", "1")]; [("a", "2")]; [("a", "3")]]),
          (polled (submitted wh "SELECT a FROM t" []) "query-1" 1
             ++ requests "query-1" None looping_pages)%list) /\
  load_with_athena_query rt wh 2 "Select a FROM t" "auto" 10000 []
  = Some (Ok [RawPage {| Rows := [[Some "a"]; [Some "1"]]; NextToken := Some "t1" |}],
          (polled (submitted wh "Select a FROM t" []) "query-1" 1
             ++ [AthenaResults "query-1" None])%list) /\
  load_with_athena_query
    (scripted ["RUNNING"; "SUCCEEDED"] [{| Rows := [[Some "a"]; [Some "1"]]; NextToken := None |}] [])
    wh 3 "select a from t" "auto" 1 []
  = Some (Ok [ParsedRow [("a", "1")]],
          (polled (submitted wh "select a from t" []) "query-1" 2
             ++ [AthenaResults "query-1" None])%list).
Proof.
  cbn zeta. split; [|split].
  - rewrite (proj1 (auto_format_detection (scripted ["SUCCEEDED"] looping_pages []) wh
                      "SELECT a FROM t" 10000 2 [])).
    + vm_compute. reflexivity.
    + left. now exists "", " a FROM t".
  - rewrite (proj1 (proj2 (auto_format_detection (scripted ["SUCCEEDED"] looping_pages []) wh
                             "Select a FROM t" 10000 2 []))).
    + vm_compute. reflexivity.
    + intros H. apply contains_spec in H. vm_compute in H. discriminate.
    + intros H. apply contains_spec in H. vm_compute in H. discriminate.
  - refine (proj1 (proj2 (proj2 (auto_format_detection
                                   (scripted ["RUNNING"; "SUCCEEDED"]
                                      [{| Rows := [[Some "a"]; [Some "1"]]; NextToken := None |}]
                                      [])
                                   wh "select a from t" 1 3 []))
                     "query-1" 1 {| Rows := [[Some "a"]; [Some "1"]]; NextToken := None |}
                     _ _ _ _ _ _) _).
    + reflexivity.
    + split; [|reflexivity].
      intros [|k] Hk; [|lia]. exists "RUNNING". split; reflexivity.
    + lia.
    + lia.
    + reflexivity.
    + reflexivity.
    + right. now exists "", " a from t".
Defined.

(** ** Parsing result rows *)

Lemma var_char_values_some (vs : list string) :
  get_var_char_values (map Some vs) = Ok vs.
Proof.
  unfold get_var_char_values. induction vs as [|v vs IH]; [reflexivity|].
  cbn [map rmap]. now rewrite IH.
Qed.

Lemma var_char_values_null (d : row) :
  Exists (fun cell => cell = None) d ->
  get_var_char_values d = Raise (KeyError "VarCharValue").
Proof.
  unfold get_var_char_values. induction 1 as [cell d Hnull | cell d _ IH].
  - subst cell. reflexivity.
  - cbn [rmap]. destruct cell; [now rewrite IH | reflexivity].
Qed.

Lemma set_fresh {V : Type} (k : string) (v : V) (d : dict V) :
  ~ In k (Dict.keys d) -> Dict.set k v d = (d ++ [(k, v)])%list.
Proof.
  induction d as [|[k' v'] d IH]; cbn [Dict.set Dict.keys map fst app]; [reflexivity|].
  intros Hfresh. destruct (String.eqb_spec k' k) as [-> | _].
  - exfalso. apply Hfresh. now left.
  - rewrite IH; [reflexivity|]. intros Hin. apply Hfresh. now right.
Qed.

Lemma of_pairs_distinct {V : Type} (l : list (string * V)) :
  NoDup (map fst l) -> Dict.of_pairs l = l.
Proof.
  unfold Dict.of_pairs.
  assert (H : forall acc : dict V,
            NoDup (map fst (acc ++ l)) ->
            fold_left (fun d kv => Dict.set (fst kv) (snd kv) d) l acc = (acc ++ l)%list).
  { induction l as [|[k v] l IH]; intros acc Hnd; cbn [fold_left]; [now rewrite app_nil_r|].
    cbn [fst snd]. rewrite set_fresh.
    - rewrite IH; rewrite <- app_assoc; [reflexivity | exact Hnd].
    - rewrite map_app in Hnd. cbn [map fst] in Hnd.
      apply NoDup_remove_2 in Hnd. intros Hin. apply Hnd, in_or_app. now left. }
  intros Hnd. now apply (H []).
Qed.

Lemma combine_keys_distinct {V : Type} (hs : list string) :
  NoDup hs -> forall vs : list V, NoDup (map fst (combine hs vs)).
Proof.
  induction 1 as [|h hs Hfresh _ IH]; intros vs; [constructor|].
  destruct vs as [|v vs]; [constructor|]. cbn [combine map fst]. constructor; [|apply IH].
  intros Hin. apply Hfresh. apply in_map_iff in Hin as ([k x] & <- & Hin).
  now apply in_combine_l in Hin.
Qed.

Lemma var_char_values_cases (d : row) :
  (exists vs, get_var_char_values d = Ok vs) \/
  get_var_char_values d = Raise (KeyError "VarCharValue").
Proof.
  unfold get_var_char_values. induction d as [|cell d IH]; [left; now exists []|].
  cbn [rmap]. destruct cell as [v|]; [|now right].
  destruct IH as [[vs ->] | ->]; [left; now exists (v :: vs) | now right].
Qed.

Lemma rows_null (names : list string) (rows : list row) :
  Exists (Exists (fun cell => cell = None)) rows ->
  rmap (fun r => values <- get_var_char_values r ;;
                 Ok (Dict.of_pairs (combine names values)))%res rows
  = Raise (KeyError "VarCharValue").
Proof.
  induction 1 as [r rows Hnull | r rows _ IH]; cbn [rmap].
  - now rewrite var_char_values_null.
  - destruct (var_char_values_cases r) as [[vs ->] | ->]; cbn [rbind]; [|reflexivity].
    now rewrite IH.
Qed.

(** X22.  How result rows become records.  When every cell carries a value
    and the column names are distinct, each row becomes the list of its
    columns in header order, paired with the row's values up to the shorter
    of the two; and a single cell without a value, in the header or in any
    row, makes the whole parse raise [KeyError]. *)
Theorem parse_zips_rows (header : row) (rows : list row) :
  (forall (names : list string) (values : list (list string)),
     header = map Some names -> rows = map (map Some) values -> NoDup names ->
     parse header rows = Ok (map (combine names) values)) /\
  (Exists (fun cell => cell = None) header \/
   Exists (Exists (fun cell => cell = None)) rows ->
   parse header rows = Raise (KeyError "VarCharValue")).
Proof.
  split.
  - intros names values -> -> Hnd. unfold parse. rewrite var_char_values_some.
    cbn [rbind]. induction values as [|vs values IH]; [reflexivity|].
    cbn [map rmap]. rewrite var_char_values_some. cbn [rbind]. rewrite IH.
    now rewrite of_pairs_distinct by now apply combine_keys_distinct.
  - intros [Hheader | Hrows]; unfold parse.
    + now rewrite var_char_values_null.
    + destruct (var_char_values_cases header) as [[names ->] | ->]; cbn [rbind];
        [now apply rows_null | reflexivity].
Qed.

Lemma parse_zips_rows_witness :
  parse [Some "id"; Some "name"] [[Some "1"; Some "ann"]; [Some "2"]]
  = Ok [[("id", "1"); ("name", "ann")]; [("id", "2")]].
Proof.
  apply (proj1 (parse_zips_rows [Some "id"; Some "name"] [[Some "1"; Some "ann"]; [Some "2"]])
           ["id"; "name"] [["1"; "ann"]; ["2"]]).
  - reflexivity.
  - reflexivity.
  - repeat constructor; cbn; intuition discriminate.
Defined.

(** ** The compression suffix *)

Lemma built_key_suffix (self : DataWarehouse)
    (store_kind table_name0 user_path table_kind ymd key : string) (is_meta : bool) :
  _get_warehouse_full_path self store_kind table_name0 user_path table_kind ymd is_meta
    = Some key ->
  exists stem : string, key = stem ++ user_path ++ compression_suffix user_path.
Proof.
  unfold _get_warehouse_full_path, compression_suffix.
  set (suffix := if String.eqb (snd (OsPath.splitext user_path)) ".parquet" then "" else ".gz").
  set (ymd_with_slash := if String.eqb ymd "" then "" else "/" ++ ymd).
  set (channel := if is_meta then "meta" else "value").
  intros Hkey.
  destruct (String.eqb store_kind "raw");
    [|destruct (String.eqb store_kind "discovery"); [|discriminate]];
    injection Hkey as <-.
  - exists ("raw/" ++ table_kind ++ "/" ++ channel ++ "/" ++ _get_table_name self table_name0
            ++ ymd_with_slash ++ "/").
    repeat (rewrite append_assoc; simpl). reflexivity.
  - exists ("discovery/" ++ table_kind ++ "/" ++ channel ++ "/"
            ++ _get_table_name self table_name0 ++ ymd_with_slash ++ "/").
    repeat (rewrite append_assoc; simpl). reflexivity.
Qed.

(** X23.  The suffix rule of the key builder, and that the decoder can read
    it back.  A built key, value or meta, ends in the caller's path followed
    by [.gz], except when the extension of that path is [.parquet], where
    nothing is appended; and the key ends in [.gz], the test
    [_parse_full_path] makes, exactly when the extension of the caller's path
    is not [.parquet]. *)
Theorem built_key_compression (self : DataWarehouse)
    (store_kind table_name0 user_path table_kind ymd key : string) (is_meta : bool) :
  _get_warehouse_full_path self store_kind table_name0 user_path table_kind ymd is_meta
    = Some key ->
  (snd (OsPath.splitext user_path) = ".parquet" ->
   PyStr.last_n (String.length user_path) key = user_path) /\
  (snd (OsPath.splitext user_path) <> ".parquet" ->
   PyStr.last_n (String.length user_path) (PyStr.drop_last_n 3 key) = user_path) /\
  String.eqb (PyStr.last_n 3 key) ".gz"
    = negb (String.eqb (snd (OsPath.splitext user_path)) ".parquet").
Proof.
  intros Hkey. apply built_key_suffix in Hkey as [stem ->].
  unfold compression_suffix.
  destruct (String.eqb_spec (snd (OsPath.splitext user_path)) ".parquet") as [He | He].
  - rewrite append_empty_r. split; [|split].
    + intros _. now apply last_n_append.
    + intros Hne. now elim Hne.
    + now apply gz_suffix_kept.
  - split; [|split].
    + intros Heq. now elim He.
    + intros _. rewrite <- !append_assoc, drop_last_n_append by reflexivity.
      now apply last_n_append.
    + rewrite <- !append_assoc, last_n_append by reflexivity. reflexivity.
Qed.

Lemma built_key_compression_witness :
  PyStr.last_n 3 "raw/log/value/events/2020-01-01/a.json.gz" = ".gz".
Proof.
  apply String.eqb_eq.
  apply (proj2 (proj2 (built_key_compression wh "raw" "" "a.json" "log" "2020-01-01"
                         "raw/log/value/events/2020-01-01/a.json.gz" false eq_refl))).
Defined.

(** A file whose whole name is [.parquet] has no extension for
    [os.path.splitext], so its key is compressed like any other. *)
Example hidden_parquet_is_compressed :
  _get_warehouse_full_path wh "raw" "" "dir/.parquet" "log" "2020-01-01" false
  = Some "raw/log/value/events/2020-01-01/dir/.parquet.gz".
Proof. reflexivity. Qed.
